(** * Upsilon Workshop API: the models, serializers and views of
      [workshop/api], embedded in Rocq.

    The repository is a Django / Django REST framework application.  Its own
    code is declarative model classes ([models.py]), serializer classes with
    a handful of overridden methods ([serializers.py]) and view sets with one
    overridden handler ([views.py]).  The embedding keeps that shape:

    - a table is a finite map from primary key to row ([gmap Z _]);
    - a database is a record of tables and of the sequences that hand out
      primary keys;
    - [validated_data] is a record of optional fields, a field being present
      in the Python dict exactly when it is [Some _] here;
    - a request body and a response payload are JSON-like values;
    - every handler is a function from the database before the request to
      the database after it and what the handler returns or raises;
    - the statements a handler sends to the store are atomic one by one, and
      the handler that sends more than one is also given as a machine that
      other requests can interleave with.

    Functions named after a class and a method ([UserSerializer_update],
    [ScriptViewSet_retrieve], ...) are the repository's own methods.  The
    pieces of Django and of the REST framework they call are modelled next to
    them and say so; code of the repository that is not available
    ([validators.py], [permissions.py]) and opaque library functions (the
    password hasher, the normalisers of [create_user]) are the methods of
    three type classes, so that every property holds whatever they are. *)

From Stdlib Require Import Floats ZArith Lia.
From stdpp Require Import gmap strings list pretty sorting.

Set Warnings "-register-all".

Local Open Scope Z_scope.
Local Open Scope string_scope.

(** ** Values on the wire *)

(** A JSON document, as a request body holds it and as a response carries it.
    A number of a request body is the float that Python's [float(data)] makes
    of it; integers and timestamps only occur in responses.  A hyperlink is
    kept structured: [VUrl "script-detail" 3] is the URL that reverses to that
    view name and primary key. *)
Inductive value : Type :=
| VNull
| VBool (b : bool)
| VNum (f : float)
| VInt (z : Z)
| VStr (s : string)
| VDateTime (t : Z)
| VUrl (view : string) (pk : Z)
| VList (l : list value)
| VDict (l : list (string * value)).

(** A response payload: a Python dict, in insertion order. *)
Definition representation := list (string * value).

Definition keys (r : representation) : list string := map fst r.

(** [representation['k']] *)
Fixpoint getitem (r : representation) (k : string) : option value :=
  match r with
  | [] => None
  | (k', v) :: r' => if String.eqb k' k then Some v else getitem r' k
  end.

(** ** Errors *)

Inductive error : Type :=
| ValidationError (errors : list (string * list string))
| NotAuthenticated
| PermissionDenied (detail : string)
| Http404
| ValueError (msg : string)
| TypeError (msg : string)
| KeyError (key : string)
| OverflowError
| IntegrityError (msg : string).

Inductive result (A : Type) : Type :=
| Ok (a : A)
| Err (e : error).
Arguments Ok {A} a.
Arguments Err {A} e.

(** Raising aborts what follows: [x ← r; k] runs [k] on the value of [r]
    and hands an error of [r] on. *)
#[global] Instance result_ret : MRet result := fun A a => Ok a.

#[global] Instance result_bind : MBind result := fun A B k r =>
  match r with
  | Ok a => k a
  | Err e => Err e
  end.

Definition is_ok {A} (r : result A) : bool :=
  match r with Ok _ => true | Err _ => false end.

(** ** models.py *)

(** [MAX_FILE_SIZE = 100 * 1024] *)
Definition MAX_FILE_SIZE : Z := 100 * 1024.

(** [django.contrib.auth.models.Group] *)
Record Group := mkGroup {
  Group_pk : Z;
  Group_name : string
}.

(** [django.contrib.auth.models.User], with the columns the API reads or
    writes.  [User_groups] is the many-to-many relation in the order
    [instance.groups.all()] yields it. *)
Record User := mkUser {
  User_pk : Z;
  User_username : string;
  User_email : string;
  User_password : string;
  User_is_staff : bool;
  User_date_joined : Z;
  User_groups : list Z
}.

(** [class Rating(models.Model)] *)
Record Rating := mkRating {
  Rating_pk : Z;
  Rating_rating : float;
  Rating_comment : string;
  Rating_created : Z;
  Rating_modified : Z;
  Rating_user : Z;
  Rating_script : Z
}.

(** [class OS(models.Model)] *)
Record OS := mkOS {
  OS_pk : Z;
  OS_name : string;
  OS_description : string;
  OS_url : string
}.

(** [class Script(models.Model)] *)
Record Script := mkScript {
  Script_pk : Z;
  Script_files : value;
  Script_name : string;
  Script_author : Z;
  Script_created : Z;
  Script_modified : Z;
  Script_language : string;
  Script_version : string;
  Script_description : string;
  Script_views : Z;
  Script_licence : string;
  Script_compatibility : list Z
}.

(** The store: one table per model and one sequence per table that creates
    rows. *)
Record DB := mkDB {
  auth_user : gmap Z User;
  auth_group : gmap Z Group;
  api_os : gmap Z OS;
  api_script : gmap Z Script;
  api_rating : gmap Z Rating;
  seq_user : Z;
  seq_script : Z;
  seq_rating : Z
}.

Definition set_auth_user (f : gmap Z User -> gmap Z User) (db : DB) : DB :=
  mkDB (f (auth_user db)) (auth_group db) (api_os db) (api_script db)
       (api_rating db) (seq_user db) (seq_script db) (seq_rating db).

Definition set_api_script (f : gmap Z Script -> gmap Z Script) (db : DB) : DB :=
  mkDB (auth_user db) (auth_group db) (api_os db) (f (api_script db))
       (api_rating db) (seq_user db) (seq_script db) (seq_rating db).

Definition set_api_rating (f : gmap Z Rating -> gmap Z Rating) (db : DB) : DB :=
  mkDB (auth_user db) (auth_group db) (api_os db) (api_script db)
       (f (api_rating db)) (seq_user db) (seq_script db) (seq_rating db).

(** [request.user]: Django's [AnonymousUser] or a row of [auth_user]. *)
Inductive request_user : Type :=
| AnonymousUser
| Authenticated (u : User).

(** [request.user.is_staff]; [AnonymousUser.is_staff] is the constant
    [False]. *)
Definition is_staff (ru : request_user) : bool :=
  match ru with
  | AnonymousUser => false
  | Authenticated u => User_is_staff u
  end.

(** [instance == request.user]: two model instances are equal when they are
    of the same model and have the same primary key; [AnonymousUser] is not a
    model instance. *)
Definition User_eq (instance : User) (ru : request_user) : bool :=
  match ru with
  | AnonymousUser => false
  | Authenticated u => bool_decide (User_pk instance = User_pk u)
  end.

(** ** The object-relational mapper *)

(** [get_object_or_404(queryset, pk=pk)] *)
Definition get_object_or_404 {A} (table : gmap Z A) (pk : Z) : result A :=
  match table !! pk with
  | Some row => Ok row
  | None => Err Http404
  end.

Definition Script_with_views (s : Script) (v : Z) : Script :=
  mkScript (Script_pk s) (Script_files s) (Script_name s) (Script_author s)
           (Script_created s) (Script_modified s) (Script_language s)
           (Script_version s) (Script_description s) v (Script_licence s)
           (Script_compatibility s).

Definition Script_with_modified (s : Script) (t : Z) : Script :=
  mkScript (Script_pk s) (Script_files s) (Script_name s) (Script_author s)
           (Script_created s) t (Script_language s)
           (Script_version s) (Script_description s) (Script_views s)
           (Script_licence s) (Script_compatibility s).

(** [Script.objects.filter(pk=pk).update(views=v)]: one UPDATE statement
    that writes the column [views] of the rows whose key is [pk], and no
    other column.  A queryset update does not call [save()], so the
    [auto_now] field [modified] is not refreshed.  When no row has that key
    the statement changes nothing. *)
Definition Script_objects_filter_update_views (db : DB) (pk : Z) (v : Z) : DB :=
  set_api_script (alter (fun s => Script_with_views s v) pk) db.

(** [instance.save()] on a Script: [pre_save] of the [auto_now] field sets
    [modified] to the current time, then every column of the row is
    written. *)
Definition Script_save (db : DB) (now : Z) (instance : Script) : DB * Script :=
  let saved := Script_with_modified instance now in
  (set_api_script (insert (Script_pk saved) saved) db, saved).

Definition Rating_with_modified (r : Rating) (t : Z) : Rating :=
  mkRating (Rating_pk r) (Rating_rating r) (Rating_comment r)
           (Rating_created r) t (Rating_user r) (Rating_script r).

(** [instance.save()] on a Rating. *)
Definition Rating_save (db : DB) (now : Z) (instance : Rating) : DB * Rating :=
  let saved := Rating_with_modified instance now in
  (set_api_rating (insert (Rating_pk saved) saved) db, saved).

(** [instance.save()] on a User. *)
Definition User_save (db : DB) (instance : User) : DB * User :=
  (set_auth_user (insert (User_pk instance) instance) db, instance).

(** [instance.delete()] on a Script.  Django's collector follows every
    foreign key declared with [on_delete=models.CASCADE]: [Rating.script]. *)
Definition Script_delete (db : DB) (pk : Z) : DB :=
  set_api_rating (filter (fun kr => Rating_script kr.2 <> pk))
    (set_api_script (delete pk) db).

(** The keys of the scripts a user wrote. *)
Definition scripts_of (db : DB) (user_pk : Z) : gmap Z Script :=
  filter (fun ks => Script_author ks.2 = user_pk) (api_script db).

(** [instance.delete()] on a User.  The collector follows [Script.author]
    and [Rating.user], and from each collected script [Rating.script]. *)
Definition User_delete (db : DB) (pk : Z) : DB :=
  let collected := scripts_of db pk in
  set_auth_user (delete pk)
    (set_api_script (filter (fun ks => Script_author ks.2 <> pk))
      (set_api_rating
         (filter (fun kr => Rating_user kr.2 <> pk
                            /\ collected !! Rating_script kr.2 = None))
         db)).

(** The rows of a reverse relation ([script.ratings], [user.scripts],
    [user.ratings]) as the keys of the rows that point at [pk], in the order
    of the keys: the models declare no ordering and the table is read in the
    order of its primary key. *)
Definition related_pks {A} (fk : A -> Z) (table : gmap Z A) (pk : Z) : list Z :=
  merge_sort Z.le (map_to_list (filter (fun kr => fk kr.2 = pk) table)).*1.

(** ** Collaborators outside [models.py], [serializers.py] and [views.py] *)

Inductive http_method : Type := GET | HEAD | OPTIONS | POST | PUT | PATCH | DELETE.

(** [rest_framework.permissions.SAFE_METHODS] *)
Definition SAFE_METHODS (m : http_method) : bool :=
  match m with
  | GET | HEAD | OPTIONS => true
  | _ => false
  end.

(** A permission class of the REST framework: its two predicates. *)
Record permission (A : Type) := mkPermission {
  has_permission : http_method -> request_user -> bool;
  has_object_permission : http_method -> request_user -> A -> bool
}.
Arguments mkPermission {A} _ _.
Arguments has_permission {A} _ _ _.
Arguments has_object_permission {A} _ _ _ _.

(** [rest_framework.permissions.IsAuthenticatedOrReadOnly] *)
Definition IsAuthenticatedOrReadOnly {A} : permission A :=
  mkPermission
    (fun m ru => SAFE_METHODS m ||
                 match ru with AnonymousUser => false | Authenticated _ => true end)
    (fun _ _ _ => true).

(** [rest_framework.permissions.AllowAny] *)
Definition AllowAny {A} : permission A :=
  mkPermission (fun _ _ => true) (fun _ _ _ => true).

(** [workshop/api/permissions.py] is not among the available sources: its
    five classes are taken as they come. *)
Class Permissions := {
  IsAdminOrReadOnly : forall A, permission A;
  ReadWriteWithoutPost : permission User;
  IsOwnerOrReadOnly : permission User;
  IsScriptOwnerOrReadOnly : permission Script;
  IsRatingOwnerOrReadOnly : permission Rating
}.

(** [workshop/api/validators.py] is not among the available sources.  A
    validator raises [ValidationError] or returns; here it answers the
    message it raises, or [None].  [validate_email] consults the table of
    users. *)
Class Validators := {
  validate_language : string -> option string;
  validate_email : gmap Z User -> string -> option string;
  validate_script_files : value -> option string
}.

(** Functions of Python and Django whose result is opaque here. *)
Class Library := {
  (** [django.contrib.auth.hashers.make_password]; the password [None]
      gives an unusable one *)
  make_password : option string -> string;
  (** [BaseUserManager.normalize_email] *)
  normalize_email : string -> string;
  (** [AbstractBaseUser.normalize_username] *)
  normalize_username : string -> string;
  (** [django.contrib.auth.validators.UnicodeUsernameValidator] *)
  UnicodeUsernameValidator : string -> bool;
  (** [django.core.validators.EmailValidator] *)
  EmailValidator : string -> bool;
  (** [str.strip] *)
  str_strip : string -> string;
  (** [float(s)] on a string; [None] is [ValueError] *)
  float_of_str : string -> option float;
  (** [str(f)] on a float *)
  str_of_float : float -> string
}.

(** [float(z)] on an integer: the nearest double, ties to even;
    [OverflowError] when there is none. *)
Definition float_of_int (z : Z) : option float :=
  let f := SF2Prim (SpecFloat.binary_normalize FloatOps.prec FloatOps.emax z 0 false) in
  if PrimFloat.is_infinity f then None else Some f.

(** [APIView.permission_denied]: an unauthenticated request is answered 401,
    an authenticated one 403. *)
Definition permission_denied (ru : request_user) : error :=
  match ru with
  | AnonymousUser => NotAuthenticated
  | Authenticated _ => PermissionDenied "You do not have permission to perform this action."
  end.

(** [APIView.check_permissions] *)
Fixpoint check_permissions {A} (permission_classes : list (permission A))
    (m : http_method) (ru : request_user) : result unit :=
  match permission_classes with
  | [] => Ok tt
  | p :: ps =>
      if has_permission p m ru then check_permissions ps m ru
      else Err (permission_denied ru)
  end.

(** [APIView.check_object_permissions] *)
Fixpoint check_object_permissions {A} (permission_classes : list (permission A))
    (m : http_method) (ru : request_user) (obj : A) : result unit :=
  match permission_classes with
  | [] => Ok tt
  | p :: ps =>
      if has_object_permission p m ru obj then check_object_permissions ps m ru obj
      else Err (permission_denied ru)
  end.

(** [GenericAPIView.get_object] *)
Definition get_object {A} (permission_classes : list (permission A))
    (table : gmap Z A) (m : http_method) (ru : request_user) (pk : Z) : result A :=
  obj ← get_object_or_404 table pk;
  _ ← check_object_permissions permission_classes m ru obj;
  Ok obj.

(** ** rest_framework.fields and rest_framework.relations *)

(** What [Field.run_validation] comes to: [SkipField], a value, or a
    [ValidationError] with its messages. *)
Inductive outcome (A : Type) : Type :=
| Skip
| Value (a : A)
| Fail (msgs : list string).
Arguments Skip {A}.
Arguments Value {A} a.
Arguments Fail {A} msgs.

(** [Field.validate_empty_values] of a writable field that has no default
    and does not allow null; [data] is [None] when the key is absent from
    the request body. *)
Definition validate_empty_values (partial required : bool) (data : option value)
    : outcome value :=
  match data with
  | None =>
      if partial then Skip
      else if required then Fail ["This field is required."]
      else Skip
  | Some VNull => Fail ["This field may not be null."]
  | Some v => Value v
  end.

(** [Field.run_validators]: every validator runs and the messages add up. *)
Definition run_validators {A} (validators : list (A -> option string)) (a : A)
    : list string :=
  omap (fun v => v a) validators.

(** [Field.run_validation] *)
Definition run_validation {A} (partial required : bool)
    (to_internal_value : value -> string + A)
    (validators : list (A -> option string)) (data : option value) : outcome A :=
  match validate_empty_values partial required data with
  | Skip => Skip
  | Fail msgs => Fail msgs
  | Value v =>
      match to_internal_value v with
      | inl msg => Fail [msg]
      | inr a =>
          match run_validators validators a with
          | [] => Value a
          | msgs => Fail msgs
          end
      end
  end.

(** A validator from a predicate and its message. *)
Definition validator {A} (passes : A -> bool) (message : string) (a : A)
    : option string :=
  if passes a then None else Some message.

(** [django.core.validators.MinValueValidator(limit)]: fails when
    [a < limit]. *)
Definition MinValueValidator (limit a : float) : bool :=
  negb (PrimFloat.ltb a limit).

(** [django.core.validators.MaxValueValidator(limit)]: fails when
    [a > limit]. *)
Definition MaxValueValidator (limit a : float) : bool :=
  negb (PrimFloat.ltb limit a).

(** [MaxLengthValidator(limit)] *)
Definition MaxLengthValidator (limit : nat) (s : string) : option string :=
  validator (fun s => bool_decide (String.length s <= limit)%nat)
    ("Ensure this field has no more than " +:+ pretty limit +:+ " characters.") s.

Fixpoint has_null_character (s : string) : bool :=
  match s with
  | EmptyString => false
  | String c s' => Ascii.eqb c Ascii.zero || has_null_character s'
  end.

(** [ProhibitNullCharactersValidator] *)
Definition ProhibitNullCharactersValidator : string -> option string :=
  validator (fun s => negb (has_null_character s)) "Null characters are not allowed.".

(** [UniqueValidator(queryset)]: no row other than the instance being
    updated holds the value in the column. *)
Definition UniqueValidator {A} (column : A -> string) (table : gmap Z A)
    (instance_pk : option Z) (message : string) : string -> option string :=
  validator
    (fun s => bool_decide
       (map_Forall (fun pk row => column row = s -> instance_pk = Some pk) table))
    message.

Section Fields.
Context {lib : Library}.

(** [CharField.to_internal_value]: a number is written out, a string is
    stripped of surrounding whitespace. *)
Definition CharField_to_internal_value (v : value) : string + string :=
  match v with
  | VStr s => inr (str_strip s)
  | VInt z => inr (pretty z)
  | VNum f => inr (str_of_float f)
  | _ => inl "Not a valid string."
  end.

(** [CharField.run_validation]: the blank check comes first; the
    validators given to the field run before the length validator and the
    null-character validator the field appends itself. *)
Definition CharField_run_validation (partial required allow_blank : bool)
    (max_length : option nat) (validators : list (string -> option string))
    (data : option value) : outcome string :=
  let blank :=
    match data with
    | Some (VStr s) =>
        bool_decide (s = EmptyString) || bool_decide (str_strip s = EmptyString)
    | _ => false
    end in
  if blank then
    if allow_blank then Value EmptyString else Fail ["This field may not be blank."]
  else
    run_validation partial required CharField_to_internal_value
      (validators
         ++ match max_length with Some n => [MaxLengthValidator n] | None => [] end
         ++ [ProhibitNullCharactersValidator])
      data.

(** [FloatField.to_internal_value]: [float(data)].  A [TypeError] or a
    [ValueError] is the field error [invalid]; the [OverflowError] of an
    integer beyond the doubles is not caught by the field and is [None]
    here. *)
Definition FloatField_to_internal_value (v : value) : option (string + float) :=
  match v with
  | VNum f => Some (inr f)
  | VInt z => inr <$> float_of_int z
  | VBool b => Some (inr (if b then 1%float else 0%float))
  | VStr s =>
      Some (if bool_decide (1000 < String.length s)%nat
            then inl "String value too large."
            else match float_of_str s with
                 | Some f => inr f
                 | None => inl "A valid number is required."
                 end)
  | _ => Some (inl "A valid number is required.")
  end.
End Fields.

(** [JSONField.to_internal_value]: any JSON document. *)
Definition JSONField_to_internal_value (v : value) : string + value := inr v.

(** [type(data).__name__] of a value of a request body; a hyperlink and a
    timestamp are strings on the wire. *)
Definition type_name (v : value) : string :=
  match v with
  | VNull => "NoneType"
  | VBool _ => "bool"
  | VNum _ => "float"
  | VInt _ => "int"
  | VStr _ | VDateTime _ | VUrl _ _ => "str"
  | VList _ => "list"
  | VDict _ => "dict"
  end.

(** The character that opens and closes a string of a message. *)
Definition double_quote : string := String (Ascii.ascii_of_nat 34) EmptyString.

(** [HyperlinkedRelatedField.to_internal_value]: what is not a string has
    no [startswith]; the URL has to resolve, to the expected view and to an
    existing row. *)
Definition HyperlinkedRelatedField_to_internal_value {A} (view_name : string)
    (table : gmap Z A) (v : value) : string + Z :=
  match v with
  | VUrl view pk =>
      if bool_decide (view = view_name) then
        match table !! pk with
        | Some _ => inr pk
        | None => inl "Invalid hyperlink - Object does not exist."
        end
      else inl "Invalid hyperlink - Incorrect URL match."
  | VStr _ | VDateTime _ => inl "Invalid hyperlink - No URL match."
  | _ => inl ("Incorrect type. Expected URL string, received " +:+ type_name v +:+ ".")
  end.

(** [RelatedField.run_validation]: the empty string is read as null. *)
Definition RelatedField_run_validation {A} (partial required : bool)
    (to_internal_value : value -> string + A) (data : option value) : outcome A :=
  run_validation partial required to_internal_value []
    match data with
    | Some (VStr EmptyString) => Some VNull
    | _ => data
    end.

(** The children of a [ManyRelatedField], left to right; the first one that
    fails raises. *)
Fixpoint many_to_internal_value {A} (child : value -> string + A) (l : list value)
    : string + list A :=
  match l with
  | [] => inr []
  | v :: l' =>
      match child v with
      | inl msg => inl msg
      | inr a =>
          match many_to_internal_value child l' with
          | inl msg => inl msg
          | inr rest => inr (a :: rest)
          end
      end
  end.

(** [ManyRelatedField.to_internal_value] with [allow_empty=True]: anything
    iterable that is not a string; iterating a dict yields its keys. *)
Definition ManyRelatedField_to_internal_value {A} (child : value -> string + A)
    (v : value) : string + list A :=
  match v with
  | VList l => many_to_internal_value child l
  | VDict l => many_to_internal_value child (map (fun kv => VStr kv.1) l)
  | _ =>
      inl ("Expected a list of items but got type " +:+ double_quote +:+ type_name v
             +:+ double_quote +:+ ".")
  end.

(** The entry of a field in the error dict of a serializer. *)
Definition field_errors {A} (name : string) (o : outcome A)
    : list (string * list string) :=
  match o with
  | Fail msgs => [(name, msgs)]
  | _ => []
  end.

(** The entry of a field in [validated_data]. *)
Definition field_value {A} (o : outcome A) : option A :=
  match o with
  | Value a => Some a
  | _ => None
  end.

(** ** serializers.py *)

(** [validated_data] of each serializer: the writable fields, plus the key
    that [create] adds. *)
Record UserData := mkUserData {
  UserData_username : option string;
  UserData_email : option string;
  UserData_groups : option (list Z)
}.

Record ScriptData := mkScriptData {
  ScriptData_name : option string;
  ScriptData_language : option string;
  ScriptData_version : option string;
  ScriptData_description : option string;
  ScriptData_files : option value;
  ScriptData_licence : option string;
  ScriptData_compatibility : option (list Z);
  ScriptData_author : option request_user
}.

Record RatingData := mkRatingData {
  RatingData_rating : option float;
  RatingData_comment : option string;
  RatingData_script : option Z;
  RatingData_user : option request_user
}.

Record RegisterData := mkRegisterData {
  RegisterData_username : option string;
  RegisterData_password : option string;
  RegisterData_email : option string
}.

(** [validated_data['author'] = user] *)
Definition ScriptData_set_author (vd : ScriptData) (ru : request_user) : ScriptData :=
  mkScriptData (ScriptData_name vd) (ScriptData_language vd) (ScriptData_version vd)
    (ScriptData_description vd) (ScriptData_files vd) (ScriptData_licence vd)
    (ScriptData_compatibility vd) (Some ru).

(** [validated_data['user'] = user] *)
Definition RatingData_set_user (vd : RatingData) (ru : request_user) : RatingData :=
  mkRatingData (RatingData_rating vd) (RatingData_comment vd) (RatingData_script vd)
    (Some ru).

(** [Serializer.to_internal_value] ends by raising the collected errors. *)
Definition raise_errors {A} (errors : list (string * list string)) (a : A) : result A :=
  match errors with
  | [] => Ok a
  | _ => Err (ValidationError errors)
  end.

(** Assigning a foreign key: Django refuses what is not an instance of the
    target model, and the column is the key of the instance. *)
Definition assign_user (field : string) (ru : option request_user) : result Z :=
  match ru with
  | Some (Authenticated u) => Ok (User_pk u)
  | Some AnonymousUser => Err (ValueError (field +:+ " must be a User instance."))
  | None => Err (IntegrityError ("NOT NULL constraint failed: " +:+ field))
  end.

(** [related_manager.set(objs)]: rows of the relation that are kept stay
    where they are, new ones are appended once each. *)
Definition ManyRelatedManager_set (old new : list Z) : list Z :=
  filter (fun pk => pk ∈ new) old ++ filter (fun pk => pk ∉ old) (remove_dups new).

Definition hyperlinks (view_name : string) (pks : list Z) : value :=
  VList (map (VUrl view_name) pks).

(** [{k: representation[k] for k in ks}] for a dict display that reads each
    of its values from [representation]. *)
Fixpoint dict_of (r : representation) (ks : list string) : result representation :=
  match ks with
  | [] => Ok []
  | k :: ks' =>
      match getitem r k with
      | None => Err (KeyError k)
      | Some v => rest ← dict_of r ks'; Ok ((k, v) :: rest)
      end
  end.

Section Serializers.
Context {lib : Library} {val : Validators}.

(** *** UserSerializer *)

(** The field [username] of a serializer on [User]. *)
Definition username_field (db : DB) (instance_pk : option Z) (partial : bool)
    (data : gmap string value) : outcome string :=
  CharField_run_validation partial true false (Some 150%nat)
    [validator UnicodeUsernameValidator
       "Enter a valid username. This value may contain only letters, numbers, and @/./+/-/_ characters.";
     UniqueValidator User_username (auth_user db) instance_pk
       "A user with that username already exists."]
    (data !! "username").

(** The field [email] of a serializer on [User].  The patch at the top of
    [models.py] makes it required ([blank = False]), unique
    ([_unique = True]) and replaces the validators of the model field by
    [validate_email]. *)
Definition email_field (db : DB) (instance_pk : option Z) (partial : bool)
    (data : gmap string value) : outcome string :=
  CharField_run_validation partial true false (Some 254%nat)
    [validate_email (auth_user db);
     UniqueValidator User_email (auth_user db) instance_pk
       "user with this email address already exists.";
     validator EmailValidator "Enter a valid email address."]
    (data !! "email").

(** [fields = ['url', 'username', 'email', 'groups', 'scripts', 'ratings']]
    with [read_only_fields = ['scripts', 'ratings']]; [url] is read-only by
    construction. *)
Definition UserSerializer_to_internal_value (db : DB) (instance_pk : option Z)
    (partial : bool) (data : gmap string value) : result UserData :=
  let username := username_field db instance_pk partial data in
  let email := email_field db instance_pk partial data in
  let groups :=
    run_validation partial false
      (ManyRelatedField_to_internal_value
         (HyperlinkedRelatedField_to_internal_value "group-detail" (auth_group db)))
      [] (data !! "groups") in
  raise_errors
    (field_errors "username" username ++ field_errors "email" email
       ++ field_errors "groups" groups)
    (mkUserData (field_value username) (field_value email) (field_value groups)).

(** [ModelSerializer.update] on a User: every key of [validated_data] is
    set on the instance, the instance is saved, then the many-to-many
    relations are set. *)
Definition ModelSerializer_update_User (db : DB) (instance : User)
    (validated_data : UserData) : result (DB * User) :=
  let updated :=
    mkUser (User_pk instance)
      (default (User_username instance) (UserData_username validated_data))
      (default (User_email instance) (UserData_email validated_data))
      (User_password instance) (User_is_staff instance)
      (User_date_joined instance)
      (match UserData_groups validated_data with
       | Some new => ManyRelatedManager_set (User_groups instance) new
       | None => User_groups instance
       end) in
  Ok (User_save db updated).

(** [UserSerializer.update] *)
Definition UserSerializer_update (db : DB) (ru : request_user) (instance : User)
    (validated_data : UserData) : result (DB * User) :=
  _ ← (if negb (is_staff ru) then
         let user_groups := User_groups instance in
         let new_groups :=
           match UserData_groups validated_data with
           | Some groups => groups
           | None => []
           end in
         if bool_decide (user_groups <> new_groups) then
           Err (PermissionDenied "You can't add or remove yourself from groups")
         else Ok tt
       else Ok tt);
  ModelSerializer_update_User db instance validated_data.

(** [ModelSerializer.to_representation] on a User. *)
Definition ModelSerializer_to_representation_User (db : DB) (instance : User)
    : representation :=
  [("url", VUrl "user-detail" (User_pk instance));
   ("username", VStr (User_username instance));
   ("email", VStr (User_email instance));
   ("groups", hyperlinks "group-detail" (User_groups instance));
   ("scripts",
    hyperlinks "script-detail" (related_pks Script_author (api_script db) (User_pk instance)));
   ("ratings",
    hyperlinks "rating-detail" (related_pks Rating_user (api_rating db) (User_pk instance)))].

(** [UserSerializer.to_representation] *)
Definition UserSerializer_to_representation (db : DB) (ru : request_user)
    (instance : User) : result representation :=
  if User_eq instance ru || is_staff ru then
    Ok (ModelSerializer_to_representation_User db instance)
  else
    let representation := ModelSerializer_to_representation_User db instance in
    dict_of representation ["url"; "username"; "groups"; "scripts"; "ratings"].
End Serializers.

Section ModelSerializers.
Context {lib : Library} {val : Validators}.

(** *** ScriptSerializer *)

(** [fields = ['url', 'name', 'created', 'modified', 'language', 'version',
    'description', 'ratings', 'author', 'files', 'licence', 'compatibility',
    'views']] with [read_only_fields = ['created', 'modified', 'downloads',
    'views', 'author', 'ratings']]: a read-only field is not looked up in
    the request body, so [validated_data] never has it. *)
Definition ScriptSerializer_to_internal_value (db : DB) (partial : bool)
    (data : gmap string value) : result ScriptData :=
  let name :=
    CharField_run_validation partial true false (Some 100%nat) [] (data !! "name") in
  let language :=
    CharField_run_validation partial true false (Some 100%nat)
      [validate_language] (data !! "language") in
  let version :=
    CharField_run_validation partial false false (Some 100%nat) [] (data !! "version") in
  let description :=
    CharField_run_validation partial false true None [] (data !! "description") in
  let files :=
    run_validation partial true JSONField_to_internal_value
      [validate_script_files] (data !! "files") in
  let licence :=
    CharField_run_validation partial false false (Some 100%nat) [] (data !! "licence") in
  let compatibility :=
    run_validation partial false
      (ManyRelatedField_to_internal_value
         (HyperlinkedRelatedField_to_internal_value "os-detail" (api_os db)))
      [] (data !! "compatibility") in
  raise_errors
    (field_errors "name" name ++ field_errors "language" language
       ++ field_errors "version" version ++ field_errors "description" description
       ++ field_errors "files" files ++ field_errors "licence" licence
       ++ field_errors "compatibility" compatibility)
    (mkScriptData (field_value name) (field_value language) (field_value version)
       (field_value description) (field_value files) (field_value licence)
       (field_value compatibility) None).

(** [ModelSerializer.create] on a Script:
    [Script.objects.create] with [validated_data] as its keyword
    arguments and the defaults of the model for the keys that are absent,
    then the many-to-many relation. *)
Definition ModelSerializer_create_Script (db : DB) (now : Z)
    (validated_data : ScriptData) : result (DB * Script) :=
  author ← assign_user "Script.author" (ScriptData_author validated_data);
  files ← match ScriptData_files validated_data with
          | Some v => Ok v
          | None => Err (IntegrityError "NOT NULL constraint failed: Script.files")
          end;
  let instance :=
    mkScript (seq_script db) files
      (default EmptyString (ScriptData_name validated_data))
      author now now
      (default EmptyString (ScriptData_language validated_data))
      (default "1.0" (ScriptData_version validated_data))
      (default EmptyString (ScriptData_description validated_data))
      0
      (default "MIT" (ScriptData_licence validated_data))
      (ManyRelatedManager_set [] (default [] (ScriptData_compatibility validated_data))) in
  Ok (mkDB (auth_user db) (auth_group db) (api_os db)
           (<[seq_script db := instance]> (api_script db)) (api_rating db)
           (seq_user db) (seq_script db + 1) (seq_rating db),
      instance).

(** [ScriptSerializer.create] *)
Definition ScriptSerializer_create (db : DB) (now : Z) (ru : request_user)
    (validated_data : ScriptData) : result (DB * Script) :=
  let validated_data := ScriptData_set_author validated_data ru in
  ModelSerializer_create_Script db now validated_data.

(** [ModelSerializer.update] on a Script. *)
Definition ModelSerializer_update_Script (db : DB) (now : Z) (instance : Script)
    (validated_data : ScriptData) : result (DB * Script) :=
  author ← match ScriptData_author validated_data with
           | None => Ok (Script_author instance)
           | ru => assign_user "Script.author" ru
           end;
  let updated :=
    mkScript (Script_pk instance)
      (default (Script_files instance) (ScriptData_files validated_data))
      (default (Script_name instance) (ScriptData_name validated_data))
      author (Script_created instance) (Script_modified instance)
      (default (Script_language instance) (ScriptData_language validated_data))
      (default (Script_version instance) (ScriptData_version validated_data))
      (default (Script_description instance) (ScriptData_description validated_data))
      (Script_views instance)
      (default (Script_licence instance) (ScriptData_licence validated_data))
      (match ScriptData_compatibility validated_data with
       | Some new => ManyRelatedManager_set (Script_compatibility instance) new
       | None => Script_compatibility instance
       end) in
  Ok (Script_save db now updated).

(** [ModelSerializer.to_representation] on a Script. *)
Definition ScriptSerializer_to_representation (db : DB) (instance : Script)
    : representation :=
  [("url", VUrl "script-detail" (Script_pk instance));
   ("name", VStr (Script_name instance));
   ("created", VDateTime (Script_created instance));
   ("modified", VDateTime (Script_modified instance));
   ("language", VStr (Script_language instance));
   ("version", VStr (Script_version instance));
   ("description", VStr (Script_description instance));
   ("ratings",
    hyperlinks "rating-detail" (related_pks Rating_script (api_rating db) (Script_pk instance)));
   ("author", VUrl "user-detail" (Script_author instance));
   ("files", Script_files instance);
   ("licence", VStr (Script_licence instance));
   ("compatibility", hyperlinks "os-detail" (Script_compatibility instance));
   ("views", VInt (Script_views instance))].

(** *** RatingSerializer *)

(** The validators of [Rating.rating] in [models.py]:
    [[MinValueValidator(0), MaxValueValidator(5)]]. *)
Definition Rating_rating_validators : list (float -> option string) :=
  [validator (MinValueValidator 0%float)
     "Ensure this value is greater than or equal to 0.";
   validator (MaxValueValidator 5%float)
     "Ensure this value is less than or equal to 5."].

(** The field [rating]; the outer [result] carries what the field does not
    catch. *)
Definition rating_field (partial : bool) (data : gmap string value)
    : result (outcome float) :=
  match validate_empty_values partial true (data !! "rating") with
  | Skip => Ok Skip
  | Fail msgs => Ok (Fail msgs)
  | Value v =>
      match FloatField_to_internal_value v with
      | None => Err OverflowError
      | Some (inl msg) => Ok (Fail [msg])
      | Some (inr f) =>
          match run_validators Rating_rating_validators f with
          | [] => Ok (Value f)
          | msgs => Ok (Fail msgs)
          end
      end
  end.

(** [fields = ['url', 'rating', 'comment', 'user', 'script', 'created',
    'modified']] with [read_only_fields = ['user']]; [created] and
    [modified] are not editable, hence read-only. *)
Definition RatingSerializer_to_internal_value (db : DB) (partial : bool)
    (data : gmap string value) : result RatingData :=
  rating ← rating_field partial data;
  let comment :=
    CharField_run_validation partial false true None [] (data !! "comment") in
  let script :=
    RelatedField_run_validation partial true
      (HyperlinkedRelatedField_to_internal_value "script-detail" (api_script db))
      (data !! "script") in
  raise_errors
    (field_errors "rating" rating ++ field_errors "comment" comment
       ++ field_errors "script" script)
    (mkRatingData (field_value rating) (field_value comment) (field_value script) None).

(** [ModelSerializer.create] on a Rating. *)
Definition ModelSerializer_create_Rating (db : DB) (now : Z)
    (validated_data : RatingData) : result (DB * Rating) :=
  user ← assign_user "Rating.user" (RatingData_user validated_data);
  rating ← match RatingData_rating validated_data with
           | Some f => Ok f
           | None => Err (IntegrityError "NOT NULL constraint failed: Rating.rating")
           end;
  script ← match RatingData_script validated_data with
           | Some pk => Ok pk
           | None => Err (IntegrityError "NOT NULL constraint failed: Rating.script")
           end;
  let instance :=
    mkRating (seq_rating db) rating
      (default EmptyString (RatingData_comment validated_data)) now now user script in
  Ok (mkDB (auth_user db) (auth_group db) (api_os db) (api_script db)
           (<[seq_rating db := instance]> (api_rating db))
           (seq_user db) (seq_script db) (seq_rating db + 1),
      instance).

(** [RatingSerializer.create] *)
Definition RatingSerializer_create (db : DB) (now : Z) (ru : request_user)
    (validated_data : RatingData) : result (DB * Rating) :=
  let validated_data := RatingData_set_user validated_data ru in
  ModelSerializer_create_Rating db now validated_data.

(** [ModelSerializer.update] on a Rating. *)
Definition ModelSerializer_update_Rating (db : DB) (now : Z) (instance : Rating)
    (validated_data : RatingData) : result (DB * Rating) :=
  user ← match RatingData_user validated_data with
         | None => Ok (Rating_user instance)
         | ru => assign_user "Rating.user" ru
         end;
  let updated :=
    mkRating (Rating_pk instance)
      (default (Rating_rating instance) (RatingData_rating validated_data))
      (default (Rating_comment instance) (RatingData_comment validated_data))
      (Rating_created instance) (Rating_modified instance) user
      (default (Rating_script instance) (RatingData_script validated_data)) in
  Ok (Rating_save db now updated).

(** [ModelSerializer.to_representation] on a Rating. *)
Definition RatingSerializer_to_representation (instance : Rating) : representation :=
  [("url", VUrl "rating-detail" (Rating_pk instance));
   ("rating", VNum (Rating_rating instance));
   ("comment", VStr (Rating_comment instance));
   ("user", VUrl "user-detail" (Rating_user instance));
   ("script", VUrl "script-detail" (Rating_script instance));
   ("created", VDateTime (Rating_created instance));
   ("modified", VDateTime (Rating_modified instance))].

(** *** RegisterSerializer *)

(** [fields = ['username', 'password', 'email']] with
    [extra_kwargs = {'password': {'write_only': True}}]. *)
Definition RegisterSerializer_to_internal_value (db : DB)
    (data : gmap string value) : result RegisterData :=
  let username := username_field db None false data in
  let password :=
    CharField_run_validation false true false (Some 128%nat) [] (data !! "password") in
  let email := email_field db None false data in
  raise_errors
    (field_errors "username" username ++ field_errors "password" password
       ++ field_errors "email" email)
    (mkRegisterData (field_value username) (field_value password) (field_value email)).

(** [UserManager.create_user(username, email=None, password=None)]: the
    standard way to make an account.  The password is stored as
    [make_password] leaves it; the column [username] is unique in the
    table. *)
Definition UserManager_create_user (db : DB) (now : Z) (username : option string)
    (email password : option string) : result (DB * User) :=
  match username with
  | None => Err (TypeError "create_user() missing 1 required positional argument: 'username'")
  | Some username =>
      if bool_decide (username = EmptyString) then
        Err (ValueError "The given username must be set")
      else
        let email := normalize_email (default EmptyString email) in
        let username := normalize_username username in
        let user :=
          mkUser (seq_user db) username email (make_password password)
                 false now [] in
        if bool_decide (map_Forall (fun _ u => User_username u <> username) (auth_user db))
        then
          Ok (mkDB (<[seq_user db := user]> (auth_user db)) (auth_group db)
                   (api_os db) (api_script db) (api_rating db)
                   (seq_user db + 1) (seq_script db) (seq_rating db),
              user)
        else Err (IntegrityError "UNIQUE constraint failed: auth_user.username")
  end.

(** [RegisterSerializer.create]:
    [User.objects.create_user] with [validated_data] as its keyword
    arguments. *)
Definition RegisterSerializer_create (db : DB) (now : Z)
    (validated_data : RegisterData) : result (DB * User) :=
  UserManager_create_user db now
    (RegisterData_username validated_data)
    (RegisterData_email validated_data)
    (RegisterData_password validated_data).

(** [ModelSerializer.to_representation] of the registration serializer: a
    write-only field is left out. *)
Definition RegisterSerializer_to_representation (instance : User) : representation :=
  [("username", VStr (User_username instance));
   ("email", VStr (User_email instance))].
End ModelSerializers.

(** ** Well-formed stores *)

(** A table holds each row under the primary key of the row. *)
Definition keyed {A} (key : A -> Z) (table : gmap Z A) : Prop :=
  map_Forall (fun pk row => key row = pk) table.

(** The sequence of a table is beyond the keys in use. *)
Definition fresh {A} (table : gmap Z A) (seq : Z) : Prop :=
  map_Forall (fun pk _ => pk < seq) table.

(** The table of scripts is well formed. *)
Definition scripts_wf (db : DB) : Prop :=
  keyed Script_pk (api_script db) /\ fresh (api_script db) (seq_script db).

(** One request on the table of scripts: a row of the new table is a row of
    the old one whose [views] did not go down, or a row under a key the
    sequence had not handed out. *)
Definition scripts_step (db db' : DB) : Prop :=
  seq_script db <= seq_script db'
  /\ forall k s', api_script db' !! k = Some s' ->
       (exists s, api_script db !! k = Some s /\ Script_views s <= Script_views s')
       \/ (api_script db !! k = None /\ seq_script db <= k).

(** ** views.py *)

(** A handler answers with the store it leaves and what it returns or
    raises. *)
Definition response (A : Type) : Type := DB * result A.

(** An exception before any write: the store is the one the request found. *)
Definition respond {A} (db : DB) (r : result (DB * A)) (render : DB -> A -> result representation)
    : response representation :=
  match r with
  | Ok (db', a) => (db', render db' a)
  | Err e => (db, Err e)
  end.

Section Views.
Context {lib : Library} {val : Validators} {perm : Permissions}.

(** *** UserViewSet *)

(** [permission_classes = [ReadWriteWithoutPost, IsOwnerOrReadOnly]] *)
Definition UserViewSet_permission_classes : list (permission User) :=
  [ReadWriteWithoutPost; IsOwnerOrReadOnly].

(** The two permission checks a request on a user goes through. *)
Definition UserViewSet_permitted (m : http_method) (ru : request_user) (instance : User)
    : Prop :=
  check_permissions UserViewSet_permission_classes m ru = Ok tt
  /\ check_object_permissions UserViewSet_permission_classes m ru instance = Ok tt.

(** [RetrieveModelMixin.retrieve] *)
Definition UserViewSet_retrieve (db : DB) (ru : request_user) (pk : Z)
    : response representation :=
  (db,
   _ ← check_permissions UserViewSet_permission_classes GET ru;
   instance ← get_object UserViewSet_permission_classes (auth_user db) GET ru pk;
   UserSerializer_to_representation db ru instance).

(** [UpdateModelMixin.update] and [partial_update] *)
Definition UserViewSet_update (db : DB) (ru : request_user) (pk : Z)
    (partial : bool) (data : gmap string value) : response representation :=
  let method := if partial then PATCH else PUT in
  respond db
    (_ ← check_permissions UserViewSet_permission_classes method ru;
     instance ← get_object UserViewSet_permission_classes (auth_user db) method ru pk;
     validated_data ← UserSerializer_to_internal_value db (Some pk) partial data;
     UserSerializer_update db ru instance validated_data)
    (fun db' instance => UserSerializer_to_representation db' ru instance).

(** [DestroyModelMixin.destroy] *)
Definition UserViewSet_destroy (db : DB) (ru : request_user) (pk : Z)
    : response representation :=
  respond db
    (_ ← check_permissions UserViewSet_permission_classes DELETE ru;
     instance ← get_object UserViewSet_permission_classes (auth_user db) DELETE ru pk;
     Ok (User_delete db (User_pk instance), tt))
    (fun _ _ => Ok []).

(** *** ScriptViewSet *)

(** [permission_classes = [permissions.IsAuthenticatedOrReadOnly,
    IsScriptOwnerOrReadOnly]] *)
Definition ScriptViewSet_permission_classes : list (permission Script) :=
  [IsAuthenticatedOrReadOnly; IsScriptOwnerOrReadOnly].

(** [self.get_object()] of a GET on a script, behind the permission check
    that precedes every handler. *)
Definition ScriptViewSet_get_object (db : DB) (ru : request_user) (pk : Z)
    : result Script :=
  _ ← check_permissions ScriptViewSet_permission_classes GET ru;
  get_object ScriptViewSet_permission_classes (api_script db) GET ru pk.

(** [RetrieveModelMixin.retrieve], which [ScriptViewSet.retrieve] ends
    with: the object is looked up again and serialized. *)
Definition RetrieveModelMixin_retrieve_Script (db : DB) (ru : request_user) (pk : Z)
    : result representation :=
  instance ← get_object ScriptViewSet_permission_classes (api_script db) GET ru pk;
  Ok (ScriptSerializer_to_representation db instance).

(** [ScriptViewSet.retrieve]:
    [instance = self.get_object()], then
    [Script.objects.filter(pk=instance.id).update(views=instance.views + 1)],
    then the inherited [retrieve]. *)
Definition ScriptViewSet_retrieve (db : DB) (ru : request_user) (pk : Z)
    : response representation :=
  match ScriptViewSet_get_object db ru pk with
  | Err e => (db, Err e)
  | Ok instance =>
      let db' :=
        Script_objects_filter_update_views db (Script_pk instance)
          (Script_views instance + 1) in
      (db', RetrieveModelMixin_retrieve_Script db' ru pk)
  end.

(** [CreateModelMixin.create] *)
Definition ScriptViewSet_create (db : DB) (now : Z) (ru : request_user)
    (data : gmap string value) : response representation :=
  respond db
    (_ ← check_permissions ScriptViewSet_permission_classes POST ru;
     validated_data ← ScriptSerializer_to_internal_value db false data;
     ScriptSerializer_create db now ru validated_data)
    (fun db' instance => Ok (ScriptSerializer_to_representation db' instance)).

(** [UpdateModelMixin.update] and [partial_update] *)
Definition ScriptViewSet_update (db : DB) (now : Z) (ru : request_user) (pk : Z)
    (partial : bool) (data : gmap string value) : response representation :=
  let method := if partial then PATCH else PUT in
  respond db
    (_ ← check_permissions ScriptViewSet_permission_classes method ru;
     instance ← get_object ScriptViewSet_permission_classes (api_script db) method ru pk;
     validated_data ← ScriptSerializer_to_internal_value db partial data;
     ModelSerializer_update_Script db now instance validated_data)
    (fun db' instance => Ok (ScriptSerializer_to_representation db' instance)).

(** [DestroyModelMixin.destroy] *)
Definition ScriptViewSet_destroy (db : DB) (ru : request_user) (pk : Z)
    : response representation :=
  respond db
    (_ ← check_permissions ScriptViewSet_permission_classes DELETE ru;
     instance ← get_object ScriptViewSet_permission_classes (api_script db) DELETE ru pk;
     Ok (Script_delete db (Script_pk instance), tt))
    (fun _ _ => Ok []).

(** *** RatingViewSet *)

(** [permission_classes = [permissions.IsAuthenticatedOrReadOnly,
    IsRatingOwnerOrReadOnly]] *)
Definition RatingViewSet_permission_classes : list (permission Rating) :=
  [IsAuthenticatedOrReadOnly; IsRatingOwnerOrReadOnly].

(** [CreateModelMixin.create] *)
Definition RatingViewSet_create (db : DB) (now : Z) (ru : request_user)
    (data : gmap string value) : response representation :=
  respond db
    (_ ← check_permissions RatingViewSet_permission_classes POST ru;
     validated_data ← RatingSerializer_to_internal_value db false data;
     RatingSerializer_create db now ru validated_data)
    (fun _ instance => Ok (RatingSerializer_to_representation instance)).

(** [UpdateModelMixin.update] and [partial_update] *)
Definition RatingViewSet_update (db : DB) (now : Z) (ru : request_user) (pk : Z)
    (partial : bool) (data : gmap string value) : response representation :=
  let method := if partial then PATCH else PUT in
  respond db
    (_ ← check_permissions RatingViewSet_permission_classes method ru;
     instance ← get_object RatingViewSet_permission_classes (api_rating db) method ru pk;
     validated_data ← RatingSerializer_to_internal_value db partial data;
     ModelSerializer_update_Rating db now instance validated_data)
    (fun _ instance => Ok (RatingSerializer_to_representation instance)).

(** [DestroyModelMixin.destroy] *)
Definition RatingViewSet_destroy (db : DB) (ru : request_user) (pk : Z)
    : response representation :=
  respond db
    (_ ← check_permissions RatingViewSet_permission_classes DELETE ru;
     instance ← get_object RatingViewSet_permission_classes (api_rating db) DELETE ru pk;
     Ok (set_api_rating (delete (Rating_pk instance)) db, tt))
    (fun _ _ => Ok []).

(** *** RegisterViewSet *)

(** [permission_classes = [permissions.AllowAny]];
    [CreateModelMixin.create]. *)
Definition RegisterViewSet_create (db : DB) (now : Z) (ru : request_user)
    (data : gmap string value) : response representation :=
  respond db
    (_ ← check_permissions [AllowAny (A := User)] POST ru;
     validated_data ← RegisterSerializer_to_internal_value db data;
     RegisterSerializer_create db now validated_data)
    (fun _ instance => Ok (RegisterSerializer_to_representation instance)).

(** *** The requests that write

    The requests followed here are the ones on users, scripts and ratings
    that the serializers of [serializers.py] customise, the retrieval that
    counts a view, and the registration.  The creation that [UserViewSet]
    inherits ([POST /users/]) and the handlers of [GroupViewSet] and
    [OSViewSet] are not among them. *)

Inductive request : Type :=
| UserUpdate (pk : Z) (partial : bool) (data : gmap string value)
| UserDestroy (pk : Z)
| ScriptRetrieve (pk : Z)
| ScriptCreate (data : gmap string value)
| ScriptUpdate (pk : Z) (partial : bool) (data : gmap string value)
| ScriptDestroy (pk : Z)
| RatingCreate (data : gmap string value)
| RatingUpdate (pk : Z) (partial : bool) (data : gmap string value)
| RatingDestroy (pk : Z)
| Register (data : gmap string value).

(** The router: one request, made by [ru] at time [now]. *)
Definition dispatch (db : DB) (now : Z) (ru : request_user) (rq : request)
    : response representation :=
  match rq with
  | UserUpdate pk partial data => UserViewSet_update db ru pk partial data
  | UserDestroy pk => UserViewSet_destroy db ru pk
  | ScriptRetrieve pk => ScriptViewSet_retrieve db ru pk
  | ScriptCreate data => ScriptViewSet_create db now ru data
  | ScriptUpdate pk partial data => ScriptViewSet_update db now ru pk partial data
  | ScriptDestroy pk => ScriptViewSet_destroy db ru pk
  | RatingCreate data => RatingViewSet_create db now ru data
  | RatingUpdate pk partial data => RatingViewSet_update db now ru pk partial data
  | RatingDestroy pk => RatingViewSet_destroy db ru pk
  | Register data => RegisterViewSet_create db now ru data
  end.

(** A sequence of requests, one after the other. *)
Fixpoint serve (db : DB) (rqs : list (Z * request_user * request)) : DB :=
  match rqs with
  | [] => db
  | (now, ru, rq) :: rest => serve (dispatch db now ru rq).1 rest
  end.

(** *** Retrievals of one script in flight

    [ScriptViewSet.retrieve] talks to the store three times: the SELECT of
    [get_object], the UPDATE that writes [views], and the SELECT of the
    inherited [retrieve].  Each statement is atomic; between two of them
    another request may run. *)
Inductive retrieval : Type :=
| Waiting
| Loaded (instance : Script)
| Updated
| Finished (r : result representation).

(** The next statement of a retrieval. *)
Definition retrieve_step (db : DB) (ru : request_user) (pk : Z) (t : retrieval)
    : DB * retrieval :=
  match t with
  | Waiting =>
      match ScriptViewSet_get_object db ru pk with
      | Ok instance => (db, Loaded instance)
      | Err e => (db, Finished (Err e))
      end
  | Loaded instance =>
      (Script_objects_filter_update_views db (Script_pk instance)
         (Script_views instance + 1),
       Updated)
  | Updated => (db, Finished (RetrieveModelMixin_retrieve_Script db ru pk))
  | Finished r => (db, Finished r)
  end.

(** Retrievals of the script [pk] run as the schedule says: its [i]-th entry
    names the retrieval that executes its next statement. *)
Fixpoint interleave (db : DB) (pk : Z) (pool : list (request_user * retrieval))
    (schedule : list nat) : DB * list (request_user * retrieval) :=
  match schedule with
  | [] => (db, pool)
  | i :: rest =>
      match pool !! i with
      | None => interleave db pk pool rest
      | Some (ru, t) =>
          let '(db', t') := retrieve_step db ru pk t in
          interleave db' pk (<[i := (ru, t')]> pool) rest
      end
  end.

(** The retrievals that have written [views]. *)
Definition has_written (t : request_user * retrieval) : bool :=
  match t.2 with
  | Updated | Finished (Ok _) => true
  | _ => false
  end.

Definition is_finished (t : request_user * retrieval) : bool :=
  match t.2 with
  | Finished _ => true
  | _ => false
  end.

(** The number of retrievals of the pool that have written [views]. *)
Fixpoint writes (pool : list (request_user * retrieval)) : Z :=
  match pool with
  | [] => 0
  | t :: rest => (if has_written t then 1 else 0) + writes rest
  end.

(** The requests of [rus] retrieve the script [pk] one after the other. *)
Definition retrieve_all (db : DB) (pk : Z) (rus : list request_user) : DB :=
  foldl (fun db ru => (ScriptViewSet_retrieve db ru pk).1) db rus.

(** The permission classes let [ru] read any script. *)
Definition Script_readable (ru : request_user) : Prop :=
  check_permissions ScriptViewSet_permission_classes GET ru = Ok tt
  /\ forall s, check_object_permissions ScriptViewSet_permission_classes GET ru s = Ok tt.

(** What holds of one retrieval of the script [pk] in a pool that has
    written [w] times since the counter was [v0]: it may read, the instance
    it holds was read off the row, and it was not refused. *)
Definition retrieval_inv (v0 pk w : Z) (t : request_user * retrieval) : Prop :=
  Script_readable t.1
  /\ match t.2 with
     | Loaded instance =>
         Script_pk instance = pk
         /\ v0 <= Script_views instance <= v0 + w
     | Finished (Err _) => False
     | _ => True
     end.

(** What holds of the store and the pool while retrievals of the script
    [pk] interleave: the counter is at most the number of writes above its
    first value [v0], and above [v0] once there was a write. *)
Definition in_flight_inv (v0 pk : Z) (db : DB) (pool : list (request_user * retrieval))
    : Prop :=
  keyed Script_pk (api_script db)
  /\ Forall (retrieval_inv v0 pk (writes pool)) pool
  /\ exists s, api_script db !! pk = Some s
       /\ v0 <= Script_views s <= v0 + writes pool
       /\ (0 < writes pool -> v0 + 1 <= Script_views s).
End Views.

(** ** The rest of views.py *)

(** [queryset.order_by('-key')] on a column of numbers: the rows of the
    table, greatest first.  The order of rows with equal keys is left to the
    database; here it is the order the merge sort leaves. *)
Definition order_by_desc {A} (key : A -> Z) (table : gmap Z A) : list A :=
  @merge_sort A (fun a b => key b <= key a)
    (fun a b => decide (key b <= key a)) (map_to_list table).*2.

(** [UserViewSet.queryset = User.objects.all().order_by('-date_joined')] *)
Definition UserViewSet_queryset (db : DB) : list User :=
  order_by_desc User_date_joined (auth_user db).

(** [ScriptViewSet.queryset = Script.objects.all().order_by('-created')] *)
Definition ScriptViewSet_queryset (db : DB) : list Script :=
  order_by_desc Script_created (api_script db).

(** [RatingViewSet.queryset = Rating.objects.all().order_by('-created')] *)
Definition RatingViewSet_queryset (db : DB) : list Rating :=
  order_by_desc Rating_created (api_rating db).

(** [RegisterViewSet.queryset = User.objects.none()] *)
Definition RegisterViewSet_queryset (db : DB) : gmap Z User := ∅.

Section RegisterViews.
Context {lib : Library} {val : Validators}.

(** [ModelSerializer.update] of the registration serializer, which
    [RegisterSerializer] does not override: every key of [validated_data] is
    set on the instance as it is, the password too, and the instance is
    saved. *)
Definition ModelSerializer_update_Register (db : DB) (instance : User)
    (validated_data : RegisterData) : result (DB * User) :=
  let updated :=
    mkUser (User_pk instance)
      (default (User_username instance) (RegisterData_username validated_data))
      (default (User_email instance) (RegisterData_email validated_data))
      (default (User_password instance) (RegisterData_password validated_data))
      (User_is_staff instance) (User_date_joined instance) (User_groups instance) in
  Ok (User_save db updated).

(** [ListModelMixin.list] of the registration view set, before filtering and
    pagination, which only drop rows: the rows of its queryset. *)
Definition RegisterViewSet_list (db : DB) (ru : request_user)
    : response (list representation) :=
  (db,
   _ ← check_permissions [AllowAny (A := User)] GET ru;
   Ok (map (fun kr => RegisterSerializer_to_representation kr.2)
         (map_to_list (RegisterViewSet_queryset db)))).

(** [RetrieveModelMixin.retrieve] of the registration view set. *)
Definition RegisterViewSet_retrieve (db : DB) (ru : request_user) (pk : Z)
    : response representation :=
  (db,
   _ ← check_permissions [AllowAny (A := User)] GET ru;
   instance ← get_object [AllowAny] (RegisterViewSet_queryset db) GET ru pk;
   Ok (RegisterSerializer_to_representation instance)).

(** [UpdateModelMixin.update] and [partial_update] of the registration view
    set.  A partial update validates the fields the body has. *)
Definition RegisterViewSet_update (db : DB) (ru : request_user) (pk : Z)
    (partial : bool) (data : gmap string value) : response representation :=
  let method := if partial then PATCH else PUT in
  respond db
    (_ ← check_permissions [AllowAny (A := User)] method ru;
     instance ← get_object [AllowAny] (RegisterViewSet_queryset db) method ru pk;
     let username := username_field db (Some pk) partial data in
     let password :=
       CharField_run_validation partial true false (Some 128%nat) []
         (data !! "password") in
     let email := email_field db (Some pk) partial data in
     validated_data ←
       raise_errors
         (field_errors "username" username ++ field_errors "password" password
            ++ field_errors "email" email)
         (mkRegisterData (field_value username) (field_value password)
            (field_value email));
     ModelSerializer_update_Register db instance validated_data)
    (fun _ instance => Ok (RegisterSerializer_to_representation instance)).

(** [DestroyModelMixin.destroy] of the registration view set. *)
Definition RegisterViewSet_destroy (db : DB) (ru : request_user) (pk : Z)
    : response representation :=
  respond db
    (_ ← check_permissions [AllowAny (A := User)] DELETE ru;
     instance ← get_object [AllowAny] (RegisterViewSet_queryset db) DELETE ru pk;
     Ok (User_delete db (User_pk instance), tt))
    (fun _ _ => Ok []).
End RegisterViews.

(** ** What a request can do to the store *)

(** A rating the two validators of [Rating.rating] let through. *)
Definition rating_passes (f : float) : Prop :=
  PrimFloat.ltb f 0 = false /\ PrimFloat.ltb 5 f = false.

Section Effects.
Context {val : Validators}.

(** The writes of the view sets, one constructor for each kind: what a
    request made by [ru] at time [now] can turn the store [db] into, with
    what the serializers and the models guarantee of the row written. *)
Inductive effect (db : DB) (now : Z) (ru : request_user) : DB -> Prop :=
| effect_none : effect db now ru db
| effect_user_saved pk instance u' :
    auth_user db !! pk = Some instance ->
    User_pk u' = User_pk instance ->
    User_password u' = User_password instance ->
    User_is_staff u' = User_is_staff instance ->
    User_date_joined u' = User_date_joined instance ->
    (is_staff ru = false -> User_groups u' = User_groups instance) ->
    effect db now ru (set_auth_user (insert (User_pk u') u') db)
| effect_user_deleted pk instance :
    auth_user db !! pk = Some instance ->
    effect db now ru (User_delete db (User_pk instance))
| effect_script_viewed pk instance :
    api_script db !! pk = Some instance ->
    effect db now ru
      (Script_objects_filter_update_views db (Script_pk instance)
         (Script_views instance + 1))
| effect_script_created u s :
    ru = Authenticated u ->
    Script_pk s = seq_script db ->
    Script_author s = User_pk u ->
    Script_views s = 0 ->
    Script_created s = now -> Script_modified s = now ->
    validate_language (Script_language s) = None ->
    validate_script_files (Script_files s) = None ->
    effect db now ru
      (mkDB (auth_user db) (auth_group db) (api_os db)
            (<[seq_script db := s]> (api_script db)) (api_rating db)
            (seq_user db) (seq_script db + 1) (seq_rating db))
| effect_script_saved pk instance s' :
    api_script db !! pk = Some instance ->
    Script_pk s' = Script_pk instance ->
    Script_author s' = Script_author instance ->
    Script_views s' = Script_views instance ->
    Script_created s' = Script_created instance ->
    Script_modified s' = now ->
    (Script_language s' = Script_language instance
     \/ validate_language (Script_language s') = None) ->
    (Script_files s' = Script_files instance
     \/ validate_script_files (Script_files s') = None) ->
    effect db now ru (set_api_script (insert (Script_pk s') s') db)
| effect_script_deleted pk instance :
    api_script db !! pk = Some instance ->
    effect db now ru (Script_delete db (Script_pk instance))
| effect_rating_created u r :
    ru = Authenticated u ->
    Rating_pk r = seq_rating db ->
    Rating_user r = User_pk u ->
    is_Some (api_script db !! Rating_script r) ->
    rating_passes (Rating_rating r) ->
    Rating_created r = now -> Rating_modified r = now ->
    effect db now ru
      (mkDB (auth_user db) (auth_group db) (api_os db) (api_script db)
            (<[seq_rating db := r]> (api_rating db))
            (seq_user db) (seq_script db) (seq_rating db + 1))
| effect_rating_saved pk instance r' :
    api_rating db !! pk = Some instance ->
    Rating_pk r' = Rating_pk instance ->
    Rating_user r' = Rating_user instance ->
    Rating_created r' = Rating_created instance ->
    Rating_modified r' = now ->
    (Rating_rating r' = Rating_rating instance \/ rating_passes (Rating_rating r')) ->
    (Rating_script r' = Rating_script instance
     \/ is_Some (api_script db !! Rating_script r')) ->
    effect db now ru (set_api_rating (insert (Rating_pk r') r') db)
| effect_rating_deleted pk instance :
    api_rating db !! pk = Some instance ->
    effect db now ru (set_api_rating (delete (Rating_pk instance)) db)
| effect_registered u :
    User_pk u = seq_user db ->
    User_is_staff u = false ->
    User_groups u = [] ->
    User_date_joined u = now ->
    map_Forall (fun _ u0 => User_username u0 <> User_username u) (auth_user db) ->
    effect db now ru
      (mkDB (<[seq_user db := u]> (auth_user db)) (auth_group db) (api_os db)
            (api_script db) (api_rating db)
            (seq_user db + 1) (seq_script db) (seq_rating db)).

(** Every stored rating is one the validators let through, and every stored
    script has a language and files the validators let through. *)
Definition validated (db : DB) : Prop :=
  map_Forall (fun _ r => rating_passes (Rating_rating r)) (api_rating db)
  /\ map_Forall (fun _ s => validate_language (Script_language s) = None
                            /\ validate_script_files (Script_files s) = None)
       (api_script db).
End Effects.

(** Every table holds its rows under their keys, below its sequence. *)
Definition store_wf (db : DB) : Prop :=
  (keyed User_pk (auth_user db) /\ fresh (auth_user db) (seq_user db))
  /\ (keyed Script_pk (api_script db) /\ fresh (api_script db) (seq_script db))
  /\ (keyed Rating_pk (api_rating db) /\ fresh (api_rating db) (seq_rating db)).

(** Every foreign key points at a stored row. *)
Definition referential (db : DB) : Prop :=
  map_Forall (fun _ s => is_Some (auth_user db !! Script_author s)) (api_script db)
  /\ map_Forall (fun _ r => is_Some (auth_user db !! Rating_user r)
                            /\ is_Some (api_script db !! Rating_script r))
       (api_rating db).

(** The account of an authenticated requester is in the table of users. *)
Definition requester_stored (db : DB) (ru : request_user) : Prop :=
  match ru with
  | AnonymousUser => True
  | Authenticated u => is_Some (auth_user db !! User_pk u)
  end.

(** ** Instances of the collaborators *)

(** Modelled from the spec: [workshop/api/permissions.py] is missing; its
    five policies are the ones section 4.3 of the specification words.
    Writes of [IsAdminOrReadOnly] need the staff role; [ReadWriteWithoutPost]
    refuses creation only; the three ownership policies let the owner and
    staff write and everyone read. *)
Definition spec_permissions : Permissions := {|
  IsAdminOrReadOnly := fun A =>
    mkPermission (fun m ru => SAFE_METHODS m || is_staff ru) (fun _ _ _ => true);
  ReadWriteWithoutPost :=
    mkPermission (fun m _ => match m with POST => false | _ => true end)
                 (fun _ _ _ => true);
  IsOwnerOrReadOnly :=
    mkPermission (fun _ _ => true)
                 (fun m ru obj => SAFE_METHODS m || User_eq obj ru || is_staff ru);
  IsScriptOwnerOrReadOnly :=
    mkPermission (fun _ _ => true)
      (fun m ru obj =>
         SAFE_METHODS m
         || match ru with
            | AnonymousUser => false
            | Authenticated u => bool_decide (Script_author obj = User_pk u)
            end
         || is_staff ru);
  IsRatingOwnerOrReadOnly :=
    mkPermission (fun _ _ => true)
      (fun m ru obj =>
         SAFE_METHODS m
         || match ru with
            | AnonymousUser => false
            | Authenticated u => bool_decide (Rating_user obj = User_pk u)
            end
         || is_staff ru)
|}.

(** A stand-in for [workshop/api/validators.py] in the examples: an address
    passes when no user has it, one language is allowed, and any bundle of
    files passes. *)
Definition sample_validators : Validators := {|
  validate_language := validator (fun s => bool_decide (s = "python")) "Language not allowed";
  validate_email := fun users =>
    validator (fun s => bool_decide (map_Forall (fun _ u => User_email u <> s) users))
      "Email already used";
  validate_script_files := fun _ => None
|}.

(** A store to run examples on: a staff user and two members, one of them
    in a group; a script of the first member, viewed 7 times; a rating of it
    by the second. *)
Definition sample_admin : User :=
  mkUser 1 "admin" "admin@example.org" "pbkdf2_sha256$a" true 0 [].

Definition sample_ada : User :=
  mkUser 2 "ada" "ada@example.org" "pbkdf2_sha256$b" false 10 [1].

Definition sample_bob : User :=
  mkUser 3 "bob" "bob@example.org" "pbkdf2_sha256$c" false 20 [].

Definition sample_script : Script :=
  mkScript 1 (VDict [("main.py", VStr "print(1)")]) "hello" 2 100 100
           "python" "1.0" EmptyString 7 "MIT" [1].

Definition sample_db : DB := {|
  auth_user := <[1 := sample_admin]> (<[2 := sample_ada]> (<[3 := sample_bob]> ∅));
  auth_group := <[1 := mkGroup 1 "authors"]> (<[2 := mkGroup 2 "reviewers"]> ∅);
  api_os := <[1 := mkOS 1 "Epsilon" EmptyString EmptyString]> ∅;
  api_script := <[1 := sample_script]> ∅;
  api_rating := <[1 := mkRating 1 4%float "nice" 200 200 3 1]> ∅;
  seq_user := 4;
  seq_script := 2;
  seq_rating := 2
|}.

(** A request body for a script that names someone else as author. *)
Definition sample_script_body : gmap string value :=
  <["name" := VStr "clock"]>
  (<["language" := VStr "python"]>
  (<["files" := VDict [("clock.py", VStr "import time")]]>
  (<["author" := VUrl "user-detail" 1]> ∅))).

(** A request body for a rating of the sample script, with the rating as
    the JSON integer [rating] and someone else named as user. *)
Definition sample_rating_body (rating : Z) : gmap string value :=
  <["rating" := VInt rating]>
  (<["script" := VUrl "script-detail" 1]>
  (<["user" := VUrl "user-detail" 1]> ∅)).

(** A registration body. *)
Definition sample_register_body (email : string) : gmap string value :=
  <["username" := VStr "eve"]>
  (<["password" := VStr "s3cret"]>
  (<["email" := VStr email]> ∅)).

(** Requests to serve on the sample store, none by a staff requester: Bob
    posts a script that names the administrator as author; someone views
    Ada's script; Ada asks to be moved to another group; someone registers
    and asks to be staff; Ada edits her script and names Bob as its author;
    Bob rates a script 6; Bob deletes his account. *)
Definition sample_requests : list (Z * request_user * request) :=
  [(300, Authenticated sample_bob, ScriptCreate sample_script_body);
   (310, AnonymousUser, ScriptRetrieve 1);
   (320, Authenticated sample_ada,
    UserUpdate 2 true (<["groups" := VList [VUrl "group-detail" 2]]> ∅));
   (330, AnonymousUser,
    Register (<["is_staff" := VBool true]> (sample_register_body "eve@example.org")));
   (340, Authenticated sample_ada,
    ScriptUpdate 1 true
      (<["author" := VUrl "user-detail" 3]> (<["name" := VStr "hi"]> ∅)));
   (350, Authenticated sample_bob, RatingCreate (sample_rating_body 6));
   (360, Authenticated sample_bob, UserDestroy 3)].

(** A stand-in for the library: the hasher tags its input, the normalisers
    and [strip] leave a string that needs no change as it is. *)
Definition sample_library : Library := {|
  make_password := fun p =>
    match p with
    | Some raw => "pbkdf2_sha256$" +:+ raw
    | None => "!"
    end;
  normalize_email := fun s => s;
  normalize_username := fun s => s;
  UnicodeUsernameValidator := fun _ => true;
  EmailValidator := fun _ => true;
  str_strip := fun s => s;
  float_of_str := fun _ => None;
  str_of_float := fun _ => "0.0"
|}.







(** * Properties *)

(** A chain of binds that ended well: each of its computations did. *)
Ltac bind_inv H :=
  repeat match type of H with
  | mbind _ ?r = Ok _ =>
      let E := fresh "E" in
      destruct r eqn:E; cbn [mbind result_bind] in H; [|discriminate H]
  end.

(** Case analysis on the first computation of a chain of binds. *)
Ltac step_bind :=
  match goal with
  | |- context [mbind _ ?r] =>
      let E := fresh "E" in
      destruct r eqn:E; cbn [mbind result_bind]
  end.

Section SerializerProperties.
Context {lib : Library} {val : Validators}.

(** ** Group membership on update *)

(** The check of [UserSerializer.update] in one equation: a caller who is
    not staff gets through exactly when the groups asked for, read as the
    empty list when the key is absent, are the list of current groups. *)
Lemma UserSerializer_update_not_staff db ru instance vd :
  is_staff ru = false ->
  UserSerializer_update db ru instance vd =
    if bool_decide (User_groups instance = default [] (UserData_groups vd))
    then ModelSerializer_update_User db instance vd
    else Err (PermissionDenied "You can't add or remove yourself from groups").
Proof.
  intros Hstaff. unfold UserSerializer_update. rewrite Hstaff. simpl.
  destruct (UserData_groups vd) as [gs|]; simpl;
    repeat case_bool_decide; simpl; congruence.
Qed.

Lemma UserSerializer_update_staff db ru instance vd :
  is_staff ru = true ->
  UserSerializer_update db ru instance vd = ModelSerializer_update_User db instance vd.
Proof. intros Hstaff. unfold UserSerializer_update. now rewrite Hstaff. Qed.

Lemma elem_of_ManyRelatedManager_set old new g :
  g ∈ ManyRelatedManager_set old new <-> g ∈ new.
Proof.
  unfold ManyRelatedManager_set.
  rewrite elem_of_app, !list_elem_of_filter, elem_of_remove_dups.
  destruct (decide (g ∈ old)); tauto.
Qed.

Lemma raise_errors_Ok {A} errors (a b : A) :
  raise_errors errors a = Ok b -> errors = [] /\ a = b.
Proof. destruct errors; simpl; [intros [= ->]; done | done]. Qed.

(** A body without the key [groups] gives [validated_data] without it, in
    a full update as in a partial one. *)
Lemma UserSerializer_to_internal_value_no_groups db instance_pk partial data vd :
  UserSerializer_to_internal_value db instance_pk partial data = Ok vd ->
  data !! "groups" = None ->
  UserData_groups vd = None.
Proof.
  unfold UserSerializer_to_internal_value. intros Hok Hnone.
  apply raise_errors_Ok in Hok as [_ <-]. simpl. rewrite Hnone.
  now destruct partial.
Qed.

(** ** What a profile shows *)

(** C4.  To a caller who is neither the user shown nor staff the profile has
    the keys url, username, groups, scripts and ratings, and no key email;
    to the user themselves and to staff it has the six keys of the
    serializer, email among them with the address of the user. *)
Theorem profile_hides_email_from_others
    (db : DB) (ru : request_user) (instance : User) :
  (User_eq instance ru = false -> is_staff ru = false ->
     exists r, UserSerializer_to_representation db ru instance = Ok r
       /\ keys r = ["url"; "username"; "groups"; "scripts"; "ratings"]
       /\ ("email" ∉ keys r)
       /\ getitem r "email" = None
       /\ getitem r "username" = Some (VStr (User_username instance)))
  /\ (User_eq instance ru = true \/ is_staff ru = true ->
        exists r, UserSerializer_to_representation db ru instance = Ok r
          /\ keys r = ["url"; "username"; "email"; "groups"; "scripts"; "ratings"]
          /\ getitem r "email" = Some (VStr (User_email instance))).
Proof.
  unfold UserSerializer_to_representation. split.
  - intros -> ->. simpl. eexists. split; [reflexivity|].
    repeat split; simpl; try reflexivity.
    apply (bool_decide_unpack _). reflexivity.
  - intros Hor.
    assert ((User_eq instance ru || is_staff ru) = true) as ->.
    { destruct Hor as [-> | ->]; [done | apply orb_true_r]. }
    eexists. split; [reflexivity|]. split; reflexivity.
Qed.

End SerializerProperties.

Section ViewProperties.
Context {lib : Library} {val : Validators} {perm : Permissions}.

Lemma UserViewSet_update_unfold db ru pk (partial : bool) data instance vd :
  auth_user db !! pk = Some instance ->
  UserViewSet_permitted (if partial then PATCH else PUT) ru instance ->
  UserSerializer_to_internal_value db (Some pk) partial data = Ok vd ->
  UserViewSet_update db ru pk partial data =
    respond db (UserSerializer_update db ru instance vd)
      (fun db' u => UserSerializer_to_representation db' ru u).
Proof.
  intros Hrow [Hp Ho] Hvd. unfold UserViewSet_update, get_object, get_object_or_404.
  rewrite Hp, Hrow. cbn [mbind result_bind]. rewrite Ho.
  cbn [mbind result_bind]. now rewrite Hvd.
Qed.

(** C3.  An update of a user that passes the permission classes and the
    validation, and asks for a set of groups other than the one the user is
    in.  From a caller who is not staff it is refused with
    [PermissionDenied] and the fixed message, and the store is left as it
    was.  The same request from a staff caller is applied: the answer is a
    profile and the user is stored with exactly the groups asked for. *)
Theorem update_groups_denied_unless_staff
    (db : DB) (pk : Z) (partial : bool) (data : gmap string value)
    (instance : User) (vd : UserData) (gs : list Z)
    (Hrow : auth_user db !! pk = Some instance)
    (Hvalid : UserSerializer_to_internal_value db (Some pk) partial data = Ok vd)
    (Hgroups : UserData_groups vd = Some gs)
    (Hchange : ~ (forall g, g ∈ gs <-> g ∈ User_groups instance)) :
  (forall ru,
     UserViewSet_permitted (if partial then PATCH else PUT) ru instance ->
     is_staff ru = false ->
     UserSerializer_update db ru instance vd =
       Err (PermissionDenied "You can't add or remove yourself from groups")
     /\ UserViewSet_update db ru pk partial data =
          (db, Err (PermissionDenied "You can't add or remove yourself from groups")))
  /\ (forall ru,
        UserViewSet_permitted (if partial then PATCH else PUT) ru instance ->
        is_staff ru = true ->
        exists db' u r,
          UserSerializer_update db ru instance vd = Ok (db', u)
          /\ UserViewSet_update db ru pk partial data = (db', Ok r)
          /\ auth_user db' !! User_pk instance = Some u
          /\ (forall g, g ∈ User_groups u <-> g ∈ gs)).
Proof.
  split.
  - intros ru Hperm Hstaff.
    rewrite (UserViewSet_update_unfold _ _ _ _ _ instance vd) by done.
    assert (UserSerializer_update db ru instance vd =
            Err (PermissionDenied "You can't add or remove yourself from groups")) as ->.
    { rewrite UserSerializer_update_not_staff by done.
      rewrite Hgroups. simpl. case_bool_decide as Heq; [|done].
      exfalso. apply Hchange. intros g. now rewrite Heq. }
    done.
  - intros ru Hperm Hstaff.
    rewrite (UserViewSet_update_unfold _ _ _ _ _ instance vd) by done.
    rewrite UserSerializer_update_staff by done.
    unfold ModelSerializer_update_User, User_save. rewrite Hgroups. simpl.
    unfold UserSerializer_to_representation. rewrite Hstaff, orb_true_r.
    eexists _, _, _. split; [reflexivity|]. split; [reflexivity|]. split.
    + simpl. apply lookup_insert_eq.
    + intros g. simpl. apply elem_of_ManyRelatedManager_set.
Qed.

(** C10.  A caller who is not staff updates a user who is in some group.
    When [validated_data] has no key [groups] the serializer refuses with
    [PermissionDenied]; so does the view for a body without that key, once
    the request is through the permission classes and the validation, and
    the store is left as it was.  An update gets through exactly when
    [validated_data] carries the list of current groups. *)
Theorem update_without_groups_denied
    (db : DB) (ru : request_user) (instance : User)
    (Hstaff : is_staff ru = false)
    (Hmember : User_groups instance <> []) :
  (forall vd, UserData_groups vd = None ->
     UserSerializer_update db ru instance vd =
       Err (PermissionDenied "You can't add or remove yourself from groups"))
  /\ (forall pk (partial : bool) data vd,
        auth_user db !! pk = Some instance ->
        UserViewSet_permitted (if partial then PATCH else PUT) ru instance ->
        UserSerializer_to_internal_value db (Some pk) partial data = Ok vd ->
        data !! "groups" = None ->
        UserViewSet_update db ru pk partial data =
          (db, Err (PermissionDenied "You can't add or remove yourself from groups")))
  /\ (forall vd, is_ok (UserSerializer_update db ru instance vd) = true <->
        UserData_groups vd = Some (User_groups instance)).
Proof.
  assert (forall vd, UserData_groups vd = None ->
     UserSerializer_update db ru instance vd =
       Err (PermissionDenied "You can't add or remove yourself from groups")) as Hnone.
  { intros vd Hvd. rewrite UserSerializer_update_not_staff by done.
    rewrite Hvd. simpl. now case_bool_decide. }
  split; [exact Hnone|]. split.
  - intros pk partial data vd Hrow Hperm Hvd Hdata.
    rewrite (UserViewSet_update_unfold _ _ _ _ _ instance vd) by done.
    rewrite Hnone; [done|].
    eapply UserSerializer_to_internal_value_no_groups; eauto.
  - intros vd. rewrite UserSerializer_update_not_staff by done.
    destruct (UserData_groups vd) as [gs|]; simpl; case_bool_decide;
      simpl; split; try done; congruence.
Qed.

End ViewProperties.

Section RetrieveProperties.
Context {lib : Library} {val : Validators} {perm : Permissions}.

Lemma get_object_Ok {A} (classes : list (permission A)) table m ru pk obj :
  get_object classes table m ru pk = Ok obj -> table !! pk = Some obj.
Proof.
  unfold get_object, get_object_or_404.
  destruct (table !! pk) as [row|]; [|done]. cbn [mbind result_bind].
  destruct (check_object_permissions classes m ru row); [|done].
  cbn [mbind result_bind]. congruence.
Qed.

Lemma ScriptViewSet_get_object_Ok db ru pk instance :
  ScriptViewSet_get_object db ru pk = Ok instance ->
  api_script db !! pk = Some instance.
Proof.
  unfold ScriptViewSet_get_object.
  destruct (check_permissions _ _ _); [|done]. cbn [mbind result_bind].
  apply get_object_Ok.
Qed.

(** What a retrieve leaves behind: the store it found when [get_object]
    raises, and otherwise that store with [views] of the looked-up row set
    to one more than the value read. *)
Lemma ScriptViewSet_retrieve_store db ru pk :
  keyed Script_pk (api_script db) ->
  (ScriptViewSet_retrieve db ru pk).1 = db
  \/ exists s, api_script db !! pk = Some s
       /\ ScriptViewSet_get_object db ru pk = Ok s
       /\ (ScriptViewSet_retrieve db ru pk).1 =
            set_api_script (<[pk := Script_with_views s (Script_views s + 1)]>) db.
Proof.
  intros Hkeyed. unfold ScriptViewSet_retrieve.
  destruct (ScriptViewSet_get_object db ru pk) as [s|e] eqn:Hget; [|now left].
  right. exists s. pose proof (ScriptViewSet_get_object_Ok _ _ _ _ Hget) as Hrow.
  split; [done|]. split; [done|]. simpl.
  rewrite (Hkeyed _ _ Hrow). unfold Script_objects_filter_update_views, set_api_script.
  f_equal. apply map_eq. intros k. destruct (decide (k = pk)) as [->|Hne].
  - now rewrite lookup_alter_eq, lookup_insert_eq, Hrow.
  - now rewrite lookup_alter_ne, lookup_insert_ne by done.
Qed.

(** C7.  Whatever a retrieve answers, the store it leaves differs from the
    one it found at most in the row of the script retrieved, and there at
    most in [views]: [modified] and every other column keep their value, as
    do the other scripts, the other tables and the sequences. *)
Theorem retrieve_changes_views_only
    (db : DB) (ru : request_user) (pk : Z)
    (Hkeyed : keyed Script_pk (api_script db)) :
  let db' := (ScriptViewSet_retrieve db ru pk).1 in
  (auth_user db' = auth_user db /\ auth_group db' = auth_group db
   /\ api_os db' = api_os db /\ api_rating db' = api_rating db
   /\ seq_user db' = seq_user db /\ seq_script db' = seq_script db
   /\ seq_rating db' = seq_rating db)
  /\ (forall k, k <> pk -> api_script db' !! k = api_script db !! k)
  /\ (forall s', api_script db' !! pk = Some s' ->
        exists s, api_script db !! pk = Some s
          /\ s' = Script_with_views s (Script_views s')
          /\ Script_modified s' = Script_modified s
          /\ Script_created s' = Script_created s
          /\ Script_name s' = Script_name s
          /\ Script_author s' = Script_author s
          /\ Script_files s' = Script_files s)
  /\ (forall s, api_script db !! pk = Some s -> is_Some (api_script db' !! pk)).
Proof.
  intros db'. subst db'.
  destruct (ScriptViewSet_retrieve_store db ru pk Hkeyed) as [-> | (s & Hrow & _ & ->)].
  - split_and!; try done.
    intros s' Hs'. exists s'. now destruct s'.
  - split_and!; try done; simpl.
    + intros k Hne. now rewrite lookup_insert_ne.
    + intros s'. rewrite lookup_insert_eq. intros [= <-]. now exists s.
    + intros s' _. rewrite lookup_insert_eq. eauto.
Qed.

(** *** The counter under the other requests *)

Lemma respond_store {A} db (r : result (DB * A)) render :
  (respond db r render).1 = match r with Ok (db', _) => db' | Err _ => db end.
Proof. now destruct r as [[db' a]|e]. Qed.

Lemma scripts_step_refl db : scripts_step db db.
Proof. split; [lia|]. intros k s' Hs'. left. exists s'. split; [done|lia]. Qed.

Lemma scripts_untouched db db' :
  api_script db' = api_script db -> seq_script db' = seq_script db ->
  scripts_wf db -> scripts_wf db' /\ scripts_step db db'.
Proof.
  intros Ht Hs Hwf. split.
  - unfold scripts_wf. now rewrite Ht, Hs.
  - split; [lia|]. rewrite Ht. intros k s' Hs'. left. exists s'. split; [done|lia].
Qed.

(** A table that lost rows. *)
Lemma scripts_shrunk db db' :
  (forall k s, api_script db' !! k = Some s -> api_script db !! k = Some s) ->
  seq_script db' = seq_script db ->
  scripts_wf db -> scripts_wf db' /\ scripts_step db db'.
Proof.
  intros Hsub Hs [Hkeyed Hfresh]. split; [split|split].
  - intros k s Hk. apply (Hkeyed k s), Hsub, Hk.
  - intros k s Hk. rewrite Hs. apply (Hfresh k s), Hsub, Hk.
  - lia.
  - intros k s' Hs'. left. exists s'. split; [auto|lia].
Qed.

(** A row written back under its key with the [views] it had. *)
Lemma scripts_rewritten db db' pk s s' :
  api_script db !! pk = Some s ->
  Script_pk s' = pk -> Script_views s <= Script_views s' ->
  api_script db' = <[pk := s']> (api_script db) ->
  seq_script db' = seq_script db ->
  scripts_wf db -> scripts_wf db' /\ scripts_step db db'.
Proof.
  intros Hrow Hpk Hviews Ht Hs [Hkeyed Hfresh]. split; [split|split].
  - rewrite Ht. apply map_Forall_insert_2; [done|exact Hkeyed].
  - rewrite Ht, Hs. apply map_Forall_insert_2; [|exact Hfresh].
    apply (Hfresh pk s Hrow).
  - lia.
  - rewrite Ht. intros k x. destruct (decide (k = pk)) as [->|Hne].
    + rewrite lookup_insert_eq. intros [= <-]. left. eauto.
    + rewrite lookup_insert_ne by done. intros Hx. left. exists x. split; [done|lia].
Qed.

(** Every request keeps the table of scripts well formed and takes it one
    [scripts_step] further. *)
Lemma dispatch_scripts db now ru rq :
  scripts_wf db ->
  scripts_wf (dispatch db now ru rq).1 /\ scripts_step db (dispatch db now ru rq).1.
Proof.
  intros Hwf. pose proof Hwf as [Hkeyed Hfresh].
  assert (scripts_wf db /\ scripts_step db db) as Hsame
    by (split; [done | apply scripts_step_refl]).
  destruct rq as [pk partial data | pk | pk | data | pk partial data | pk
                 | data | pk partial data | pk | data]; cbn [dispatch].
  - (* UserUpdate *)
    unfold UserViewSet_update. rewrite respond_store.
    repeat (step_bind; [|exact Hsame]).
    unfold UserSerializer_update. step_bind; [|exact Hsame].
    unfold ModelSerializer_update_User. now apply scripts_untouched.
  - (* UserDestroy *)
    unfold UserViewSet_destroy. rewrite respond_store.
    repeat (step_bind; [|exact Hsame]).
    apply scripts_shrunk; [|done|done]. simpl.
    intros k s Hk. now apply map_lookup_filter_Some in Hk as [Hk _].
  - (* ScriptRetrieve *)
    destruct (ScriptViewSet_retrieve_store db ru pk Hkeyed)
      as [-> | (s & Hrow & _ & ->)]; [exact Hsame|].
    apply (scripts_rewritten _ _ pk s (Script_with_views s (Script_views s + 1)));
      try done; simpl; [apply (Hkeyed _ _ Hrow) | lia].
  - (* ScriptCreate *)
    unfold ScriptViewSet_create. rewrite respond_store.
    repeat (step_bind; [|exact Hsame]).
    unfold ScriptSerializer_create, ModelSerializer_create_Script.
    repeat (step_bind; [|exact Hsame]). simpl.
    split; [split|split]; simpl.
    + apply map_Forall_insert_2; [done|exact Hkeyed].
    + apply map_Forall_insert_2; [lia|].
      intros k s Hk. specialize (Hfresh k s Hk). simpl in Hfresh. lia.
    + lia.
    + intros k s'. destruct (decide (k = seq_script db)) as [->|Hne].
      * rewrite lookup_insert_eq. intros _. right. split; [|lia].
        destruct (api_script db !! seq_script db) as [s|] eqn:Hk; [|done].
        specialize (Hfresh _ _ Hk). simpl in Hfresh. lia.
      * rewrite lookup_insert_ne by done. intros Hk. left. exists s'. split; [done|lia].
  - (* ScriptUpdate *)
    unfold ScriptViewSet_update. rewrite respond_store.
    step_bind; [|exact Hsame].
    destruct (get_object _ _ _ _ _) as [instance|] eqn:Hget;
      cbn [mbind result_bind]; [|exact Hsame].
    apply get_object_Ok in Hget.
    step_bind; [|exact Hsame].
    unfold ModelSerializer_update_Script. step_bind; [|exact Hsame].
    match goal with
    | |- context [Script_save db now ?u] =>
        apply (scripts_rewritten _ _ pk instance (Script_with_modified u now))
    end; try done; simpl;
      [apply (Hkeyed _ _ Hget) | now rewrite (Hkeyed _ _ Hget)].
  - (* ScriptDestroy *)
    unfold ScriptViewSet_destroy. rewrite respond_store.
    repeat (step_bind; [|exact Hsame]).
    apply scripts_shrunk; [|done|done]. simpl.
    intros k s Hk. now apply lookup_delete_Some in Hk as [_ Hk].
  - (* RatingCreate *)
    unfold RatingViewSet_create. rewrite respond_store.
    repeat (step_bind; [|exact Hsame]).
    unfold RatingSerializer_create, ModelSerializer_create_Rating.
    repeat (step_bind; [|exact Hsame]). now apply scripts_untouched.
  - (* RatingUpdate *)
    unfold RatingViewSet_update. rewrite respond_store.
    repeat (step_bind; [|exact Hsame]).
    unfold ModelSerializer_update_Rating.
    repeat (step_bind; [|exact Hsame]). now apply scripts_untouched.
  - (* RatingDestroy *)
    unfold RatingViewSet_destroy. rewrite respond_store.
    repeat (step_bind; [|exact Hsame]). now apply scripts_untouched.
  - (* Register *)
    unfold RegisterViewSet_create. rewrite respond_store.
    repeat (step_bind; [|exact Hsame]).
    unfold RegisterSerializer_create, UserManager_create_user.
    destruct (RegisterData_username _); [|exact Hsame].
    repeat (case_bool_decide; [|exact Hsame]).
    case_bool_decide; [exact Hsame|].
    case_bool_decide; [|exact Hsame]. now apply scripts_untouched.
Qed.

Lemma serve_scripts_wf db rqs : scripts_wf db -> scripts_wf (serve db rqs).
Proof.
  revert db. induction rqs as [|[[now ru] rq] rest IH]; intros db Hwf; [done|].
  simpl. apply IH. now apply dispatch_scripts.
Qed.

(** A key the sequence has passed and that holds no row stays empty. *)
Lemma serve_absent db rqs k :
  scripts_wf db -> k < seq_script db -> api_script db !! k = None ->
  api_script (serve db rqs) !! k = None.
Proof.
  revert db. induction rqs as [|[[now ru] rq] rest IH]; intros db Hwf Hlt Hnone; [done|].
  simpl. destruct (dispatch_scripts db now ru rq Hwf) as [Hwf' [Hseq Hrows]].
  apply IH; [done | lia |].
  destruct (api_script (dispatch db now ru rq).1 !! k) as [s'|] eqn:Hk; [|done].
  destruct (Hrows _ _ Hk) as [(s & Hs & _) | [_ Hge]]; [congruence | lia].
Qed.



End RetrieveProperties.

Section DeleteProperties.
Context {lib : Library} {val : Validators} {perm : Permissions}.

Lemma User_delete_scripts db pk k s :
  api_script (User_delete db pk) !! k = Some s <->
  api_script db !! k = Some s /\ Script_author s <> pk.
Proof. unfold User_delete. simpl. apply map_lookup_filter_Some. Qed.

Lemma User_delete_ratings db pk k r :
  api_rating (User_delete db pk) !! k = Some r <->
  api_rating db !! k = Some r /\ Rating_user r <> pk
  /\ forall s, api_script db !! Rating_script r = Some s -> Script_author s <> pk.
Proof.
  unfold User_delete, scripts_of. simpl. rewrite map_lookup_filter_Some. simpl.
  rewrite map_lookup_filter_None. simpl. split.
  - intros (Hr & Hu & Hs). split_and!; try done.
    intros s Hk. destruct Hs as [Hnone | Hother]; [congruence | now apply Hother].
  - intros (Hr & Hu & Hs). split_and!; try done.
    destruct (api_script db !! Rating_script r) as [s|] eqn:Hk; [right | now left].
    intros s0 [= <-]. eauto.
Qed.

Lemma Script_delete_ratings db pk k r :
  api_rating (Script_delete db pk) !! k = Some r <->
  api_rating db !! k = Some r /\ Rating_script r <> pk.
Proof. unfold Script_delete. simpl. apply map_lookup_filter_Some. Qed.

(** C9.  Deleting a user removes the user, the scripts the user wrote, the
    ratings the user gave and the ratings of the removed scripts; deleting a
    script removes the script and its ratings.  Afterwards no script and no
    rating refers to what was deleted, and the rows that did not refer to it
    are still there.  A destroy request that is answered runs exactly that
    deletion on the key of its URL. *)
Theorem delete_cascades (db : DB) (pk : Z) :
  (auth_user (User_delete db pk) !! pk = None
   /\ (forall k s, api_script db !! k = Some s -> Script_author s = pk ->
         api_script (User_delete db pk) !! k = None)
   /\ (forall k r, api_rating db !! k = Some r -> Rating_user r = pk ->
         api_rating (User_delete db pk) !! k = None)
   /\ (forall k s, api_script (User_delete db pk) !! k = Some s -> Script_author s <> pk)
   /\ (forall k r, api_rating (User_delete db pk) !! k = Some r ->
         Rating_user r <> pk
         /\ forall s, api_script db !! Rating_script r = Some s ->
              api_script (User_delete db pk) !! Rating_script r = Some s)
   /\ (forall k s, api_script db !! k = Some s -> Script_author s <> pk ->
         api_script (User_delete db pk) !! k = Some s))
  /\ (api_script (Script_delete db pk) !! pk = None
      /\ (forall k r, api_rating db !! k = Some r -> Rating_script r = pk ->
            api_rating (Script_delete db pk) !! k = None)
      /\ (forall k r, api_rating (Script_delete db pk) !! k = Some r ->
            Rating_script r <> pk)
      /\ (forall k r, api_rating db !! k = Some r -> Rating_script r <> pk ->
            api_rating (Script_delete db pk) !! k = Some r)
      /\ auth_user (Script_delete db pk) = auth_user db)
  /\ (forall ru db' r,
        keyed User_pk (auth_user db) ->
        UserViewSet_destroy db ru pk = (db', Ok r) -> db' = User_delete db pk)
  /\ (forall ru db' r,
        keyed Script_pk (api_script db) ->
        ScriptViewSet_destroy db ru pk = (db', Ok r) -> db' = Script_delete db pk).
Proof.
  split_and!.
  - unfold User_delete. simpl. apply lookup_delete_eq.
  - intros k s Hs Hauthor.
    destruct (api_script (User_delete db pk) !! k) as [s'|] eqn:Hk; [|done].
    apply User_delete_scripts in Hk as [Hk Hne]. congruence.
  - intros k r Hr Huser.
    destruct (api_rating (User_delete db pk) !! k) as [r'|] eqn:Hk; [|done].
    apply User_delete_ratings in Hk as (Hk & Hne & _). congruence.
  - intros k s Hs. now apply User_delete_scripts in Hs.
  - intros k r Hr. apply User_delete_ratings in Hr as (_ & Hu & Hs).
    split; [done|]. intros s Hk. apply User_delete_scripts. auto.
  - intros k s Hs Hne. now apply User_delete_scripts.
  - unfold Script_delete. simpl. apply lookup_delete_eq.
  - intros k r Hr Hscript.
    destruct (api_rating (Script_delete db pk) !! k) as [r'|] eqn:Hk; [|done].
    apply Script_delete_ratings in Hk as [Hk Hne]. congruence.
  - intros k r Hr. now apply Script_delete_ratings in Hr.
  - intros k r Hr Hne. now apply Script_delete_ratings.
  - done.
  - intros ru db' r Hkeyed. unfold UserViewSet_destroy.
    step_bind; [|intros [= _ ?]; done].
    destruct (get_object _ _ _ _ _) as [instance|] eqn:Hget;
      cbn [mbind result_bind]; [|intros [= _ ?]; done].
    apply get_object_Ok in Hget. rewrite (Hkeyed _ _ Hget). simpl. congruence.
  - intros ru db' r Hkeyed. unfold ScriptViewSet_destroy.
    step_bind; [|intros [= _ ?]; done].
    destruct (get_object _ _ _ _ _) as [instance|] eqn:Hget;
      cbn [mbind result_bind]; [|intros [= _ ?]; done].
    apply get_object_Ok in Hget. rewrite (Hkeyed _ _ Hget). simpl. congruence.
Qed.

End DeleteProperties.

Section CreateProperties.
Context {lib : Library} {val : Validators} {perm : Permissions}.

Lemma respond_Ok {A} db (r : result (DB * A)) render db' rep :
  respond db r render = (db', Ok rep) ->
  exists a, r = Ok (db', a) /\ render db' a = Ok rep.
Proof.
  destruct r as [[db1 a]|e]; simpl; [|done].
  intros [= -> Hrep]. eauto.
Qed.

(** [ScriptSerializer.create] gets through for an authenticated requester
    only, and the row it inserts has that requester as author whatever
    [validated_data] held under [author]. *)
Lemma ScriptSerializer_create_Ok db now ru vd db' s :
  ScriptSerializer_create db now ru vd = Ok (db', s) ->
  exists u, ru = Authenticated u
    /\ Script_author s = User_pk u
    /\ Script_pk s = seq_script db
    /\ Script_views s = 0
    /\ api_script db' = <[seq_script db := s]> (api_script db).
Proof.
  unfold ScriptSerializer_create, ModelSerializer_create_Script. simpl.
  destruct ru as [|u]; simpl; [done|].
  destruct (ScriptData_files vd); simpl; [|done].
  intros [= <- <-]. exists u. now simpl.
Qed.

Lemma RatingSerializer_create_Ok db now ru vd db' r :
  RatingSerializer_create db now ru vd = Ok (db', r) ->
  exists u, ru = Authenticated u
    /\ Rating_user r = User_pk u
    /\ Rating_pk r = seq_rating db
    /\ RatingData_rating vd = Some (Rating_rating r)
    /\ RatingData_script vd = Some (Rating_script r)
    /\ api_rating db' = <[seq_rating db := r]> (api_rating db).
Proof.
  unfold RatingSerializer_create, ModelSerializer_create_Rating. simpl.
  destruct ru as [|u]; simpl; [done|].
  destruct (RatingData_rating vd); simpl; [|done].
  destruct (RatingData_script vd); simpl; [|done].
  intros [= <- <-]. exists u. now simpl.
Qed.

(** C1.  A script created by an authenticated requester is stored with that
    requester as author, and a rating with that requester as user: by the
    serializer whatever [validated_data] holds under [author] or [user], and
    by the view whatever the request body holds. *)
Theorem create_sets_owner_to_requester (db : DB) (now : Z) (u : User) :
  (forall vd db' s,
     ScriptSerializer_create db now (Authenticated u) vd = Ok (db', s) ->
     Script_author s = User_pk u /\ api_script db' !! seq_script db = Some s)
  /\ (forall data db' rep,
        ScriptViewSet_create db now (Authenticated u) data = (db', Ok rep) ->
        exists s, api_script db' !! seq_script db = Some s
          /\ Script_author s = User_pk u
          /\ getitem rep "author" = Some (VUrl "user-detail" (User_pk u)))
  /\ (forall vd db' r,
        RatingSerializer_create db now (Authenticated u) vd = Ok (db', r) ->
        Rating_user r = User_pk u /\ api_rating db' !! seq_rating db = Some r)
  /\ (forall data db' rep,
        RatingViewSet_create db now (Authenticated u) data = (db', Ok rep) ->
        exists r, api_rating db' !! seq_rating db = Some r
          /\ Rating_user r = User_pk u
          /\ getitem rep "user" = Some (VUrl "user-detail" (User_pk u))).
Proof.
  split_and!.
  - intros vd db' s Hc.
    apply ScriptSerializer_create_Ok in Hc as (u' & [= <-] & Ha & _ & _ & Ht).
    split; [done|]. rewrite Ht. apply lookup_insert_eq.
  - intros data db' rep Hc. unfold ScriptViewSet_create in Hc.
    apply respond_Ok in Hc as (s & Hc & [= <-]). bind_inv Hc.
    apply ScriptSerializer_create_Ok in Hc as (u' & [= <-] & Ha & _ & _ & Ht).
    exists s. split_and!; [rewrite Ht; apply lookup_insert_eq | done |].
    simpl. now rewrite Ha.
  - intros vd db' r Hc.
    apply RatingSerializer_create_Ok in Hc as (u' & [= <-] & Ha & _ & _ & _ & Ht).
    split; [done|]. rewrite Ht. apply lookup_insert_eq.
  - intros data db' rep Hc. unfold RatingViewSet_create in Hc.
    apply respond_Ok in Hc as (r & Hc & [= <-]). bind_inv Hc.
    apply RatingSerializer_create_Ok in Hc as (u' & [= <-] & Ha & _ & _ & _ & Ht).
    exists r. split_and!; [rewrite Ht; apply lookup_insert_eq | done |].
    simpl. now rewrite Ha.
Qed.

(** ** The range of a rating *)

(** The two validators of [Rating.rating] let a float through exactly when
    it is neither below 0 nor above 5. *)
Lemma Rating_rating_validators_pass f :
  run_validators Rating_rating_validators f = [] <->
  PrimFloat.ltb f 0 = false /\ PrimFloat.ltb 5 f = false.
Proof.
  unfold run_validators, Rating_rating_validators, validator,
    MinValueValidator, MaxValueValidator. simpl.
  destruct (PrimFloat.ltb f 0), (PrimFloat.ltb 5 f); simpl; split;
    try done; intros [? ?]; done.
Qed.

Lemma FloatField_not_null v f :
  FloatField_to_internal_value v = Some (inr f) ->
  forall partial, validate_empty_values partial true (Some v) = Value v.
Proof. now destruct v. Qed.

(** The field [rating] on a value that reads as the float [f]. *)
Lemma rating_field_parsed partial data v f :
  data !! "rating" = Some v ->
  FloatField_to_internal_value v = Some (inr f) ->
  rating_field partial data =
    Ok (match run_validators Rating_rating_validators f with
        | [] => Value f
        | msgs => Fail msgs
        end).
Proof.
  intros Hv Hf. unfold rating_field.
  rewrite Hv, (FloatField_not_null v f Hf), Hf.
  now destruct (run_validators Rating_rating_validators f).
Qed.

(** C5.  A rating request whose [rating] reads as a float below 0 or above 5
    is refused by the serializer with a validation error on [rating]; the
    view answers with an error, that validation error once the permission
    classes let the request through, and leaves the store as it was, so no
    rating is created.  For a rating of exactly 0 or exactly 5 on an existing
    script, from an authenticated requester the permission classes let
    through, the rating is created with that value. *)
Theorem rating_range_enforced
    (db : DB) (now : Z) (ru : request_user) (data : gmap string value)
    (v : value) (f : float)
    (Hdata : data !! "rating" = Some v)
    (Hfloat : FloatField_to_internal_value v = Some (inr f)) :
  (PrimFloat.ltb f 0 = true \/ PrimFloat.ltb 5 f = true ->
     (exists msg msgs rest,
        RatingSerializer_to_internal_value db false data =
          Err (ValidationError (("rating", msg :: msgs) :: rest)))
     /\ (exists e, RatingViewSet_create db now ru data = (db, Err e)
           /\ (check_permissions RatingViewSet_permission_classes POST ru = Ok tt ->
               exists msg msgs rest,
                 e = ValidationError (("rating", msg :: msgs) :: rest))))
  /\ (forall u spk,
        f = 0%float \/ f = 5%float ->
        ru = Authenticated u ->
        check_permissions RatingViewSet_permission_classes POST ru = Ok tt ->
        data !! "script" = Some (VUrl "script-detail" spk) ->
        is_Some (api_script db !! spk) ->
        data !! "comment" = None ->
        exists db' rep r,
          RatingViewSet_create db now ru data = (db', Ok rep)
          /\ api_rating db' !! seq_rating db = Some r
          /\ Rating_rating r = f /\ Rating_user r = User_pk u
          /\ Rating_script r = spk
          /\ getitem rep "rating" = Some (VNum f)).
Proof.
  split.
  - intros Hout.
    assert (exists msg msgs rest,
      RatingSerializer_to_internal_value db false data =
        Err (ValidationError (("rating", msg :: msgs) :: rest))) as Hser.
    { unfold RatingSerializer_to_internal_value.
      rewrite (rating_field_parsed false data v f Hdata Hfloat).
      destruct (run_validators Rating_rating_validators f) as [|msg msgs] eqn:Hrun.
      - apply Rating_rating_validators_pass in Hrun as [H0 H5].
        destruct Hout; congruence.
      - cbn [mbind result_bind field_errors app raise_errors]. eauto. }
    split; [exact Hser|].
    destruct Hser as (msg & msgs & rest & Hser). unfold RatingViewSet_create.
    destruct (check_permissions RatingViewSet_permission_classes POST ru) as [[]|e] eqn:Hperm.
    + cbn [mbind result_bind]. rewrite Hser. cbn [mbind result_bind respond].
      eexists. split; [reflexivity|]. eauto.
    + cbn [mbind result_bind respond]. eexists. split; [reflexivity|]. done.
  - intros u spk Hf -> Hperm Hscript [s Hs] Hcomment.
    unfold RatingViewSet_create. rewrite Hperm. cbn [mbind result_bind].
    unfold RatingSerializer_to_internal_value.
    rewrite (rating_field_parsed false data v f Hdata Hfloat).
    assert (run_validators Rating_rating_validators f = []) as ->.
    { apply Rating_rating_validators_pass. destruct Hf as [-> | ->]; done. }
    cbn [mbind result_bind]. rewrite Hcomment, Hscript.
    unfold CharField_run_validation, RelatedField_run_validation, run_validation. simpl.
    rewrite Hs. simpl.
    eexists _, _, _. split; [reflexivity|]. simpl.
    split; [apply lookup_insert_eq|]. split_and!; reflexivity.
Qed.

(** ** Registration *)

(** A required character field of a full request that reports no error has
    read its value off the body. *)
Lemma CharField_required_no_error name max_length validators data :
  field_errors name
    (CharField_run_validation false true false max_length validators data) = [] ->
  exists v a,
    data = Some v /\ CharField_to_internal_value v = inr a
    /\ CharField_run_validation false true false max_length validators data = Value a.
Proof.
  unfold CharField_run_validation, run_validation.
  destruct data as [v|]; [|done].
  destruct (match v with
            | VStr s =>
                bool_decide (s = EmptyString) || bool_decide (str_strip s = EmptyString)
            | _ => false
            end); [done|].
  destruct v; cbn [validate_empty_values CharField_to_internal_value]; try done;
    (destruct (run_validators _ _); [|done]); eauto.
Qed.

Lemma run_validators_fail {A} (validators : list (A -> option string)) check a msg :
  check ∈ validators -> check a = Some msg -> run_validators validators a <> [].
Proof.
  intros Hin Hcheck Hnil.
  assert (msg ∈ run_validators validators a) as Hmsg
    by (apply list_elem_of_omap; eauto).
  rewrite Hnil in Hmsg. by apply elem_of_nil in Hmsg.
Qed.



End CreateProperties.

Section InFlightProperties.
Context {perm : Permissions}.

Lemma writes_nonneg pool : 0 <= writes pool.
Proof. induction pool as [|t rest IH]; simpl; [lia|]. destruct (has_written t); lia. Qed.

Lemma writes_insert pool (i : nat) t t' :
  pool !! i = Some t ->
  writes (<[i := t']> pool) =
    writes pool - (if has_written t then 1 else 0) + (if has_written t' then 1 else 0).
Proof.
  revert i. induction pool as [|x rest IH]; intros i Hi; [done|].
  destruct i as [|i]; simpl in *.
  - injection Hi as ->. lia.
  - rewrite (IH i Hi). lia.
Qed.

Lemma retrieval_inv_mono v0 pk w w' t :
  w <= w' -> retrieval_inv v0 pk w t -> retrieval_inv v0 pk w' t.
Proof.
  intros Hle [Hread Hstate]. split; [done|].
  destruct t.2 as [|instance| |[rep|e]]; try done.
  destruct Hstate as [Hpk Hviews]. split; [done|lia].
Qed.

Lemma ScriptViewSet_get_object_readable db ru pk s :
  Script_readable ru -> api_script db !! pk = Some s ->
  ScriptViewSet_get_object db ru pk = Ok s.
Proof.
  intros [Hp Ho] Hrow. unfold ScriptViewSet_get_object, get_object, get_object_or_404.
  rewrite Hp, Hrow. cbn [mbind result_bind]. now rewrite Ho.
Qed.

Lemma RetrieveModelMixin_retrieve_Script_readable db ru pk s :
  Script_readable ru -> api_script db !! pk = Some s ->
  RetrieveModelMixin_retrieve_Script db ru pk = Ok (ScriptSerializer_to_representation db s).
Proof.
  intros [Hp Ho] Hrow. unfold RetrieveModelMixin_retrieve_Script, get_object, get_object_or_404.
  rewrite Hrow. cbn [mbind result_bind]. now rewrite Ho.
Qed.

(** The write of a retrieval that holds [instance], on a store whose row
    has the key of the instance. *)
Lemma update_views_row db pk s v :
  api_script db !! pk = Some s ->
  api_script (Script_objects_filter_update_views db pk v) !! pk
    = Some (Script_with_views s v).
Proof.
  intros Hrow. unfold Script_objects_filter_update_views. simpl.
  now rewrite lookup_alter_eq, Hrow.
Qed.

Lemma update_views_keyed db pk v :
  keyed Script_pk (api_script db) ->
  keyed Script_pk (api_script (Script_objects_filter_update_views db pk v)).
Proof.
  intros Hkeyed k s. unfold Script_objects_filter_update_views. simpl.
  destruct (decide (k = pk)) as [->|Hne].
  - rewrite lookup_alter_eq. destruct (api_script db !! pk) as [s0|] eqn:Hrow; [|done].
    intros [= <-]. simpl. apply (Hkeyed _ _ Hrow).
  - rewrite lookup_alter_ne by done. apply Hkeyed.
Qed.

(** One statement of one retrieval keeps the invariant. *)
Lemma retrieve_step_inv v0 pk db pool (i : nat) ru t :
  in_flight_inv v0 pk db pool ->
  pool !! i = Some (ru, t) ->
  in_flight_inv v0 pk (retrieve_step db ru pk t).1
    (<[i := (ru, (retrieve_step db ru pk t).2)]> pool).
Proof.
  intros (Hkeyed & Hpool & s & Hrow & Hviews & Hpos) Hi.
  pose proof (proj1 (Forall_lookup _ _) Hpool i _ Hi) as [Hread Hstate].
  simpl in Hread, Hstate. pose proof (writes_nonneg pool) as Hw.
  destruct t as [|instance| |r]; simpl.
  - (* the SELECT of get_object *)
    rewrite (ScriptViewSet_get_object_readable db ru pk s Hread Hrow). simpl.
    assert (writes (<[i := (ru, Loaded s)]> pool) = writes pool) as Hsame
      by (rewrite (writes_insert _ _ _ _ Hi); simpl; lia).
    split; [done|]. rewrite Hsame. split.
    + apply Forall_insert; [done|]. split; [done|]. simpl.
      split; [apply (Hkeyed _ _ Hrow) | lia].
    + exists s. done.
  - (* the UPDATE *)
    destruct Hstate as [Hpk Hinst]. rewrite Hpk.
    assert (writes (<[i := (ru, Updated)]> pool) = writes pool + 1) as Hmore
      by (rewrite (writes_insert _ _ _ _ Hi); simpl; lia).
    split; [now apply update_views_keyed|]. rewrite Hmore. split.
    + apply Forall_insert; [|done].
      eapply Forall_impl; [exact Hpool|]. intros x. apply retrieval_inv_mono. lia.
    + exists (Script_with_views s (Script_views instance + 1)).
      split; [now apply update_views_row|]. simpl. lia.
  - (* the SELECT of the inherited retrieve *)
    rewrite (RetrieveModelMixin_retrieve_Script_readable db ru pk s Hread Hrow).
    assert (writes (<[i := (ru, Finished (Ok (ScriptSerializer_to_representation db s)))]> pool)
            = writes pool) as Hsame
      by (rewrite (writes_insert _ _ _ _ Hi); simpl; lia).
    split; [done|]. rewrite Hsame. split.
    + apply Forall_insert; [done|]. done.
    + exists s. done.
  - rewrite list_insert_id by done. split; [done|]. split; [done|]. exists s. done.
Qed.

Lemma interleave_inv v0 pk db pool schedule :
  in_flight_inv v0 pk db pool ->
  in_flight_inv v0 pk (interleave db pk pool schedule).1 (interleave db pk pool schedule).2.
Proof.
  revert db pool. induction schedule as [|i rest IH]; intros db pool Hinv; [done|].
  simpl. destruct (pool !! i) as [[ru t]|] eqn:Hi; [|now apply IH].
  pose proof (retrieve_step_inv v0 pk db pool i ru t Hinv Hi) as Hstep.
  destruct (retrieve_step db ru pk t) as [db' t']. now apply IH.
Qed.

Lemma interleave_length db pk pool schedule :
  length (interleave db pk pool schedule).2 = length pool.
Proof.
  revert db pool. induction schedule as [|i rest IH]; intros db pool; [done|].
  simpl. destruct (pool !! i) as [[ru t]|]; [|apply IH].
  destruct (retrieve_step db ru pk t) as [db' t']. rewrite IH. apply length_insert.
Qed.

Lemma writes_waiting pool :
  Forall (fun t => Script_readable t.1 /\ t.2 = Waiting) pool -> writes pool = 0.
Proof.
  induction 1 as [|[ru t] rest [_ Ht] _ IH]; [done|].
  simpl in Ht. subst t. simpl. unfold has_written. simpl. lia.
Qed.

Lemma writes_finished v0 pk w pool :
  Forall (retrieval_inv v0 pk w) pool ->
  forallb is_finished pool = true ->
  writes pool = Z.of_nat (length pool).
Proof.
  induction 1 as [|[ru t] rest [_ Ht] _ IH]; [done|].
  simpl. intros [Hfin Hrest]%andb_true_iff. rewrite (IH Hrest).
  unfold is_finished in Hfin. unfold has_written. simpl in *.
  destruct t as [| | |[rep|e]]; try done. lia.
Qed.

Lemma retrieve_all_views db pk s0 rus :
  keyed Script_pk (api_script db) ->
  api_script db !! pk = Some s0 ->
  Forall Script_readable rus ->
  Script_views <$> api_script (retrieve_all db pk rus) !! pk
    = Some (Script_views s0 + Z.of_nat (length rus)).
Proof.
  intros Hkeyed Hrow Hall. revert db s0 Hkeyed Hrow.
  induction Hall as [|ru rus Hread _ IH]; intros db s0 Hkeyed Hrow.
  - simpl. rewrite Hrow. simpl. f_equal. lia.
  - unfold retrieve_all in *. cbn [foldl]. unfold ScriptViewSet_retrieve at 2.
    rewrite (ScriptViewSet_get_object_readable db ru pk s0 Hread Hrow).
    cbn [fst]. rewrite (Hkeyed _ _ Hrow).
    rewrite (IH _ (Script_with_views s0 (Script_views s0 + 1))).
    + simpl. f_equal. lia.
    + now apply update_views_keyed.
    + now apply update_views_row.
Qed.

(** C8, as the code has it.  [ScriptViewSet.retrieve] reads the row, then
    writes the value it read plus one, then reads again: run without
    interruption those three statements are the handler.  Retrievals of one
    script that run one after the other leave its counter at the first value
    plus their number.  Retrievals that interleave leave it, once all have
    answered, above the first value and at most their number above it. *)
Theorem retrieve_reads_then_writes
    (db : DB) (pk : Z) (s0 : Script)
    (Hkeyed : keyed Script_pk (api_script db))
    (Hrow : api_script db !! pk = Some s0) :
  (forall ru,
     interleave db pk [(ru, Waiting)] [0; 0; 0]%nat =
       ((ScriptViewSet_retrieve db ru pk).1,
        [(ru, Finished (ScriptViewSet_retrieve db ru pk).2)]))
  /\ (forall rus,
        Forall Script_readable rus ->
        Script_views <$> api_script (retrieve_all db pk rus) !! pk
          = Some (Script_views s0 + Z.of_nat (length rus)))
  /\ (forall pool schedule,
        pool <> [] ->
        Forall (fun t => Script_readable t.1 /\ t.2 = Waiting) pool ->
        forallb is_finished (interleave db pk pool schedule).2 = true ->
        exists s,
          api_script (interleave db pk pool schedule).1 !! pk = Some s
          /\ Script_views s0 + 1 <= Script_views s
          /\ Script_views s <= Script_views s0 + Z.of_nat (length pool)).
Proof.
  split_and!.
  - intros ru. unfold ScriptViewSet_retrieve. simpl.
    destruct (ScriptViewSet_get_object db ru pk) as [instance|e]; reflexivity.
  - intros rus. now apply retrieve_all_views.
  - intros pool schedule Hne Hpool Hfin.
    assert (in_flight_inv (Script_views s0) pk db pool) as Hinv.
    { pose proof (writes_waiting pool Hpool) as Hw. split; [done|]. rewrite Hw. split.
      - eapply Forall_impl; [exact Hpool|]. intros [ru t] [Hread Ht].
        simpl in *. subst t. done.
      - exists s0. split; [done|]. lia. }
    apply (interleave_inv _ _ _ _ schedule) in Hinv as (_ & Hpool' & s & Hs & Hviews & Hpos).
    rewrite (writes_finished _ _ _ _ Hpool' Hfin), interleave_length in Hviews, Hpos.
    exists s. split; [done|].
    assert (0 < length pool)%nat by (destruct pool; simpl; [done|lia]). lia.
Qed.

End InFlightProperties.

(** * The properties at work on the sample store *)

Lemma sample_db_keyed : keyed Script_pk (api_script sample_db).
Proof.
  apply map_Forall_insert_2; [reflexivity | apply map_Forall_empty].
Defined.


(** Bob posts a script whose body names the administrator as author: the
    script is stored under the next key with Bob as author. *)
Lemma create_sets_owner_to_requester_witness :
  let out := ScriptViewSet_create (lib := sample_library) (val := sample_validators)
               (perm := spec_permissions) sample_db 300 (Authenticated sample_bob)
               sample_script_body in
  sample_script_body !! "author" = Some (VUrl "user-detail" 1)
  /\ is_ok out.2 = true
  /\ exists s, api_script out.1 !! 2 = Some s /\ Script_author s = 3.
Proof.
  intros out. split; [reflexivity|]. split; [vm_compute; reflexivity|].
  destruct (create_sets_owner_to_requester (lib := sample_library)
              (val := sample_validators) (perm := spec_permissions)
              sample_db 300 sample_bob) as (_ & Hview & _).
  subst out.
  destruct (ScriptViewSet_create sample_db 300 (Authenticated sample_bob)
              sample_script_body) as [db' [rep|e]] eqn:Hout.
  - destruct (Hview _ _ _ Hout) as (s & Hs & Hauthor & _). exists s. split; assumption.
  - exfalso. vm_compute in Hout. discriminate Hout.
Defined.


(** Ada, who is in the group 1, asks to be in the group 2 instead and is
    refused; the administrator sends the same body and Ada is moved. *)
Lemma update_groups_denied_unless_staff_witness :
  let data : gmap string value := <["groups" := VList [VUrl "group-detail" 2]]> ∅ in
  auth_user sample_db !! 2 = Some sample_ada
  /\ UserViewSet_update (lib := sample_library) (val := sample_validators)
       (perm := spec_permissions) sample_db (Authenticated sample_ada) 2 true data
     = (sample_db, Err (PermissionDenied "You can't add or remove yourself from groups"))
  /\ exists db' u rep,
       UserViewSet_update (lib := sample_library) (val := sample_validators)
         (perm := spec_permissions) sample_db (Authenticated sample_admin) 2 true data
       = (db', Ok rep)
       /\ auth_user db' !! 2 = Some u
       /\ forall g, g ∈ User_groups u <-> g ∈ [2].
Proof.
  intros data. split; [reflexivity|].
  assert (~ (forall g : Z, g ∈ [2] <-> g ∈ User_groups sample_ada)) as Hchange.
  { intros Hsame. specialize (Hsame 2). simpl in Hsame.
    assert (2 ∈ [1]) as Hin by (apply Hsame; left).
    apply list_elem_of_singleton in Hin. discriminate Hin. }
  destruct (update_groups_denied_unless_staff (lib := sample_library)
              (val := sample_validators) (perm := spec_permissions)
              sample_db 2 true data sample_ada (mkUserData None None (Some [2])) [2]
              eq_refl eq_refl eq_refl Hchange) as [Hdenied Hstaff].
  split.
  - apply (Hdenied (Authenticated sample_ada)); [split; [reflexivity|reflexivity] | reflexivity].
  - destruct (Hstaff (Authenticated sample_admin)) as (db' & u & rep & _ & Hview & Hu & Hg);
      [split; [reflexivity|reflexivity] | reflexivity |].
    exists db', u, rep. split; [assumption|]. split; assumption.
Defined.

(** Ada reads her profile and sees her address; Bob reads it and does not. *)
Lemma profile_hides_email_from_others_witness :
  (exists r,
     UserSerializer_to_representation sample_db (Authenticated sample_bob) sample_ada = Ok r
     /\ getitem r "email" = None)
  /\ (exists r,
        UserSerializer_to_representation sample_db (Authenticated sample_ada) sample_ada = Ok r
        /\ getitem r "email" = Some (VStr "ada@example.org")).
Proof.
  split.
  - destruct (profile_hides_email_from_others sample_db (Authenticated sample_bob) sample_ada)
      as [Hother _].
    destruct (Hother eq_refl eq_refl) as (r & Hr & _ & _ & Hemail & _).
    exists r. split; assumption.
  - destruct (profile_hides_email_from_others sample_db (Authenticated sample_ada) sample_ada)
      as [_ Hself].
    destruct (Hself (or_introl eq_refl)) as (r & Hr & _ & Hemail).
    exists r. split; assumption.
Defined.

(** Bob rates the sample script 5 and the rating is stored; he rates it 6
    and is refused, and the store stays as it was. *)
Lemma rating_range_enforced_witness :
  (exists db' rep r,
     RatingViewSet_create (lib := sample_library)
       (perm := spec_permissions) sample_db 300 (Authenticated sample_bob)
       (sample_rating_body 5) = (db', Ok rep)
     /\ api_rating db' !! 2 = Some r
     /\ Rating_rating r = 5%float /\ Rating_user r = 3)
  /\ (exists e,
        RatingViewSet_create (lib := sample_library)
          (perm := spec_permissions) sample_db 300 (Authenticated sample_bob)
          (sample_rating_body 6) = (sample_db, Err e)).
Proof.
  split.
  - destruct (rating_range_enforced (lib := sample_library)
                (perm := spec_permissions) sample_db 300 (Authenticated sample_bob)
                (sample_rating_body 5) (VInt 5) 5%float eq_refl eq_refl) as [_ Hin].
    destruct (Hin sample_bob 1 (or_intror eq_refl) eq_refl eq_refl eq_refl
                (ex_intro _ sample_script eq_refl) eq_refl)
      as (db' & rep & r & Hview & Hr & Hrating & Huser & _).
    exists db', rep, r. split; [assumption|]. split; [assumption|]. split; assumption.
  - destruct (rating_range_enforced (lib := sample_library)
                (perm := spec_permissions) sample_db 300 (Authenticated sample_bob)
                (sample_rating_body 6) (VInt 6) 6%float eq_refl eq_refl) as [Hout _].
    destruct (Hout (or_intror eq_refl)) as (_ & e & Hview & _).
    exists e. assumption.
Defined.



(** An anonymous retrieve of the sample script leaves its [modified] at
    100. *)
Lemma retrieve_changes_views_only_witness :
  keyed Script_pk (api_script sample_db)
  /\ exists s',
       api_script (ScriptViewSet_retrieve (perm := spec_permissions)
                     sample_db AnonymousUser 1).1 !! 1 = Some s'
       /\ Script_modified s' = 100 /\ Script_views s' = 8.
Proof.
  split; [exact sample_db_keyed|].
  destruct (retrieve_changes_views_only (perm := spec_permissions)
              sample_db AnonymousUser 1 sample_db_keyed) as (_ & _ & Hrow & Hstill).
  destruct (Hstill sample_script eq_refl) as [s' Hs'].
  exists s'. split; [exact Hs'|].
  destruct (Hrow s' Hs') as (s & Hs & _ & Hmodified & _).
  assert (s = sample_script) as -> by (vm_compute in Hs; injection Hs as <-; reflexivity).
  split; [exact Hmodified|].
  vm_compute in Hs'. injection Hs' as <-. reflexivity.
Defined.

(** Two retrievals of the sample script that interleave statement by
    statement both answer, and the counter ends within the bounds. *)
Lemma retrieve_reads_then_writes_witness :
  let out := interleave (perm := spec_permissions) sample_db 1
               [(AnonymousUser, Waiting); (Authenticated sample_bob, Waiting)]
               [0; 1; 0; 1; 0; 1]%nat in
  keyed Script_pk (api_script sample_db)
  /\ api_script sample_db !! 1 = Some sample_script
  /\ forallb is_finished out.2 = true
  /\ exists s, api_script out.1 !! 1 = Some s
       /\ 7 + 1 <= Script_views s /\ Script_views s <= 7 + 2.
Proof.
  intros out. split; [exact sample_db_keyed|]. split; [reflexivity|].
  split; [vm_compute; reflexivity|].
  destruct (retrieve_reads_then_writes (perm := spec_permissions)
              sample_db 1 sample_script sample_db_keyed eq_refl) as (_ & _ & Hbounds).
  apply (Hbounds [(AnonymousUser, Waiting); (Authenticated sample_bob, Waiting)]
           [0; 1; 0; 1; 0; 1]%nat).
  - discriminate.
  - repeat constructor.
  - vm_compute. reflexivity.
Defined.

(** The claim C8 fails on the code: two anonymous retrievals of the sample
    script, whose counter is 7, run their statements in turn; both answer
    with the script, and the counter ends at 8, not at 7 + 2. *)
Lemma interleaved_retrievals_lose_a_view :
  let out := interleave (perm := spec_permissions) sample_db 1
               [(AnonymousUser, Waiting); (AnonymousUser, Waiting)]
               [0; 1; 0; 1; 0; 1]%nat in
  Script_views <$> api_script sample_db !! 1 = Some 7
  /\ forallb has_written out.2 = true
  /\ forallb is_finished out.2 = true
  /\ Script_views <$> api_script out.1 !! 1 = Some 8
  /\ Script_views <$> api_script out.1 !! 1 <> Some (7 + 2).
Proof.
  vm_compute. split_and!; try reflexivity. discriminate.
Qed.


(** Ada's account is destroyed: her script goes, and with it the rating Bob
    gave it. *)
Lemma delete_cascades_witness :
  keyed User_pk (auth_user sample_db)
  /\ exists db' r,
       UserViewSet_destroy (perm := spec_permissions) sample_db
         (Authenticated sample_ada) 2 = (db', Ok r)
       /\ auth_user db' !! 2 = None
       /\ api_script db' !! 1 = None
       /\ api_rating db' !! 1 = None.
Proof.
  assert (keyed User_pk (auth_user sample_db)) as Hkeyed.
  { repeat (apply map_Forall_insert_2; [reflexivity|]). apply map_Forall_empty. }
  split; [exact Hkeyed|].
  destruct (delete_cascades (perm := spec_permissions) sample_db 2)
    as ((Huser & Hscripts & _ & _ & Hratings & _) & _ & Hdestroy & _).
  destruct (UserViewSet_destroy (perm := spec_permissions) sample_db
              (Authenticated sample_ada) 2) as [db' [r|e]] eqn:Hout.
  - exists db', r. split; [reflexivity|].
    rewrite (Hdestroy _ _ _ Hkeyed Hout).
    split; [exact Huser|].
    split; [apply (Hscripts 1 sample_script); reflexivity|].
    destruct (api_rating (User_delete sample_db 2) !! 1) as [rt|] eqn:Hrt; [|reflexivity].
    exfalso. vm_compute in Hrt. discriminate Hrt.
  - exfalso. vm_compute in Hout. discriminate Hout.
Defined.

(** Ada changes her user name with a body that does not mention her groups,
    and is refused. *)
Lemma update_without_groups_denied_witness :
  let data : gmap string value := <["username" := VStr "countess"]> ∅ in
  is_staff (Authenticated sample_ada) = false
  /\ User_groups sample_ada <> []
  /\ data !! "groups" = None
  /\ UserViewSet_update (lib := sample_library) (val := sample_validators)
       (perm := spec_permissions) sample_db (Authenticated sample_ada) 2 true data
     = (sample_db, Err (PermissionDenied "You can't add or remove yourself from groups")).
Proof.
  intros data. split; [reflexivity|]. split; [discriminate|]. split; [reflexivity|].
  destruct (update_without_groups_denied (lib := sample_library)
              (val := sample_validators) (perm := spec_permissions)
              sample_db (Authenticated sample_ada) sample_ada eq_refl)
    as (_ & Hview & _); [discriminate|].
  apply (Hview 2 true data (mkUserData (Some "countess") None None));
    [reflexivity | split; reflexivity | reflexivity | reflexivity].
Defined.

(** * Further properties: what validation guarantees *)

Lemma validate_empty_values_Value partial required data v :
  validate_empty_values partial required data = Value v -> data = Some v.
Proof. destruct data as [[]|], partial, required; simpl; congruence. Qed.

Lemma run_validators_nil {A} (validators : list (A -> option string)) a check :
  run_validators validators a = [] -> check ∈ validators -> check a = None.
Proof.
  intros Hnil Hin. destruct (check a) as [msg|] eqn:Hcheck; [|done].
  now destruct (run_validators_fail validators check a msg Hin Hcheck).
Qed.

(** A field that yields a value read it off the body, and every validator
    let it through. *)
Lemma run_validation_Value {A} partial required
    (to_internal_value : value -> string + A) validators data a :
  run_validation partial required to_internal_value validators data = Value a ->
  exists v, data = Some v /\ to_internal_value v = inr a
    /\ run_validators validators a = [].
Proof.
  unfold run_validation.
  destruct (validate_empty_values partial required data) as [|v|] eqn:Hempty;
    [done| |done].
  apply validate_empty_values_Value in Hempty.
  destruct (to_internal_value v) as [msg|a'] eqn:Hv; [done|].
  destruct (run_validators validators a') eqn:Hrun; [|done].
  intros [= <-]. eauto.
Qed.

(** A required field of a full request that reports no error yields a
    value. *)
Lemma run_validation_required_no_error {A} name
    (to_internal_value : value -> string + A) validators data :
  field_errors name (run_validation false true to_internal_value validators data) = [] ->
  exists a, run_validation false true to_internal_value validators data = Value a.
Proof.
  unfold run_validation. destruct data as [v|]; [|done].
  destruct v; cbn [validate_empty_values]; try done;
    (destruct (to_internal_value _); [done|]);
    (destruct (run_validators validators _); [|done]); eauto.
Qed.

Section ValidationProperties.
Context {lib : Library} {val : Validators}.

(** A character field that may not be blank and yields a value read it off
    the body, and every validator it was given let it through. *)
Lemma CharField_run_validation_Value partial required max_length validators data a :
  CharField_run_validation partial required false max_length validators data = Value a ->
  exists v, data = Some v /\ CharField_to_internal_value v = inr a
    /\ forall check, check ∈ validators -> check a = None.
Proof.
  unfold CharField_run_validation.
  destruct (match data with
            | Some (VStr s) =>
                bool_decide (s = EmptyString) || bool_decide (str_strip s = EmptyString)
            | _ => false
            end); [done|].
  intros (v & Hdata & Hv & Hrun)%run_validation_Value.
  exists v. split; [done|]. split; [done|].
  intros check Hin. apply (run_validators_nil _ _ _ Hrun).
  apply elem_of_app. now left.
Qed.

(** A field that is not required and is absent from the body is absent from
    [validated_data]. *)
Lemma CharField_run_validation_absent partial allow_blank max_length validators :
  CharField_run_validation partial false allow_blank max_length validators None = Skip.
Proof. now destruct partial. Qed.

(** What [validated_data] of a script holds once the validation is
    through. *)
Lemma ScriptSerializer_to_internal_value_Ok db partial data vd :
  ScriptSerializer_to_internal_value db partial data = Ok vd ->
  ScriptData_author vd = None
  /\ (forall l, ScriptData_language vd = Some l -> validate_language l = None)
  /\ (forall f, ScriptData_files vd = Some f -> validate_script_files f = None)
  /\ (partial = false ->
      is_Some (ScriptData_name vd) /\ is_Some (ScriptData_language vd)
      /\ is_Some (ScriptData_files vd))
  /\ (data !! "version" = None -> ScriptData_version vd = None)
  /\ (data !! "licence" = None -> ScriptData_licence vd = None).
Proof.
  unfold ScriptSerializer_to_internal_value. intros [Herrors <-]%raise_errors_Ok.
  cbn [ScriptData_author ScriptData_language ScriptData_files ScriptData_name
       ScriptData_version ScriptData_licence].
  split_and!.
  - done.
  - intros l Hl.
    destruct (CharField_run_validation _ _ _ _ _ (data !! "language")) as [|l'|] eqn:Hf;
      try done.
    injection Hl as ->.
    apply CharField_run_validation_Value in Hf as (_ & _ & _ & Hchecks).
    apply Hchecks. now left.
  - intros f Hf.
    destruct (run_validation _ _ JSONField_to_internal_value _ _) as [|f'|] eqn:Hr;
      try done.
    injection Hf as ->.
    apply run_validation_Value in Hr as (_ & _ & _ & Hrun).
    apply (run_validators_nil _ _ _ Hrun). now left.
  - intros ->.
    apply app_eq_nil in Herrors as [Hname Herrors].
    apply app_eq_nil in Herrors as [Hlanguage Herrors].
    apply app_eq_nil in Herrors as [_ Herrors].
    apply app_eq_nil in Herrors as [_ Herrors].
    apply app_eq_nil in Herrors as [Hfiles _].
    apply CharField_required_no_error in Hname as (_ & n & _ & _ & ->).
    apply CharField_required_no_error in Hlanguage as (_ & l & _ & _ & ->).
    apply run_validation_required_no_error in Hfiles as (f & ->).
    simpl. eauto.
  - intros ->. now rewrite CharField_run_validation_absent.
  - intros ->. now rewrite CharField_run_validation_absent.
Qed.

(** What [validated_data] of a rating holds once the validation is
    through. *)
Lemma RatingSerializer_to_internal_value_Ok db partial data vd :
  RatingSerializer_to_internal_value db partial data = Ok vd ->
  RatingData_user vd = None
  /\ (forall f, RatingData_rating vd = Some f -> rating_passes f)
  /\ (forall k, RatingData_script vd = Some k -> is_Some (api_script db !! k))
  /\ (partial = false -> is_Some (RatingData_rating vd) /\ is_Some (RatingData_script vd)).
Proof.
  unfold RatingSerializer_to_internal_value. intros Hok. bind_inv Hok.
  rename a into rating, E into Hrating.
  apply raise_errors_Ok in Hok as [Herrors <-].
  cbn [RatingData_user RatingData_rating RatingData_script].
  assert (forall f, rating = Value f -> rating_passes f) as Hpass.
  { intros f ->. unfold rating_field in Hrating.
    destruct (validate_empty_values partial true (data !! "rating")); try done.
    destruct (FloatField_to_internal_value _) as [[msg|f']|]; try done.
    destruct (run_validators Rating_rating_validators f') eqn:Hrun; [|done].
    injection Hrating as ->. now apply Rating_rating_validators_pass. }
  split_and!.
  - done.
  - intros f Hf. destruct rating; try done. injection Hf as ->. now apply Hpass.
  - intros k Hk. unfold RelatedField_run_validation in Hk.
    destruct (run_validation _ _ (HyperlinkedRelatedField_to_internal_value _ _) _ _)
      as [|k'|] eqn:Hr; try done.
    injection Hk as ->.
    apply run_validation_Value in Hr as (v & _ & Hv & _).
    unfold HyperlinkedRelatedField_to_internal_value in Hv.
    destruct v; try done. case_bool_decide; [|done].
    destruct (api_script db !! pk) eqn:Hrow; [|done]. injection Hv as <-. eauto.
  - intros ->. unfold RelatedField_run_validation in Herrors |- *.
    apply app_eq_nil in Herrors as [Hr Herrors].
    apply app_eq_nil in Herrors as [_ Hs].
    apply run_validation_required_no_error in Hs as (k & ->).
    split; [|simpl; eauto].
    unfold rating_field in Hrating.
    destruct (data !! "rating") as [v|]; simpl in Hrating;
      [|injection Hrating as <-; done].
    destruct rating as [|f|]; [|simpl; eauto|done].
    exfalso. destruct v; simpl in Hrating; try done;
      repeat match type of Hrating with
      | context [match ?x with _ => _ end] => destruct x; try done
      end.
Qed.

End ValidationProperties.

(** * Further properties: the effect of a request *)

Lemma filter_all {A} (P : A -> Prop) `{forall x, Decision (P x)} (l : list A) :
  (forall x, x ∈ l -> P x) -> filter P l = l.
Proof.
  induction l as [|x l IH]; intros Hall; [done|].
  rewrite filter_cons_True by (apply Hall; left).
  f_equal. apply IH. intros y Hy. apply Hall. now right.
Qed.

Lemma filter_none {A} (P : A -> Prop) `{forall x, Decision (P x)} (l : list A) :
  (forall x, x ∈ l -> ~ P x) -> filter P l = [].
Proof.
  induction l as [|x l IH]; intros Hnone; [done|].
  rewrite filter_cons_False by (apply Hnone; left).
  apply IH. intros y Hy. apply Hnone. now right.
Qed.

(** Setting a relation to the rows it has changes nothing. *)
Lemma ManyRelatedManager_set_same l : ManyRelatedManager_set l l = l.
Proof.
  unfold ManyRelatedManager_set. transitivity (l ++ [])%list; [|apply app_nil_r].
  f_equal.
  - apply filter_all. intros x Hx. exact Hx.
  - apply filter_none. intros x Hx Hnot. cbv beta in Hnot.
    apply Hnot. apply (proj1 (elem_of_remove_dups _ _)). exact Hx.
Qed.

Section EffectProperties.
Context {lib : Library} {val : Validators} {perm : Permissions}.

Lemma UserSerializer_update_Ok db ru instance vd db' u' :
  UserSerializer_update db ru instance vd = Ok (db', u') ->
  db' = set_auth_user (insert (User_pk u') u') db
  /\ User_pk u' = User_pk instance
  /\ User_password u' = User_password instance
  /\ User_is_staff u' = User_is_staff instance
  /\ User_date_joined u' = User_date_joined instance
  /\ (is_staff ru = false -> User_groups u' = User_groups instance).
Proof.
  intros Hok.
  assert (is_staff ru = false -> User_groups instance = default [] (UserData_groups vd))
    as Hgroups.
  { intros Hstaff. rewrite UserSerializer_update_not_staff in Hok by done.
    now case_bool_decide. }
  unfold UserSerializer_update in Hok. bind_inv Hok.
  unfold ModelSerializer_update_User, User_save in Hok. injection Hok as <- <-.
  split_and!; try done. simpl. intros Hstaff. specialize (Hgroups Hstaff).
  destruct (UserData_groups vd) as [gs|]; [|done]. simpl in Hgroups. subst gs.
  apply ManyRelatedManager_set_same.
Qed.

Lemma RegisterSerializer_create_Ok db now vd db' u :
  RegisterSerializer_create db now vd = Ok (db', u) ->
  User_pk u = seq_user db
  /\ User_is_staff u = false /\ User_groups u = [] /\ User_date_joined u = now
  /\ User_password u = make_password (RegisterData_password vd)
  /\ map_Forall (fun _ u0 => User_username u0 <> User_username u) (auth_user db)
  /\ db' = mkDB (<[seq_user db := u]> (auth_user db)) (auth_group db) (api_os db)
             (api_script db) (api_rating db)
             (seq_user db + 1) (seq_script db) (seq_rating db).
Proof.
  unfold RegisterSerializer_create, UserManager_create_user.
  destruct (RegisterData_username vd) as [username|]; [|done].
  case_bool_decide; [done|]. case_bool_decide as Hunique; [|done].
  intros [= <- <-]. split_and!; done.
Qed.

(** The store a request leaves is the store it found changed by one of the
    effects. *)
Lemma dispatch_effect db now ru rq : effect db now ru (dispatch db now ru rq).1.
Proof.
  destruct rq as [pk partial data | pk | pk | data | pk partial data | pk
                 | data | pk partial data | pk | data]; cbn [dispatch].
  - (* UserUpdate *)
    unfold UserViewSet_update. rewrite respond_store.
    step_bind; [|constructor].
    destruct (get_object _ _ _ _ _) as [instance|] eqn:Hget;
      cbn [mbind result_bind]; [|constructor].
    apply get_object_Ok in Hget.
    step_bind; [|constructor].
    destruct (UserSerializer_update db ru instance a0) as [[db' u']|] eqn:Hupdate;
      [|constructor].
    apply UserSerializer_update_Ok in Hupdate as (-> & Hk & Hp & Hs & Hd & Hg).
    now apply (effect_user_saved _ _ _ pk instance).
  - (* UserDestroy *)
    unfold UserViewSet_destroy. rewrite respond_store.
    step_bind; [|constructor].
    destruct (get_object _ _ _ _ _) as [instance|] eqn:Hget;
      cbn [mbind result_bind]; [|constructor].
    apply get_object_Ok in Hget. now apply (effect_user_deleted _ _ _ pk).
  - (* ScriptRetrieve *)
    unfold ScriptViewSet_retrieve.
    destruct (ScriptViewSet_get_object db ru pk) as [instance|] eqn:Hget; [|constructor].
    apply ScriptViewSet_get_object_Ok in Hget. now apply (effect_script_viewed _ _ _ pk).
  - (* ScriptCreate *)
    unfold ScriptViewSet_create. rewrite respond_store.
    step_bind; [|constructor].
    destruct (ScriptSerializer_to_internal_value db false data) as [vd|] eqn:Hvd;
      cbn [mbind result_bind]; [|constructor].
    apply ScriptSerializer_to_internal_value_Ok in Hvd
      as (_ & Hlanguage & Hfiles & Hrequired & _).
    destruct (Hrequired eq_refl) as (_ & [l Hl] & [f Hf]).
    unfold ScriptSerializer_create, ModelSerializer_create_Script.
    cbn [ScriptData_set_author ScriptData_author ScriptData_files ScriptData_name
         ScriptData_language ScriptData_version ScriptData_description
         ScriptData_licence ScriptData_compatibility].
    destruct ru as [|u]; cbn [assign_user mbind result_bind]; [constructor|].
    rewrite Hf, Hl. cbn [mbind result_bind fst default].
    apply (effect_script_created _ _ _ u); cbn; auto.
  - (* ScriptUpdate *)
    unfold ScriptViewSet_update. rewrite respond_store.
    step_bind; [|constructor].
    destruct (get_object _ _ _ _ _) as [instance|] eqn:Hget;
      cbn [mbind result_bind]; [|constructor].
    apply get_object_Ok in Hget.
    destruct (ScriptSerializer_to_internal_value db partial data) as [vd|] eqn:Hvd;
      cbn [mbind result_bind]; [|constructor].
    apply ScriptSerializer_to_internal_value_Ok in Hvd
      as (Hauthor & Hlanguage & Hfiles & _).
    unfold ModelSerializer_update_Script. rewrite Hauthor.
    cbn [mbind result_bind Script_save fst].
    match goal with
    | |- effect _ _ _ (set_api_script (insert _ ?s') _) =>
        apply (effect_script_saved _ _ _ pk instance s'); cbn; auto
    end.
    + destruct (ScriptData_language vd); cbn; auto.
    + destruct (ScriptData_files vd); cbn; auto.
  - (* ScriptDestroy *)
    unfold ScriptViewSet_destroy. rewrite respond_store.
    step_bind; [|constructor].
    destruct (get_object _ _ _ _ _) as [instance|] eqn:Hget;
      cbn [mbind result_bind]; [|constructor].
    apply get_object_Ok in Hget. now apply (effect_script_deleted _ _ _ pk).
  - (* RatingCreate *)
    unfold RatingViewSet_create. rewrite respond_store.
    step_bind; [|constructor].
    destruct (RatingSerializer_to_internal_value db false data) as [vd|] eqn:Hvd;
      cbn [mbind result_bind]; [|constructor].
    apply RatingSerializer_to_internal_value_Ok in Hvd
      as (_ & Hrating & Hscript & Hrequired).
    destruct (Hrequired eq_refl) as ([f Hf] & [k Hk]).
    unfold RatingSerializer_create, ModelSerializer_create_Rating.
    cbn [RatingData_set_user RatingData_user RatingData_rating RatingData_script
         RatingData_comment].
    destruct ru as [|u]; cbn [assign_user mbind result_bind]; [constructor|].
    rewrite Hf, Hk. cbn [mbind result_bind fst].
    apply (effect_rating_created _ _ _ u); cbn; auto.
  - (* RatingUpdate *)
    unfold RatingViewSet_update. rewrite respond_store.
    step_bind; [|constructor].
    destruct (get_object _ _ _ _ _) as [instance|] eqn:Hget;
      cbn [mbind result_bind]; [|constructor].
    apply get_object_Ok in Hget.
    destruct (RatingSerializer_to_internal_value db partial data) as [vd|] eqn:Hvd;
      cbn [mbind result_bind]; [|constructor].
    apply RatingSerializer_to_internal_value_Ok in Hvd as (Huser & Hrating & Hscript & _).
    unfold ModelSerializer_update_Rating. rewrite Huser.
    cbn [mbind result_bind Rating_save fst].
    match goal with
    | |- effect _ _ _ (set_api_rating (insert _ ?r') _) =>
        apply (effect_rating_saved _ _ _ pk instance r'); cbn; auto
    end.
    + destruct (RatingData_rating vd); cbn; auto.
    + destruct (RatingData_script vd); cbn; auto.
  - (* RatingDestroy *)
    unfold RatingViewSet_destroy. rewrite respond_store.
    step_bind; [|constructor].
    destruct (get_object _ _ _ _ _) as [instance|] eqn:Hget;
      cbn [mbind result_bind]; [|constructor].
    apply get_object_Ok in Hget. now apply (effect_rating_deleted _ _ _ pk).
  - (* Register *)
    unfold RegisterViewSet_create. rewrite respond_store.
    step_bind; [|constructor]. step_bind; [|constructor].
    destruct (RegisterSerializer_create db now a0) as [[db' u]|] eqn:Hcreate;
      [|constructor].
    apply RegisterSerializer_create_Ok in Hcreate as (Hk & Hs & Hg & Hd & _ & Hu & ->).
    now apply effect_registered.
Qed.

End EffectProperties.

(** * Further properties: invariants of the store *)

Lemma map_Forall_subset {A} (P : Z -> A -> Prop) (m m' : gmap Z A) :
  (forall k x, m' !! k = Some x -> m !! k = Some x) ->
  map_Forall P m -> map_Forall P m'.
Proof. intros Hsub Hall k x Hk. apply Hall, Hsub, Hk. Qed.

Lemma filter_subset {A} (P : Z * A -> Prop) `{forall x, Decision (P x)}
    (m : gmap Z A) k x :
  filter P m !! k = Some x -> m !! k = Some x.
Proof. intros Hk. now apply map_lookup_filter_Some in Hk as [Hk _]. Qed.

Lemma delete_subset {A} (m : gmap Z A) d k x :
  delete d m !! k = Some x -> m !! k = Some x.
Proof. intros Hk. now apply lookup_delete_Some in Hk as [_ Hk]. Qed.

Lemma fresh_mono {A} (table : gmap Z A) seq seq' :
  seq <= seq' -> fresh table seq -> fresh table seq'.
Proof. intros Hle Hfresh k x Hk. specialize (Hfresh k x Hk). simpl in *. lia. Qed.

(** A row written back under the key of a stored row. *)
Lemma table_rewritten {A} (key : A -> Z) (table : gmap Z A) seq pk row row' :
  table !! pk = Some row -> key row' = key row ->
  keyed key table /\ fresh table seq ->
  keyed key (<[key row' := row']> table) /\ fresh (<[key row' := row']> table) seq.
Proof.
  intros Hrow Hkey [Hkeyed Hfresh]. split.
  - now apply map_Forall_insert_2.
  - apply map_Forall_insert_2; [|done].
    rewrite Hkey, (Hkeyed _ _ Hrow). apply (Hfresh _ _ Hrow).
Qed.

(** A row inserted under the next key of the sequence. *)
Lemma table_extended {A} (key : A -> Z) (table : gmap Z A) seq row :
  key row = seq ->
  keyed key table /\ fresh table seq ->
  keyed key (<[seq := row]> table) /\ fresh (<[seq := row]> table) (seq + 1).
Proof.
  intros Hkey [Hkeyed Hfresh]. split.
  - now apply map_Forall_insert_2.
  - apply map_Forall_insert_2; [lia|]. apply (fresh_mono _ seq); [lia|done].
Qed.

Lemma table_shrunk {A} (key : A -> Z) (table table' : gmap Z A) seq :
  (forall k x, table' !! k = Some x -> table !! k = Some x) ->
  keyed key table /\ fresh table seq ->
  keyed key table' /\ fresh table' seq.
Proof. intros Hsub [Hkeyed Hfresh]. split; now apply (map_Forall_subset _ table). Qed.

Lemma update_views_fresh db pk v seq :
  fresh (api_script db) seq ->
  fresh (api_script (Script_objects_filter_update_views db pk v)) seq.
Proof.
  intros Hfresh k s. unfold Script_objects_filter_update_views. simpl.
  destruct (decide (k = pk)) as [->|Hne].
  - rewrite lookup_alter_eq. destruct (api_script db !! pk) as [s0|] eqn:Hrow; [|done].
    intros _. apply (Hfresh _ _ Hrow).
  - rewrite lookup_alter_ne by done. apply Hfresh.
Qed.

Section StoreInvariants.
Context {lib : Library} {val : Validators} {perm : Permissions}.

Lemma effect_store_wf db now ru db' :
  effect db now ru db' -> store_wf db -> store_wf db'.
Proof.
  intros Heffect (Husers & Hscripts & Hratings).
  destruct Heffect; unfold store_wf; cbn [set_auth_user set_api_script set_api_rating
    auth_user api_script api_rating seq_user seq_script seq_rating User_delete
    Script_delete].
  - done.
  - split; [|done]. now apply (table_rewritten User_pk _ _ pk instance).
  - split; [|split].
    + apply (table_shrunk _ (auth_user db)); [apply delete_subset | done].
    + apply (table_shrunk _ (api_script db)); [apply filter_subset | done].
    + apply (table_shrunk _ (api_rating db)); [apply filter_subset | done].
  - split; [done|]. split; [|done]. destruct Hscripts as [Hkeyed Hfresh]. split.
    + now apply update_views_keyed.
    + apply update_views_fresh. exact Hfresh.
  - split; [done|]. split; [|done]. now apply table_extended.
  - split; [done|]. split; [|done].
    now apply (table_rewritten Script_pk _ _ pk instance).
  - split; [done|]. split.
    + apply (table_shrunk _ (api_script db)); [apply delete_subset | done].
    + apply (table_shrunk _ (api_rating db)); [apply filter_subset | done].
  - split; [done|]. split; [done|]. now apply table_extended.
  - split; [done|]. split; [done|].
    now apply (table_rewritten Rating_pk _ _ pk instance).
  - split; [done|]. split; [done|].
    apply (table_shrunk _ (api_rating db)); [apply delete_subset | done].
  - split; [|done]. now apply table_extended.
Qed.

(** X1.  Whatever requests are served one after the other, from whatever
    requesters, every table keeps each row under the primary key of the row
    and every sequence stays beyond the keys its table uses: a creation
    never lands on a stored row. *)
Theorem requests_keep_store_wf
    (db : DB) (rqs : list (Z * request_user * request))
    (Hwf : store_wf db) :
  store_wf (serve db rqs).
Proof.
  revert db Hwf. induction rqs as [|[[now ru] rq] rest IH]; intros db Hwf; [done|].
  cbn [serve]. apply IH. eapply effect_store_wf; [apply dispatch_effect | done].
Qed.

Lemma effect_validated db now ru db' :
  effect db now ru db' -> validated db -> validated db'.
Proof.
  intros Heffect [Hratings Hscripts].
  destruct Heffect as
    [ | pk instance u' Hrow _ _ _ _ _
      | pk instance Hrow
      | pk instance Hrow
      | u s _ _ _ _ _ _ Hlanguage Hfiles
      | pk instance s' Hrow _ _ _ _ _ Hlanguage Hfiles
      | pk instance Hrow
      | u r _ _ _ _ Hrating _ _
      | pk instance r' Hrow _ _ _ _ Hrating _
      | pk instance Hrow
      | u _ _ _ _ _ ];
    unfold validated; cbn [set_auth_user set_api_script set_api_rating
      auth_user api_script api_rating User_delete Script_delete].
  - done.
  - done.
  - split.
    + apply (map_Forall_subset _ (api_rating db)); [apply filter_subset | done].
    + apply (map_Forall_subset _ (api_script db)); [apply filter_subset | done].
  - split; [done|]. unfold Script_objects_filter_update_views. simpl.
    intros k s. destruct (decide (k = Script_pk instance)) as [->|Hne].
    + rewrite lookup_alter_eq.
      destruct (api_script db !! Script_pk instance) as [s0|] eqn:Hs0; [|done].
      intros [= <-]. apply (Hscripts _ _ Hs0).
    + rewrite lookup_alter_ne by done. apply Hscripts.
  - split; [done|]. now apply map_Forall_insert_2.
  - split; [done|]. apply map_Forall_insert_2; [|done].
    pose proof (Hscripts _ _ Hrow) as [Hl Hf]. simpl in Hl, Hf. split.
    + destruct Hlanguage as [-> | ?]; done.
    + destruct Hfiles as [-> | ?]; done.
  - split.
    + apply (map_Forall_subset _ (api_rating db)); [apply filter_subset | done].
    + apply (map_Forall_subset _ (api_script db)); [apply delete_subset | done].
  - split; [|done]. now apply map_Forall_insert_2.
  - split; [|done]. apply map_Forall_insert_2; [|done].
    pose proof (Hratings _ _ Hrow) as Hr. simpl in Hr.
    destruct Hrating as [-> | ?]; done.
  - split; [|done].
    apply (map_Forall_subset _ (api_rating db)); [apply delete_subset | done].
  - done.
Qed.

(** X2.  Whatever requests are served, every stored rating stays one the
    validators of [Rating.rating] let through (not below 0 and not above 5),
    and every stored script keeps a language [validate_language] accepts and
    files [validate_script_files] accepts: creation and update, full or
    partial, validate what they write, and nothing else writes these
    columns. *)
Theorem requests_keep_validated
    (db : DB) (rqs : list (Z * request_user * request))
    (Hvalid : validated db) :
  validated (serve db rqs).
Proof.
  revert db Hvalid. induction rqs as [|[[now ru] rq] rest IH]; intros db Hvalid; [done|].
  cbn [serve]. apply IH. eapply effect_validated; [apply dispatch_effect | done].
Qed.

Lemma effect_referential db now ru db' :
  effect db now ru db' -> requester_stored db ru -> referential db -> referential db'.
Proof.
  intros Heffect Hru [Hscripts Hratings].
  destruct Heffect as
    [ | pk instance u' Hrow Hk _ _ _ _
      | pk instance Hrow
      | pk instance Hrow
      | u s -> Hk Hauthor _ _ _ _ _
      | pk instance s' Hrow Hk Hauthor _ _ _ _ _
      | pk instance Hrow
      | u r -> Hk Huser Hscript _ _ _
      | pk instance r' Hrow Hk Huser _ _ _ Hscript
      | pk instance Hrow
      | u Hk _ _ _ _ ];
    unfold referential; cbn [set_auth_user set_api_script set_api_rating
      auth_user api_script api_rating User_delete Script_delete].
  - done.
  - split.
    + intros k s Hs. apply lookup_insert_is_Some'. right. apply (Hscripts _ _ Hs).
    + intros k r Hr. destruct (Hratings _ _ Hr) as [Hu Hs]. split; [|done].
      apply lookup_insert_is_Some'. now right.
  - split.
    + intros k s [Hs Hne]%map_lookup_filter_Some. simpl in Hne.
      rewrite lookup_delete_ne by done. apply (Hscripts _ _ Hs).
    + intros k r [Hr [Hne Hkept]]%map_lookup_filter_Some. simpl in Hne, Hkept.
      destruct (Hratings _ _ Hr) as [Hu [s Hs]]. split.
      * now rewrite lookup_delete_ne.
      * exists s. apply map_lookup_filter_Some. split; [done|]. simpl.
        unfold scripts_of in Hkept.
        apply map_lookup_filter_None in Hkept as [Hnone | Hother]; [congruence|].
        intros Hauthor. now apply (Hother s Hs).
  - unfold Script_objects_filter_update_views. simpl. split.
    + intros k s. destruct (decide (k = Script_pk instance)) as [->|Hne].
      * rewrite lookup_alter_eq.
        destruct (api_script db !! Script_pk instance) as [s0|] eqn:Hs0; [|done].
        intros [= <-]. apply (Hscripts _ _ Hs0).
      * rewrite lookup_alter_ne by done. apply Hscripts.
    + intros k r Hr. destruct (Hratings _ _ Hr) as [Hu Hs]. split; [done|].
      destruct (decide (Rating_script r = Script_pk instance)) as [Heq|Hne].
      * rewrite Heq, lookup_alter_eq. rewrite Heq in Hs. destruct Hs as [s0 ->]. eauto.
      * now rewrite lookup_alter_ne.
  - split.
    + apply map_Forall_insert_2; [|done]. now rewrite Hauthor.
    + intros k r Hr. destruct (Hratings _ _ Hr) as [Hu Hs]. split; [done|].
      apply lookup_insert_is_Some'. now right.
  - split.
    + apply map_Forall_insert_2; [|done]. rewrite Hauthor. apply (Hscripts _ _ Hrow).
    + intros k r Hr. destruct (Hratings _ _ Hr) as [Hu Hs]. split; [done|].
      apply lookup_insert_is_Some'. now right.
  - split.
    + apply (map_Forall_subset _ (api_script db)); [apply delete_subset | done].
    + intros k r [Hr Hne]%map_lookup_filter_Some. simpl in Hne.
      destruct (Hratings _ _ Hr) as [Hu Hs]. split; [done|].
      now rewrite lookup_delete_ne.
  - split; [done|]. apply map_Forall_insert_2; [|done]. split; [|done].
    now rewrite Huser.
  - split; [done|]. apply map_Forall_insert_2; [|done].
    destruct (Hratings _ _ Hrow) as [Hu Hs]. split.
    + now rewrite Huser.
    + destruct Hscript as [-> | ?]; done.
  - split; [done|].
    apply (map_Forall_subset _ (api_rating db)); [apply delete_subset | done].
  - split.
    + intros k s Hs. apply lookup_insert_is_Some'. right. apply (Hscripts _ _ Hs).
    + intros k r Hr. destruct (Hratings _ _ Hr) as [Hu Hs]. split; [|done].
      apply lookup_insert_is_Some'. now right.
Qed.

(** X3.  A request made by a requester whose account is stored leaves every
    foreign key pointing at a stored row: the author of every script and the
    user of every rating are in the table of users, and the script of every
    rating is in the table of scripts.  The cascades of a deletion take the
    rows that would dangle, and what a creation or an update writes points
    at rows that exist. *)
Theorem request_keeps_references
    (db : DB) (now : Z) (ru : request_user) (rq : request)
    (Hru : requester_stored db ru)
    (Href : referential db) :
  referential (dispatch db now ru rq).1.
Proof. eapply effect_referential; [apply dispatch_effect | done | done]. Qed.

End StoreInvariants.

(** * Further properties: what no request changes *)

Section Privileges.
Context {lib : Library} {val : Validators} {perm : Permissions}.

(** One request on the table of users: an account of the new table is an
    account of the old one with the staff flag and the password it had, and
    with the groups it had when the requester is not staff; or it is new,
    under a key the sequence had not handed out, not staff and in no
    group. *)
Lemma effect_users db now ru db' :
  effect db now ru db' -> store_wf db ->
  seq_user db <= seq_user db'
  /\ forall k u', auth_user db' !! k = Some u' ->
       (exists u, auth_user db !! k = Some u
          /\ User_is_staff u' = User_is_staff u
          /\ User_password u' = User_password u
          /\ (is_staff ru = false -> User_groups u' = User_groups u))
       \/ (auth_user db !! k = None /\ seq_user db <= k
           /\ User_is_staff u' = false /\ User_groups u' = []).
Proof.
  intros Heffect ([Hkeyed Hfresh] & _ & _).
  assert (forall k u', auth_user db !! k = Some u' ->
    (exists u, auth_user db !! k = Some u
       /\ User_is_staff u' = User_is_staff u
       /\ User_password u' = User_password u
       /\ (is_staff ru = false -> User_groups u' = User_groups u))
    \/ (auth_user db !! k = None /\ seq_user db <= k
        /\ User_is_staff u' = false /\ User_groups u' = [])) as Hsame
    by (intros k u' Hk; left; eauto).
  destruct Heffect as
    [ | pk instance u' Hrow Hk Hpassword Hstaff _ Hgroups
      | pk instance Hrow | | | | | | | | u Hk Hstaff Hgroups _ _ ];
    cbn [set_auth_user set_api_script set_api_rating auth_user seq_user
         User_delete Script_delete Script_objects_filter_update_views];
    try (split; [lia | exact Hsame]).
  - split; [lia|]. intros k x. rewrite Hk, (Hkeyed _ _ Hrow).
    destruct (decide (k = pk)) as [->|Hne].
    + rewrite lookup_insert_eq. intros [= <-]. left. exists instance. auto.
    + rewrite lookup_insert_ne by done. apply Hsame.
  - split; [lia|]. intros k x Hx%delete_subset. now apply Hsame.
  - split; [lia|]. intros k x. destruct (decide (k = seq_user db)) as [->|Hne].
    + rewrite lookup_insert_eq. intros [= <-]. right.
      split_and!; [|lia|done|done].
      destruct (auth_user db !! seq_user db) as [u0|] eqn:Hu0; [|done].
      specialize (Hfresh _ _ Hu0). simpl in Hfresh. lia.
    + rewrite lookup_insert_ne by done. apply Hsame.
Qed.

(** A key of the table of users that the sequence has passed and that holds
    no account stays empty. *)
Lemma serve_users_absent db rqs k :
  store_wf db -> k < seq_user db -> auth_user db !! k = None ->
  auth_user (serve db rqs) !! k = None.
Proof.
  revert db. induction rqs as [|[[now ru] rq] rest IH]; intros db Hwf Hlt Hnone; [done|].
  cbn [serve].
  pose proof (dispatch_effect db now ru rq) as Heffect.
  destruct (effect_users _ _ _ _ Heffect Hwf) as [Hseq Hrows].
  apply IH; [eapply effect_store_wf; eauto | lia |].
  destruct (auth_user (dispatch db now ru rq).1 !! k) as [u'|] eqn:Hk; [|done].
  destruct (Hrows _ _ Hk) as [(u & Hu & _) | (_ & Hge & _)]; [congruence | lia].
Qed.

(** What a sequence of requests leaves of the accounts. *)
Lemma serve_users db rqs k u' :
  store_wf db ->
  auth_user (serve db rqs) !! k = Some u' ->
  (exists u, auth_user db !! k = Some u
     /\ User_is_staff u' = User_is_staff u
     /\ User_password u' = User_password u
     /\ (Forall (fun rq => is_staff rq.1.2 = false) rqs ->
         User_groups u' = User_groups u))
  \/ (auth_user db !! k = None /\ User_is_staff u' = false
      /\ (Forall (fun rq => is_staff rq.1.2 = false) rqs -> User_groups u' = [])).
Proof.
  revert db. induction rqs as [|[[now ru] rq] rest IH]; intros db Hwf Hk.
  - left. exists u'. auto.
  - cbn [serve] in Hk.
    pose proof (dispatch_effect db now ru rq) as Heffect.
    pose proof (effect_store_wf _ _ _ _ Heffect Hwf) as Hwf'.
    destruct (effect_users _ _ _ _ Heffect Hwf) as [Hseq Hrows].
    destruct (IH _ Hwf' Hk) as [(u1 & Hu1 & Hs1 & Hp1 & Hg1) | (Hnone & Hs1 & Hg1)].
    + destruct (Hrows _ _ Hu1) as [(u & Hu & Hs & Hp & Hg) | (Hnone & _ & Hs & Hg)].
      * left. exists u. split_and!; [done | congruence | congruence |].
        intros Hall. apply Forall_cons in Hall as [Hru Hrest]. simpl in Hru.
        rewrite (Hg1 Hrest). now apply Hg.
      * right. split_and!; [done | congruence |].
        intros Hall. apply Forall_cons in Hall as [_ Hrest].
        rewrite (Hg1 Hrest). exact Hg.
    + destruct (auth_user db !! k) as [u|] eqn:Hu.
      * exfalso. destruct Hwf as ([_ Hfresh] & _).
        pose proof (Hfresh _ _ Hu) as Hlt. simpl in Hlt.
        rewrite (serve_users_absent _ rest k Hwf') in Hk; [done | lia | done].
      * right. split_and!; [done | done |].
        intros Hall. apply Forall_cons in Hall as [_ Hrest]. auto.
Qed.

(** X4.  Through whatever requests, from whatever requesters, an account
    that is still stored keeps the staff flag and the password column it
    had, and an account that appears is not staff: no view writes
    [is_staff] or [password] of an existing account, and registration
    creates ordinary accounts whatever its body holds. *)
Theorem requests_grant_no_staff
    (db : DB) (rqs : list (Z * request_user * request))
    (Hwf : store_wf db) :
  forall k u', auth_user (serve db rqs) !! k = Some u' ->
    match auth_user db !! k with
    | Some u =>
        User_is_staff u' = User_is_staff u /\ User_password u' = User_password u
    | None => User_is_staff u' = false
    end.
Proof.
  intros k u' Hk.
  destruct (serve_users db rqs k u' Hwf Hk) as [(u & -> & Hs & Hp & _) | (-> & Hs & _)];
    auto.
Qed.

(** X5.  An update or a partial update of a user made by a requester who
    is not staff never changes the groups of an account, of the user updated
    or of another, whether it is answered or refused and whatever the
    permission classes allow: [UserSerializer.update] lets such a requester
    through only with the current list of groups, and setting a relation to
    the list it has changes nothing.  This is the route
    [UserViewSet.update]; the creation [UserViewSet] inherits and the view
    set of the groups are other routes to the memberships and are not
    covered. *)
Theorem members_cannot_change_groups
    (db : DB) (ru : request_user) (pk : Z) (partial : bool)
    (data : gmap string value)
    (Hkeyed : keyed User_pk (auth_user db))
    (Hmember : is_staff ru = false) :
  forall k,
    User_groups <$> auth_user (UserViewSet_update db ru pk partial data).1 !! k
    = User_groups <$> auth_user db !! k.
Proof.
  intros k. unfold UserViewSet_update. rewrite respond_store.
  step_bind; [|done].
  destruct (get_object _ _ _ _ _) as [instance|] eqn:Hget;
    cbn [mbind result_bind]; [|done].
  apply get_object_Ok in Hget.
  step_bind; [|done].
  destruct (UserSerializer_update db ru instance a0) as [[db' u']|] eqn:Hupdate; [|done].
  apply UserSerializer_update_Ok in Hupdate as (-> & Hk & _ & _ & _ & Hgroups).
  cbn [set_auth_user auth_user]. rewrite Hk, (Hkeyed _ _ Hget).
  destruct (decide (k = pk)) as [->|Hne].
  - rewrite lookup_insert_eq, Hget. cbn. f_equal. now apply Hgroups.
  - now rewrite lookup_insert_ne.
Qed.

End Privileges.

Section Ownership.
Context {lib : Library} {val : Validators} {perm : Permissions}.

Lemma store_wf_scripts db : store_wf db -> scripts_wf db.
Proof. now intros (_ & Hscripts & _). Qed.

(** One request on the table of scripts: a script of the new table is a
    script of the old one with the author and the creation time it had, or
    it is new, under a key the sequence had not handed out. *)
Lemma effect_scripts db now ru db' :
  effect db now ru db' -> store_wf db ->
  forall k s', api_script db' !! k = Some s' ->
    (exists s, api_script db !! k = Some s
       /\ Script_author s' = Script_author s
       /\ Script_created s' = Script_created s)
    \/ api_script db !! k = None.
Proof.
  intros Heffect (_ & [Hkeyed Hfresh] & _).
  assert (forall k s', api_script db !! k = Some s' ->
    (exists s, api_script db !! k = Some s
       /\ Script_author s' = Script_author s
       /\ Script_created s' = Script_created s)
    \/ api_script db !! k = None) as Hsame
    by (intros k s' Hk; left; eauto).
  destruct Heffect as
    [ | | pk instance Hrow
      | pk instance Hrow
      | u s _ Hk _ _ _ _ _ _
      | pk instance s' Hrow Hk Hauthor _ Hcreated _ _ _
      | pk instance Hrow | | | | ];
    cbn [set_auth_user set_api_script set_api_rating api_script
         User_delete Script_delete];
    try exact Hsame.
  - intros k x Hx%filter_subset. now apply Hsame.
  - unfold Script_objects_filter_update_views. simpl. intros k x.
    destruct (decide (k = Script_pk instance)) as [->|Hne].
    + rewrite lookup_alter_eq.
      destruct (api_script db !! Script_pk instance) as [s0|] eqn:Hs0; [|done].
      intros [= <-]. left. exists s0. auto.
    + rewrite lookup_alter_ne by done. apply Hsame.
  - intros k x. destruct (decide (k = seq_script db)) as [->|Hne].
    + rewrite lookup_insert_eq. intros _. right.
      destruct (api_script db !! seq_script db) as [s0|] eqn:Hs0; [|done].
      specialize (Hfresh _ _ Hs0). simpl in Hfresh. lia.
    + rewrite lookup_insert_ne by done. apply Hsame.
  - intros k x. rewrite Hk, (Hkeyed _ _ Hrow).
    destruct (decide (k = pk)) as [->|Hne].
    + rewrite lookup_insert_eq. intros [= <-]. left. exists instance. auto.
    + rewrite lookup_insert_ne by done. apply Hsame.
  - intros k x Hx%delete_subset. now apply Hsame.
Qed.

(** X6.  Through whatever requests, a script that is still stored has the
    author and the creation time it was stored with: [author] and [created]
    are read-only in [ScriptSerializer], so no update writes them, and no
    creation reuses a key. *)
Theorem scripts_keep_author
    (db : DB) (rqs : list (Z * request_user * request)) (k : Z) (s s' : Script)
    (Hwf : store_wf db)
    (Hbefore : api_script db !! k = Some s)
    (Hafter : api_script (serve db rqs) !! k = Some s') :
  Script_author s' = Script_author s /\ Script_created s' = Script_created s.
Proof.
  revert db s Hwf Hbefore Hafter.
  induction rqs as [|[[now ru] rq] rest IH]; intros db s Hwf Hbefore Hafter.
  - cbn [serve] in Hafter. assert (s' = s) as -> by congruence. done.
  - cbn [serve] in Hafter.
    pose proof (dispatch_effect db now ru rq) as Heffect.
    pose proof (effect_store_wf _ _ _ _ Heffect Hwf) as Hwf'.
    destruct (api_script (dispatch db now ru rq).1 !! k) as [s1|] eqn:Hs1.
    + destruct (effect_scripts _ _ _ _ Heffect Hwf _ _ Hs1)
        as [(s0 & Hs0 & Hauthor & Hcreated) | Hnone]; [|congruence].
      assert (s0 = s) as -> by congruence.
      destruct (IH _ _ Hwf' Hs1 Hafter) as [Ha Hc]. split; congruence.
    + exfalso.
      destruct (dispatch_scripts db now ru rq (store_wf_scripts _ Hwf)) as [_ [Hseq _]].
      destruct Hwf as (_ & [_ Hfresh] & _).
      pose proof (Hfresh _ _ Hbefore) as Hlt. simpl in Hlt.
      rewrite (serve_absent _ rest k (store_wf_scripts _ Hwf')) in Hafter;
        [done | lia | done].
Qed.

End Ownership.

(** * Further properties: the handlers one by one *)

Section HandlerProperties.
Context {lib : Library} {val : Validators} {perm : Permissions}.

Lemma respond_failed {A} db (r : result (DB * A)) render e :
  (forall db' a, is_ok (render db' a) = true) ->
  (respond db r render).2 = Err e -> (respond db r render).1 = db.
Proof.
  intros Htotal. destruct r as [[db' a]|e']; simpl; [|done].
  specialize (Htotal db' a). now destruct (render db' a).
Qed.

Lemma UserSerializer_to_representation_is_ok db ru instance :
  is_ok (UserSerializer_to_representation db ru instance) = true.
Proof.
  unfold UserSerializer_to_representation.
  now destruct (User_eq instance ru || is_staff ru).
Qed.

(** X7.  A request that is answered with an error leaves the store as it
    found it: the permission checks, the lookup and the validation all come
    before the first write, and what follows the write cannot fail.  The
    retrieve of a script writes before its second lookup; for a requester
    the permission classes let read any script, an error there means the
    script was not found, and the store is as it was too. *)
Theorem failed_request_writes_nothing
    (db : DB) (now : Z) (ru : request_user) (rq : request) (e : error)
    (Hfailed : (dispatch db now ru rq).2 = Err e) :
  match rq with
  | ScriptRetrieve _ => Script_readable ru -> (dispatch db now ru rq).1 = db
  | _ => (dispatch db now ru rq).1 = db
  end.
Proof.
  destruct rq as [pk partial data | pk | pk | data | pk partial data | pk
                 | data | pk partial data | pk | data]; cbn [dispatch] in *;
    try (eapply respond_failed; [|exact Hfailed]; intros; reflexivity).
  - eapply respond_failed; [|exact Hfailed].
    intros. apply UserSerializer_to_representation_is_ok.
  - intros Hread. unfold ScriptViewSet_retrieve in *.
    destruct (ScriptViewSet_get_object db ru pk) as [instance|e'] eqn:Hget; [|done].
    exfalso. pose proof (ScriptViewSet_get_object_Ok _ _ _ _ Hget) as Hrow.
    cbn [snd] in Hfailed.
    assert (exists s', api_script
              (Script_objects_filter_update_views db (Script_pk instance)
                 (Script_views instance + 1)) !! pk = Some s') as [s' Hs'].
    { unfold Script_objects_filter_update_views. simpl.
      destruct (decide (pk = Script_pk instance)) as [Heq|Hne].
      - rewrite <- Heq, lookup_alter_eq, Hrow. simpl. eauto.
      - rewrite lookup_alter_ne by done. eauto. }
    now rewrite (RetrieveModelMixin_retrieve_Script_readable _ _ _ _ Hread Hs')
      in Hfailed.
Qed.

(** X8.  A request without an authenticated user cannot create, change or
    delete a script or a rating: [IsAuthenticatedOrReadOnly] comes first in
    the permission classes of both view sets, so the answer is
    [NotAuthenticated] and the store is untouched, whatever the second
    permission class would say. *)
Theorem anonymous_cannot_write
    (db : DB) (now : Z) (rq : request) :
  match rq with
  | ScriptCreate _ | ScriptUpdate _ _ _ | ScriptDestroy _
  | RatingCreate _ | RatingUpdate _ _ _ | RatingDestroy _ =>
      dispatch db now AnonymousUser rq = (db, Err NotAuthenticated)
  | _ => True
  end.
Proof.
  destruct rq as [pk partial data | pk | pk | data | pk partial data | pk
                 | data | pk partial data | pk | data]; try exact I;
    cbn [dispatch].
  - reflexivity.
  - unfold ScriptViewSet_update. now destruct partial.
  - reflexivity.
  - reflexivity.
  - unfold RatingViewSet_update. now destruct partial.
  - reflexivity.
Qed.

(** X9.  A registration body that lacks [username], [password] or [email]
    is refused with the validation error "This field is required." on that
    field, and no account is created.  For [email] this is the effect of
    the patch [blank = False] at the top of [models.py]. *)
Theorem register_requires_fields
    (db : DB) (now : Z) (ru : request_user) (data : gmap string value)
    (field : string)
    (Hfield : field ∈ ["username"; "password"; "email"])
    (Habsent : data !! field = None) :
  exists errors,
    RegisterViewSet_create db now ru data = (db, Err (ValidationError errors))
    /\ (field, ["This field is required."]) ∈ errors.
Proof.
  unfold RegisterViewSet_create. cbn [check_permissions AllowAny has_permission].
  cbn [mbind result_bind]. unfold RegisterSerializer_to_internal_value.
  assert ((field, ["This field is required."]) ∈
    (field_errors "username" (username_field db None false data)
     ++ field_errors "password"
          (CharField_run_validation false true false (Some 128%nat) []
             (data !! "password"))
     ++ field_errors "email" (email_field db None false data))%list) as Hin.
  { apply elem_of_cons in Hfield as [-> | Hfield];
      [|apply elem_of_cons in Hfield as [-> | Hfield];
        [|apply list_elem_of_singleton in Hfield as ->]].
    - apply elem_of_app. left. unfold username_field. rewrite Habsent. now left.
    - apply elem_of_app. right. apply elem_of_app. left. rewrite Habsent. now left.
    - apply elem_of_app. right. apply elem_of_app. right.
      unfold email_field. rewrite Habsent. now left. }
  match goal with
  | |- context [raise_errors ?es ?a] =>
      destruct es as [|err rest] eqn:Hes; [by apply elem_of_nil in Hin|]
  end.
  cbn [raise_errors mbind result_bind respond]. eauto.
Qed.

(** A row that nothing points at has an empty reverse relation. *)
Lemma related_pks_none {A} (fk : A -> Z) (table : gmap Z A) pk :
  (forall k row, table !! k = Some row -> fk row <> pk) ->
  related_pks fk table pk = [].
Proof.
  intros Hnone. unfold related_pks.
  assert (filter (fun kr : Z * A => fk kr.2 = pk) table = ∅) as ->.
  { apply map_eq. intros k. rewrite lookup_empty.
    apply map_lookup_filter_None. right. intros row Hrow. simpl. eauto. }
  now rewrite map_to_list_empty.
Qed.

(** X10.  A script that is created starts with the defaults of the model
    and the fields the server assigns, whatever the body holds under the
    read-only keys: [views] is 0, [created] and [modified] are the time of
    the request, [version] is "1.0" and [licence] is "MIT" when the body
    has no such key.  In a well-formed store whose foreign keys point at
    stored rows the new script shows no ratings. *)
Theorem created_script_starts_fresh
    (db : DB) (now : Z) (ru : request_user) (data : gmap string value)
    (db' : DB) (rep : representation)
    (Hcreated : ScriptViewSet_create db now ru data = (db', Ok rep)) :
  exists s,
    api_script db' !! seq_script db = Some s
    /\ Script_views s = 0
    /\ Script_created s = now /\ Script_modified s = now
    /\ (data !! "version" = None -> Script_version s = "1.0")
    /\ (data !! "licence" = None -> Script_licence s = "MIT")
    /\ getitem rep "views" = Some (VInt 0)
    /\ getitem rep "url" = Some (VUrl "script-detail" (seq_script db))
    /\ (store_wf db -> referential db -> getitem rep "ratings" = Some (VList [])).
Proof.
  unfold ScriptViewSet_create in Hcreated.
  apply respond_Ok in Hcreated as (s & Hc & [= <-]). bind_inv Hc.
  rename a0 into vd, E0 into Hvd.
  apply ScriptSerializer_to_internal_value_Ok in Hvd as (_ & _ & _ & _ & Hversion & Hlicence).
  unfold ScriptSerializer_create, ModelSerializer_create_Script in Hc.
  cbn [ScriptData_set_author ScriptData_author ScriptData_files ScriptData_name
       ScriptData_language ScriptData_version ScriptData_description
       ScriptData_licence ScriptData_compatibility] in Hc.
  bind_inv Hc. injection Hc as <- <-.
  eexists. split; [apply lookup_insert_eq|]. cbn.
  split_and!; try reflexivity.
  - intros Hnone. now rewrite (Hversion Hnone).
  - intros Hnone. now rewrite (Hlicence Hnone).
  - intros (_ & [_ Hfresh] & _) [_ Hratings].
    rewrite related_pks_none; [done|].
    intros k r Hr Heq. destruct (Hratings _ _ Hr) as [_ [s Hs]].
    rewrite Heq in Hs. specialize (Hfresh _ _ Hs). simpl in Hfresh. lia.
Qed.

(** X11.  An update of a script that is answered, full or partial, writes
    the row of the script only: [modified] becomes the time of the request,
    and [author], [views] and [created] keep their values whatever the body
    holds under these keys; the response shows the row as stored.  The
    other scripts, the other tables and the sequences are as before. *)
Theorem script_update_keeps_read_only
    (db : DB) (now : Z) (ru : request_user) (pk : Z) (partial : bool)
    (data : gmap string value) (db' : DB) (rep : representation)
    (Hkeyed : keyed Script_pk (api_script db))
    (Hupdated : ScriptViewSet_update db now ru pk partial data = (db', Ok rep)) :
  exists s s',
    api_script db !! pk = Some s
    /\ db' = set_api_script (<[pk := s']>) db
    /\ Script_modified s' = now
    /\ Script_author s' = Script_author s
    /\ Script_views s' = Script_views s
    /\ Script_created s' = Script_created s
    /\ Script_pk s' = pk
    /\ getitem rep "views" = Some (VInt (Script_views s))
    /\ getitem rep "author" = Some (VUrl "user-detail" (Script_author s))
    /\ getitem rep "modified" = Some (VDateTime now).
Proof.
  unfold ScriptViewSet_update in Hupdated.
  apply respond_Ok in Hupdated as (s' & Hu & [= <-]). bind_inv Hu.
  rename a0 into instance, E0 into Hget, a1 into vd, E1 into Hvd.
  apply get_object_Ok in Hget.
  apply ScriptSerializer_to_internal_value_Ok in Hvd as (Hauthor & _).
  unfold ModelSerializer_update_Script in Hu. rewrite Hauthor in Hu.
  cbn [mbind result_bind Script_save] in Hu. injection Hu as <- <-.
  pose proof (Hkeyed _ _ Hget) as Hpk. simpl in Hpk.
  eexists instance, _. cbn. rewrite Hpk.
  split_and!; reflexivity || done.
Qed.

(** X12.  The registration view set never shows, changes or deletes an
    account: its queryset is [User.objects.none()], so the list is empty and
    retrieve, update, partial update and destroy answer 404 for every key
    and every body, with the store untouched.  The update the view set
    inherits, which would write the password as it comes, is never
    reached. *)
Theorem register_view_set_is_create_only
    (db : DB) (ru : request_user) (pk : Z) (partial : bool)
    (data : gmap string value) :
  RegisterViewSet_list db ru = (db, Ok [])
  /\ RegisterViewSet_retrieve db ru pk = (db, Err Http404)
  /\ RegisterViewSet_update db ru pk partial data = (db, Err Http404)
  /\ RegisterViewSet_destroy db ru pk = (db, Err Http404).
Proof.
  unfold RegisterViewSet_list, RegisterViewSet_retrieve, RegisterViewSet_update,
    RegisterViewSet_destroy, RegisterViewSet_queryset, get_object, get_object_or_404.
  rewrite map_to_list_empty, lookup_empty.
  split_and!; reflexivity.
Qed.

End HandlerProperties.

(** * Further properties: the querysets *)

(** The rows of [order_by_desc] are the rows of the table, each as often as
    it is stored, with no row before a row of a greater key. *)
Lemma order_by_desc_spec {A} (key : A -> Z) (table : gmap Z A) :
  StronglySorted (fun a b => key b <= key a) (order_by_desc key table)
  /\ (forall row, row ∈ order_by_desc key table <-> exists k, table !! k = Some row)
  /\ length (order_by_desc key table) = size table.
Proof.
  unfold order_by_desc.
  assert (Transitive (fun a b : A => key b <= key a)) as Htrans
    by (intros x y z Hxy Hyz; lia).
  assert (Total (fun a b : A => key b <= key a)) as Htotal
    by (intros x y; lia).
  split_and!.
  - apply (StronglySorted_merge_sort _).
  - intros row. rewrite merge_sort_Permutation, list_elem_of_fmap. split.
    + intros ([k x] & -> & Hin). exists k. now apply elem_of_map_to_list.
    + intros [k Hk]. exists (k, row). split; [done|]. now apply elem_of_map_to_list.
  - rewrite merge_sort_Permutation, length_fmap. apply length_map_to_list.
Qed.

(** X13.  The querysets of the user, script and rating view sets hold
    exactly the rows of their tables, newest first: no script comes before a
    script created later, no rating before a rating created later, and no
    user before a user who joined later. *)
Theorem querysets_newest_first (db : DB) :
  (StronglySorted (fun a b => Script_created b <= Script_created a)
     (ScriptViewSet_queryset db)
   /\ (forall s, s ∈ ScriptViewSet_queryset db <-> exists k, api_script db !! k = Some s)
   /\ length (ScriptViewSet_queryset db) = size (api_script db))
  /\ (StronglySorted (fun a b => Rating_created b <= Rating_created a)
        (RatingViewSet_queryset db)
      /\ (forall r, r ∈ RatingViewSet_queryset db <-> exists k, api_rating db !! k = Some r)
      /\ length (RatingViewSet_queryset db) = size (api_rating db))
  /\ (StronglySorted (fun a b => User_date_joined b <= User_date_joined a)
        (UserViewSet_queryset db)
      /\ (forall u, u ∈ UserViewSet_queryset db <-> exists k, auth_user db !! k = Some u)
      /\ length (UserViewSet_queryset db) = size (auth_user db)).
Proof.
  split; [|split].
  - apply (order_by_desc_spec Script_created).
  - apply (order_by_desc_spec Rating_created).
  - apply (order_by_desc_spec User_date_joined).
Qed.

Section MoreHandlerProperties.
Context {lib : Library} {val : Validators} {perm : Permissions}.

(** X14.  An update of a rating that is answered, full or partial, writes
    the row of the rating only: [modified] becomes the time of the request,
    [user] and [created] keep their values whatever the body holds under
    these keys, the rating written is one the validators let through or the
    one stored, and the script it points at is stored or the one it
    pointed at. *)
Theorem rating_update_keeps_user
    (db : DB) (now : Z) (ru : request_user) (pk : Z) (partial : bool)
    (data : gmap string value) (db' : DB) (rep : representation)
    (Hkeyed : keyed Rating_pk (api_rating db))
    (Hupdated : RatingViewSet_update db now ru pk partial data = (db', Ok rep)) :
  exists r r',
    api_rating db !! pk = Some r
    /\ db' = set_api_rating (<[pk := r']>) db
    /\ Rating_modified r' = now
    /\ Rating_user r' = Rating_user r
    /\ Rating_created r' = Rating_created r
    /\ (Rating_rating r' = Rating_rating r \/ rating_passes (Rating_rating r'))
    /\ (Rating_script r' = Rating_script r \/ is_Some (api_script db !! Rating_script r'))
    /\ getitem rep "user" = Some (VUrl "user-detail" (Rating_user r)).
Proof.
  unfold RatingViewSet_update in Hupdated.
  apply respond_Ok in Hupdated as (r' & Hu & [= <-]). bind_inv Hu.
  rename a0 into instance, E0 into Hget, a1 into vd, E1 into Hvd.
  apply get_object_Ok in Hget.
  apply RatingSerializer_to_internal_value_Ok in Hvd as (Huser & Hrating & Hscript & _).
  unfold ModelSerializer_update_Rating in Hu. rewrite Huser in Hu.
  cbn [mbind result_bind Rating_save] in Hu. injection Hu as <- <-.
  pose proof (Hkeyed _ _ Hget) as Hpk. simpl in Hpk.
  eexists instance, _. cbn. rewrite Hpk.
  split_and!; try reflexivity; try done.
  - destruct (RatingData_rating vd); cbn; auto.
  - destruct (RatingData_script vd); cbn; auto.
Qed.

(** X15.  A script cannot be created without [name], [language] and
    [files], nor a rating without [rating] and [script]: a body that lacks
    one of them leaves the store untouched, and once the permission classes
    let the request through it is refused with the validation error "This
    field is required." on that field.  The one exception is a rating body
    without [script] whose [rating] is an integer beyond the doubles: there
    the [OverflowError] of the conversion comes first. *)
Theorem create_requires_fields
    (db : DB) (now : Z) (ru : request_user) (data : gmap string value)
    (field : string)
    (Habsent : data !! field = None) :
  (field ∈ ["name"; "language"; "files"] ->
     exists e, ScriptViewSet_create db now ru data = (db, Err e)
       /\ (check_permissions ScriptViewSet_permission_classes POST ru = Ok tt ->
           exists errors, e = ValidationError errors
             /\ (field, ["This field is required."]) ∈ errors))
  /\ (field = "rating" ->
        exists e, RatingViewSet_create db now ru data = (db, Err e)
          /\ (check_permissions RatingViewSet_permission_classes POST ru = Ok tt ->
              exists errors, e = ValidationError errors
                /\ (field, ["This field is required."]) ∈ errors))
  /\ (field = "script" ->
        exists e, RatingViewSet_create db now ru data = (db, Err e)
          /\ (check_permissions RatingViewSet_permission_classes POST ru = Ok tt ->
              e = OverflowError
              \/ exists errors, e = ValidationError errors
                   /\ (field, ["This field is required."]) ∈ errors)).
Proof.
  split; [|split].
  - intros Hfield.
    assert (exists errors,
      ScriptSerializer_to_internal_value db false data = Err (ValidationError errors)
      /\ (field, ["This field is required."]) ∈ errors) as (errors & Hser & Hin).
    { unfold ScriptSerializer_to_internal_value.
      match goal with
      | |- context [raise_errors ?es ?a] =>
          assert ((field, ["This field is required."]) ∈ es) as Hin;
          [|destruct es as [|err rest] eqn:Hes; [by apply elem_of_nil in Hin|];
            cbn [raise_errors]; eauto]
      end.
      apply elem_of_cons in Hfield as [-> | Hfield];
        [|apply elem_of_cons in Hfield as [-> | Hfield];
          [|apply list_elem_of_singleton in Hfield as ->]];
        rewrite Habsent.
      - apply elem_of_app. left. now left.
      - apply elem_of_app. right. apply elem_of_app. left. now left.
      - do 4 (apply elem_of_app; right). apply elem_of_app. left. now left. }
    unfold ScriptViewSet_create.
    destruct (check_permissions ScriptViewSet_permission_classes POST ru) as [[]|e];
      cbn [mbind result_bind].
    + rewrite Hser. cbn [mbind result_bind respond]. eauto.
    + cbn [respond]. eexists. split; [reflexivity|]. done.
  - intros ->.
    assert (exists errors,
      RatingSerializer_to_internal_value db false data = Err (ValidationError errors)
      /\ ("rating", ["This field is required."]) ∈ errors) as (errors & Hser & Hin).
    { unfold RatingSerializer_to_internal_value, rating_field. rewrite Habsent.
      cbn. eexists. split; [reflexivity|]. now left. }
    unfold RatingViewSet_create.
    destruct (check_permissions RatingViewSet_permission_classes POST ru) as [[]|e];
      cbn [mbind result_bind].
    + rewrite Hser. cbn [mbind result_bind respond]. eauto.
    + cbn [respond]. eexists. split; [reflexivity|]. done.
  - intros ->.
    assert (RatingSerializer_to_internal_value db false data = Err OverflowError
      \/ exists errors,
           RatingSerializer_to_internal_value db false data = Err (ValidationError errors)
           /\ ("script", ["This field is required."]) ∈ errors) as Hser.
    { unfold RatingSerializer_to_internal_value.
      destruct (rating_field false data) as [rating|e] eqn:Hrating.
      - right. cbn [mbind result_bind]. rewrite Habsent.
        match goal with
        | |- context [raise_errors ?es ?a] =>
            assert (("script", ["This field is required."]) ∈ es) as Hin;
            [|destruct es as [|err rest] eqn:Hes; [by apply elem_of_nil in Hin|];
              cbn [raise_errors]; eauto]
        end.
        apply elem_of_app. right. apply elem_of_app. right. now left.
      - left. cbn [mbind result_bind]. f_equal.
        unfold rating_field in Hrating.
        destruct (validate_empty_values false true (data !! "rating")); try done.
        destruct (FloatField_to_internal_value _) as [[msg|f]|]; try done;
          [|congruence].
        destruct (run_validators Rating_rating_validators f); done. }
    unfold RatingViewSet_create.
    destruct (check_permissions RatingViewSet_permission_classes POST ru) as [[]|e];
      cbn [mbind result_bind].
    + destruct Hser as [-> | (errors & -> & Hin)]; cbn [mbind result_bind respond];
        eexists; (split; [reflexivity|]); eauto.
    + cbn [respond]. eexists. split; [reflexivity|]. done.
Qed.

End MoreHandlerProperties.

(** * The further properties at work on the sample store *)

Lemma sample_db_store_wf : store_wf sample_db.
Proof.
  unfold store_wf, keyed, fresh.
  split_and!; repeat (apply map_Forall_insert_2; [reflexivity|]);
    apply map_Forall_empty.
Defined.

Lemma sample_db_referential : referential sample_db.
Proof.
  unfold referential.
  split; repeat (apply map_Forall_insert_2; [|apply map_Forall_empty]).
  - exists sample_ada. reflexivity.
  - split; [exists sample_bob | exists sample_script]; reflexivity.
Defined.

Lemma sample_db_validated : validated (val := sample_validators) sample_db.
Proof.
  unfold validated.
  split; repeat (apply map_Forall_insert_2; [|apply map_Forall_empty]).
  - split; reflexivity.
  - split; reflexivity.
Defined.

(** The sample requests leave the sample store well formed. *)
Lemma requests_keep_store_wf_witness :
  store_wf sample_db
  /\ store_wf (serve (lib := sample_library) (val := sample_validators)
                 (perm := spec_permissions) sample_db sample_requests).
Proof.
  split; [exact sample_db_store_wf|].
  apply requests_keep_store_wf. exact sample_db_store_wf.
Defined.

(** The sample requests, one of which tries to rate a script 6, leave the
    sample store validated. *)
Lemma requests_keep_validated_witness :
  validated (val := sample_validators) sample_db
  /\ validated (val := sample_validators)
       (serve (lib := sample_library) (val := sample_validators)
          (perm := spec_permissions) sample_db sample_requests).
Proof.
  split; [exact sample_db_validated|].
  apply requests_keep_validated. exact sample_db_validated.
Defined.

(** Ada deletes her account: her script and Bob's rating of it go with it,
    and nothing dangles. *)
Lemma request_keeps_references_witness :
  requester_stored sample_db (Authenticated sample_ada)
  /\ referential sample_db
  /\ referential (dispatch (lib := sample_library) (val := sample_validators)
                    (perm := spec_permissions) sample_db 300
                    (Authenticated sample_ada) (UserDestroy 2)).1.
Proof.
  assert (requester_stored sample_db (Authenticated sample_ada)) as Hru
    by (exists sample_ada; reflexivity).
  split; [exact Hru|]. split; [exact sample_db_referential|].
  apply request_keeps_references; [exact Hru | exact sample_db_referential].
Defined.

(** After the sample requests the account that asked to be staff is
    stored and is not staff. *)
Lemma requests_grant_no_staff_witness :
  store_wf sample_db
  /\ auth_user sample_db !! 4 = None
  /\ exists u', auth_user (serve (lib := sample_library) (val := sample_validators)
                             (perm := spec_permissions) sample_db sample_requests)
                  !! 4 = Some u'
       /\ User_is_staff u' = false.
Proof.
  split; [exact sample_db_store_wf|]. split; [reflexivity|].
  destruct (auth_user (serve (lib := sample_library) (val := sample_validators)
                         (perm := spec_permissions) sample_db sample_requests) !! 4)
    as [u'|] eqn:Hu'.
  - exists u'. split; [reflexivity|].
    exact (requests_grant_no_staff (lib := sample_library) (val := sample_validators)
             (perm := spec_permissions) sample_db sample_requests
             sample_db_store_wf 4 u' Hu').
  - exfalso. vm_compute in Hu'. discriminate Hu'.
Defined.

(** Ada renames herself with a body that lists the group she is in: the
    update is answered, and every account is in the groups it was in.  She
    asks to be moved to the group 2: she stays in the group 1. *)
Lemma members_cannot_change_groups_witness :
  let same : gmap string value :=
    <["username" := VStr "countess"]>
    (<["groups" := VList [VUrl "group-detail" 1]]> ∅) in
  let other : gmap string value := <["groups" := VList [VUrl "group-detail" 2]]> ∅ in
  keyed User_pk (auth_user sample_db)
  /\ is_staff (Authenticated sample_ada) = false
  /\ is_ok (UserViewSet_update (lib := sample_library) (val := sample_validators)
              (perm := spec_permissions) sample_db (Authenticated sample_ada) 2 true
              same).2 = true
  /\ User_groups <$> auth_user
       (UserViewSet_update (lib := sample_library) (val := sample_validators)
          (perm := spec_permissions) sample_db (Authenticated sample_ada) 2 true
          same).1 !! 2 = Some [1]
  /\ User_groups <$> auth_user
       (UserViewSet_update (lib := sample_library) (val := sample_validators)
          (perm := spec_permissions) sample_db (Authenticated sample_ada) 2 true
          other).1 !! 2 = Some [1].
Proof.
  intros same other.
  assert (keyed User_pk (auth_user sample_db)) as Hkeyed
    by (repeat (apply map_Forall_insert_2; [reflexivity|]); apply map_Forall_empty).
  split; [exact Hkeyed|]. split; [reflexivity|].
  split; [vm_compute; reflexivity|]. split.
  - rewrite (members_cannot_change_groups (lib := sample_library)
               (val := sample_validators) (perm := spec_permissions)
               sample_db (Authenticated sample_ada) 2 true same Hkeyed eq_refl 2).
    reflexivity.
  - rewrite (members_cannot_change_groups (lib := sample_library)
               (val := sample_validators) (perm := spec_permissions)
               sample_db (Authenticated sample_ada) 2 true other Hkeyed eq_refl 2).
    reflexivity.
Defined.

(** After the sample requests, in which Ada named Bob as author of her
    script, the script is still hers. *)
Lemma scripts_keep_author_witness :
  store_wf sample_db
  /\ api_script sample_db !! 1 = Some sample_script
  /\ exists s', api_script (serve (lib := sample_library) (val := sample_validators)
                              (perm := spec_permissions) sample_db sample_requests)
                  !! 1 = Some s'
       /\ Script_author s' = 2 /\ Script_created s' = 100.
Proof.
  split; [exact sample_db_store_wf|]. split; [reflexivity|].
  destruct (api_script (serve (lib := sample_library) (val := sample_validators)
                          (perm := spec_permissions) sample_db sample_requests) !! 1)
    as [s'|] eqn:Hs'.
  - exists s'. split; [reflexivity|].
    exact (scripts_keep_author (lib := sample_library) (val := sample_validators)
             (perm := spec_permissions) sample_db sample_requests 1 sample_script s'
             sample_db_store_wf eq_refl Hs').
  - exfalso. vm_compute in Hs'. discriminate Hs'.
Defined.

(** Bob rates the sample script 6: the answer is an error and the store is
    the sample store. *)
Lemma failed_request_writes_nothing_witness :
  exists e,
    (dispatch (lib := sample_library) (val := sample_validators)
       (perm := spec_permissions) sample_db 300 (Authenticated sample_bob)
       (RatingCreate (sample_rating_body 6))).2 = Err e
    /\ (dispatch (lib := sample_library) (val := sample_validators)
          (perm := spec_permissions) sample_db 300 (Authenticated sample_bob)
          (RatingCreate (sample_rating_body 6))).1 = sample_db.
Proof.
  destruct (dispatch (lib := sample_library) (val := sample_validators)
              (perm := spec_permissions) sample_db 300 (Authenticated sample_bob)
              (RatingCreate (sample_rating_body 6))).2 as [rep|e] eqn:Hout.
  - exfalso. vm_compute in Hout. discriminate Hout.
  - exists e. split; [reflexivity|].
    exact (failed_request_writes_nothing (lib := sample_library)
             (val := sample_validators) (perm := spec_permissions)
             sample_db 300 (Authenticated sample_bob)
             (RatingCreate (sample_rating_body 6)) e Hout).
Defined.

(** A registration without an address is refused. *)
Lemma register_requires_fields_witness :
  let data : gmap string value :=
    <["username" := VStr "eve"]> (<["password" := VStr "s3cret"]> ∅) in
  data !! "email" = None
  /\ exists errors,
       RegisterViewSet_create (lib := sample_library) (val := sample_validators)
         sample_db 300 AnonymousUser data = (sample_db, Err (ValidationError errors))
       /\ ("email", ["This field is required."]) ∈ errors.
Proof.
  intros data. split; [reflexivity|].
  apply (register_requires_fields (lib := sample_library) (val := sample_validators)
           sample_db 300 AnonymousUser data "email").
  - right. right. left.
  - reflexivity.
Defined.

(** Bob posts the sample script body: the script starts with no views, the
    default version and licence, and no ratings. *)
Lemma created_script_starts_fresh_witness :
  exists db' rep s,
    ScriptViewSet_create (lib := sample_library) (val := sample_validators)
      (perm := spec_permissions) sample_db 300 (Authenticated sample_bob)
      sample_script_body = (db', Ok rep)
    /\ api_script db' !! 2 = Some s
    /\ Script_views s = 0 /\ Script_version s = "1.0" /\ Script_licence s = "MIT"
    /\ getitem rep "ratings" = Some (VList []).
Proof.
  destruct (ScriptViewSet_create (lib := sample_library) (val := sample_validators)
              (perm := spec_permissions) sample_db 300 (Authenticated sample_bob)
              sample_script_body) as [db' [rep|e]] eqn:Hout.
  - destruct (created_script_starts_fresh (lib := sample_library)
                (val := sample_validators) (perm := spec_permissions)
                sample_db 300 (Authenticated sample_bob) sample_script_body db' rep Hout)
      as (s & Hs & Hviews & _ & _ & Hversion & Hlicence & _ & _ & Hratings).
    exists db', rep, s. split; [reflexivity|]. split; [exact Hs|].
    split; [exact Hviews|]. split; [exact (Hversion eq_refl)|].
    split; [exact (Hlicence eq_refl)|].
    exact (Hratings sample_db_store_wf sample_db_referential).
  - exfalso. vm_compute in Hout. discriminate Hout.
Defined.

(** Ada renames her script with a body that names Bob as author and sets
    the views to 1000: the script keeps its author and its 7 views, and
    [modified] is the time of the request. *)
Lemma script_update_keeps_read_only_witness :
  let data : gmap string value :=
    <["author" := VUrl "user-detail" 3]>
    (<["views" := VInt 1000]> (<["name" := VStr "hi"]> ∅)) in
  keyed Script_pk (api_script sample_db)
  /\ exists db' rep s',
       ScriptViewSet_update (lib := sample_library) (val := sample_validators)
         (perm := spec_permissions) sample_db 340 (Authenticated sample_ada) 1 true data
       = (db', Ok rep)
       /\ api_script db' !! 1 = Some s'
       /\ Script_author s' = 2 /\ Script_views s' = 7 /\ Script_modified s' = 340.
Proof.
  intros data. split; [exact sample_db_keyed|].
  destruct (ScriptViewSet_update (lib := sample_library) (val := sample_validators)
              (perm := spec_permissions) sample_db 340 (Authenticated sample_ada) 1 true
              data) as [db' [rep|e]] eqn:Hout.
  - destruct (script_update_keeps_read_only (lib := sample_library)
                (val := sample_validators) (perm := spec_permissions)
                sample_db 340 (Authenticated sample_ada) 1 true data db' rep
                sample_db_keyed Hout)
      as (s & s' & Hs & -> & Hmodified & Hauthor & Hviews & _).
    assert (s = sample_script) as -> by (vm_compute in Hs; injection Hs as <-; reflexivity).
    exists (set_api_script (<[1 := s']>) sample_db), rep, s'.
    split; [reflexivity|]. split; [apply lookup_insert_eq|].
    split; [exact Hauthor|]. split; [exact Hviews | exact Hmodified].
  - exfalso. vm_compute in Hout. discriminate Hout.
Defined.

(** Bob changes his rating to 2 with a body that names Ada as its user: the
    rating stays his. *)
Lemma rating_update_keeps_user_witness :
  let data : gmap string value :=
    <["rating" := VInt 2]> (<["user" := VUrl "user-detail" 2]> ∅) in
  keyed Rating_pk (api_rating sample_db)
  /\ exists db' rep r',
       RatingViewSet_update (lib := sample_library)
         (perm := spec_permissions) sample_db 340 (Authenticated sample_bob) 1 true data
       = (db', Ok rep)
       /\ api_rating db' !! 1 = Some r'
       /\ Rating_user r' = 3 /\ Rating_modified r' = 340.
Proof.
  intros data.
  assert (keyed Rating_pk (api_rating sample_db)) as Hkeyed
    by (apply map_Forall_insert_2; [reflexivity | apply map_Forall_empty]).
  split; [exact Hkeyed|].
  destruct (RatingViewSet_update (lib := sample_library)
              (perm := spec_permissions) sample_db 340 (Authenticated sample_bob) 1 true
              data) as [db' [rep|e]] eqn:Hout.
  - destruct (rating_update_keeps_user (lib := sample_library)
                (perm := spec_permissions)
                sample_db 340 (Authenticated sample_bob) 1 true data db' rep
                Hkeyed Hout)
      as (r & r' & Hr & -> & Hmodified & Huser & _).
    assert (Rating_user r = 3) as Hbob
      by (vm_compute in Hr; injection Hr as <-; reflexivity).
    exists (set_api_rating (<[1 := r']>) sample_db), rep, r'.
    split; [reflexivity|]. split; [apply lookup_insert_eq|].
    split; [rewrite Huser; exact Hbob | exact Hmodified].
  - exfalso. vm_compute in Hout. discriminate Hout.
Defined.

(** Bob posts a script without files, and a rating without a script: both
    are refused for the missing field. *)
Lemma create_requires_fields_witness :
  let script_data : gmap string value :=
    <["name" := VStr "clock"]> (<["language" := VStr "python"]> ∅) in
  let rating_data : gmap string value := <["rating" := VInt 3]> ∅ in
  script_data !! "files" = None /\ rating_data !! "script" = None
  /\ (exists errors,
        ScriptViewSet_create (lib := sample_library) (val := sample_validators)
          (perm := spec_permissions) sample_db 300 (Authenticated sample_bob) script_data
        = (sample_db, Err (ValidationError errors))
        /\ ("files", ["This field is required."]) ∈ errors)
  /\ (exists e,
        RatingViewSet_create (lib := sample_library)
          (perm := spec_permissions) sample_db 300 (Authenticated sample_bob) rating_data
        = (sample_db, Err e)).
Proof.
  intros script_data rating_data. split; [reflexivity|]. split; [reflexivity|]. split.
  - destruct (create_requires_fields (lib := sample_library) (val := sample_validators)
                (perm := spec_permissions) sample_db 300 (Authenticated sample_bob)
                script_data "files" eq_refl) as [Hscript _].
    destruct Hscript as (e & Hview & Herror); [right; right; left|].
    destruct (Herror eq_refl) as (errors & -> & Hin).
    exists errors. split; [exact Hview | exact Hin].
  - destruct (create_requires_fields (lib := sample_library) (val := sample_validators)
                (perm := spec_permissions) sample_db 300 (Authenticated sample_bob)
                rating_data "script" eq_refl) as (_ & _ & Hrating).
    destruct (Hrating eq_refl) as (e & Hview & _). exists e. exact Hview.
Defined.
